(** * Printer discovery and metrics collection: a shallow embedding

    The development follows the Python sources of the printer manager:
    - [printer_monitor.py]: the SNMP probe, the supply-table reader, the
      percentage derivation, the metrics extractor and the two persistence
      functions of the monitor;
    - [fix_toner_reading.py]: the simulated table walk and the percentage
      branches of the diagnostic script;
    - [auto_configure_monitoring.py] / [printer_discovery.py]: the upsert of
      the discovery tool and the ping sweep.

    Python values are modelled as the code has them: [str] as [string]
    (8-bit characters, read as code points 0..255), [int] as [Z], [float] as
    IEEE 754 binary64 through [SpecFloat], [None]-or-value as [option], the
    supply dictionary as a [gmap string string], exceptions as an explicit
    result type, and the SQLite file as a record of rows threaded through
    the calls. *)

From Stdlib Require Import ZArith Lia Bool List Ascii String DecimalString.
From Stdlib Require Import Permutation SpecFloat.
From stdpp Require Import base option list strings gmap.

Local Open Scope string_scope.
Local Open Scope Z_scope.

(** ** Python builtins used by the sources *)

Module Py.

(** Exceptions the modelled code can meet.  Every constructor stands for a
    subclass of Python's [Exception]. *)
Inductive exn : Type :=
| ValueError
| ZeroDivisionError
| OverflowError
| KeyError
| IndexError
| OSError
| PySnmpError.

(** The outcome of running a piece of Python: a value, or a raised
    exception. *)
Inductive result (A : Type) : Type :=
| Return (a : A)
| Raise (e : exn).

Arguments Return {A} a.
Arguments Raise {A} e.

Definition bind {A B : Type} (c : result A) (k : A -> result B) : result B :=
  match c with
  | Return a => k a
  | Raise e => Raise e
  end.

(** [try: c  except <handled>: h] *)
Definition try_except {A : Type} (c : result A) (handled : exn -> bool)
    (h : result A) : result A :=
  match c with
  | Return a => Return a
  | Raise e => if handled e then h else Raise e
  end.

(** [except Exception] and the bare [except:] catch every modelled
    exception. *)
Definition any_exception (_ : exn) : bool := true.

(** Truthiness of a string and of an optional string ([if value:]). *)
Definition truthy (s : string) : bool :=
  match s with
  | EmptyString => false
  | String _ _ => true
  end.

Definition truthy_opt (o : option string) : bool :=
  match o with
  | Some s => truthy s
  | None => false
  end.

(** [o is not None] *)
Definition not_None {A : Type} (o : option A) : bool :=
  match o with
  | Some _ => true
  | None => false
  end.

Definition code (c : ascii) : N := N_of_ascii c.

(** [str.isspace] on one character of the range 0..255. *)
Definition isspace (c : ascii) : bool :=
  let n := code c in
  ((9 <=? n) && (n <=? 13) || (28 <=? n) && (n <=? 32)
   || (n =? 133) || (n =? 160))%N.

Fixpoint lstrip (s : string) : string :=
  match s with
  | EmptyString => EmptyString
  | String c r => if isspace c then lstrip r else s
  end.

Fixpoint rev_append (s acc : string) : string :=
  match s with
  | EmptyString => acc
  | String c r => rev_append r (String c acc)
  end.

Definition rev (s : string) : string := rev_append s EmptyString.

(** [s.strip()] *)
Definition strip (s : string) : string := rev (lstrip (rev (lstrip s))).

(** [str.lower] on one character of the range 0..255: the ASCII capitals
    and the Latin-1 capitals other than the multiplication sign. *)
Definition lower_char (c : ascii) : ascii :=
  let n := code c in
  if ((65 <=? n) && (n <=? 90)
      || (192 <=? n) && (n <=? 222) && negb (n =? 215))%N
  then ascii_of_N (n + 32) else c.

Fixpoint lower (s : string) : string :=
  match s with
  | EmptyString => EmptyString
  | String c r => String (lower_char c) (lower r)
  end.

(** [needle in hay] for strings. *)
Fixpoint contains (needle hay : string) : bool :=
  String.prefix needle hay
  || match hay with
     | EmptyString => false
     | String _ r => contains needle r
     end.

(** [str(n)] for an [int]. *)
Definition str_of_int (n : Z) : string := NilZero.string_of_int (Z.to_int n).

(** *** [int(s)] for a string

    Surrounding blanks are dropped, one sign is allowed, and the digits may
    be grouped by single underscores.  The blanks [int] accepts are the C
    ones and, above 127, the Unicode ones; the four separator controls
    28..31 that [str.strip] removes are not among them. *)
Definition int_space (c : ascii) : bool :=
  let n := code c in
  ((9 <=? n) && (n <=? 13) || (n =? 32) || (n =? 133) || (n =? 160))%N.

Fixpoint int_lstrip (s : string) : string :=
  match s with
  | EmptyString => EmptyString
  | String c r => if int_space c then int_lstrip r else s
  end.

Definition digit_of (c : ascii) : option Z :=
  let n := code c in
  if ((48 <=? n) && (n <=? 57))%N then Some (Z.of_N n - 48) else None.

(** [prev] tells whether the previous character was a digit. *)
Fixpoint parse_digits (s : string) (acc : Z) (prev : bool) : option Z :=
  match s with
  | EmptyString => if prev then Some acc else None
  | String c r =>
      match digit_of c with
      | Some d => parse_digits r (10 * acc + d) true
      | None =>
          if (code c =? 95)%N && prev then parse_digits r acc false else None
      end
  end.

Definition parse_int (s : string) : option Z :=
  let t := rev (int_lstrip (rev (int_lstrip s))) in
  match t with
  | String "-" r => Z.opp <$> parse_digits r 0 false
  | String "+" r => parse_digits r 0 false
  | _ => parse_digits t 0 false
  end.

Definition int_of_str (s : string) : result Z :=
  match parse_int s with
  | Some n => Return n
  | None => Raise ValueError
  end.

(** *** Floats: IEEE 754 binary64 *)

Definition prec : Z := 53.
Definition emax : Z := 1024.

(** [float(n)] for an [int]: the nearest double, ties to even. *)
Definition float_of_int (n : Z) : result spec_float :=
  match binary_normalize prec emax n 0 false with
  | S754_infinity _ => Raise OverflowError
  | f => Return f
  end.

(** [a / b] on two [int]s: the exact quotient rounded once to the nearest
    double. *)
Definition int_true_div (a b : Z) : result spec_float :=
  if b =? 0 then Raise ZeroDivisionError
  else if a =? 0 then Return (S754_zero (b <? 0))
  else
    match SFdiv prec emax
            (S754_finite (a <? 0) (Z.to_pos (Z.abs a)) 0)
            (S754_finite (b <? 0) (Z.to_pos (Z.abs b)) 0) with
    | S754_infinity _ => Raise OverflowError
    | f => Return f
    end.

(** [x * n] for a [float] and a small [int] literal. *)
Definition float_mul_int (x : spec_float) (n : Z) : result spec_float :=
  bind (float_of_int n) (fun y => Return (SFmul prec emax x y)).

(** [int(x)] for a [float]: truncation toward zero. *)
Definition int_of_float (x : spec_float) : result Z :=
  match x with
  | S754_zero _ => Return 0
  | S754_infinity _ => Raise OverflowError
  | S754_nan => Raise ValueError
  | S754_finite s m e =>
      let a := if 0 <=? e then Z.pos m * 2 ^ e else Z.pos m / 2 ^ (- e) in
      Return (if s then - a else a)
  end.

End Py.

#[global] Instance result_ret : MRet Py.result := @Py.Return.
#[global] Instance result_bind : MBind Py.result :=
  fun A B k c => Py.bind c k.

(** ** The management protocol as the sources see it

    [await hlapi.getCmd(...)] either raises or gives the tuple
    [(errorIndication, errorStatus, errorIndex, varBinds)].  The error
    indication is [None] or an error object (always truthy), the error status
    an integer that is [0] when there is no error, and each variable binding
    a pair of an object name and a value, kept here as [str(value)]. *)

Module Snmp.
Import Py.

Record response : Type := {
  errorIndication : option string;
  errorStatus : Z;
  varBinds : list (string * string)
}.

(** The network and the devices on it.  [getCmd ip oid timeout] is what the
    request for [oid] sent to [ip] comes back with; the sources send each
    request of a run at most once. *)
Record env : Type := {
  SnmpEngine : result unit;
  getCmd : string -> string -> Z -> result response
}.

(** [varBinds[0][1]], as a string. *)
Definition first_value (r : response) : result string :=
  match varBinds r with
  | [] => Raise IndexError
  | (_, v) :: _ => Return v
  end.

(** [if errorIndication or errorStatus] *)
Definition reports_error (r : response) : bool :=
  not_None (errorIndication r) || negb (errorStatus r =? 0).

(** ["No Such" not in value and value.strip()] *)
Definition usable (value : string) : bool :=
  negb (contains "No Such" value) && truthy (strip value).

End Snmp.

Fixpoint foldM {A B : Type} (f : B -> A -> Py.result B) (l : list A) (b : B)
    : Py.result B :=
  match l with
  | [] => Py.Return b
  | a :: r => b' ← f b a; foldM f r b'
  end.

(** ** printer_monitor.py *)

Module PrinterMonitor.
Import Py Snmp.

(** [snmp_get(ip, oid, timeout=2)] *)
Definition snmp_get (net : env) (ip oid : string) (timeout : Z)
    : result (option string) :=
  try_except
    (_ ← SnmpEngine net;
     r ← getCmd net ip oid timeout;
     if not_None (errorIndication r) then Return None
     else if negb (errorStatus r =? 0) then Return None
     else
       value ← first_value r;
       if usable value then Return (Some value) else Return None)
    any_exception
    (Return None).

(** The five columns of one row of the supply table, in the order of the
    [base_oids] dictionary. *)
Definition base_oids (index : Z) : list (string * string) :=
  [ ("description", "1.3.6.1.2.1.43.11.1.1.6.1." +:+ str_of_int index);
    ("type", "1.3.6.1.2.1.43.11.1.1.5.1." +:+ str_of_int index);
    ("unit", "1.3.6.1.2.1.43.11.1.1.7.1." +:+ str_of_int index);
    ("max_capacity", "1.3.6.1.2.1.43.11.1.1.8.1." +:+ str_of_int index);
    ("current_level", "1.3.6.1.2.1.43.11.1.1.9.1." +:+ str_of_int index) ].

(** [get_supply_info(ip, index)]: the dictionary of the columns that
    resolved, or [None] when none did. *)
Definition get_supply_info (net : env) (ip : string) (index : Z)
    : result (option (gmap string string)) :=
  supply ← foldM
    (fun (supply : gmap string string) '(key, oid) =>
       value ← snmp_get net ip oid 2;
       match value with
       | Some v => if truthy v then Return (<[key := v]> supply)
                   else Return supply
       | None => Return supply
       end)
    (base_oids index) ∅;
  if decide (supply = ∅) then Return None else Return (Some supply).

(** [calculate_toner_percentage(current, max_capacity)]: the pair
    [(percentage, status)]. *)
Definition calculate_toner_percentage (current max_capacity : string)
    : result (option Z * option string) :=
  try_except
    (current_val ← int_of_str current;
     max_val ← int_of_str max_capacity;
     if current_val =? -3 then Return (None, Some "OK")
     else if current_val =? -2 then Return (None, Some "Unknown")
     else if current_val <? 0
     then Return (None, Some ("Status: " +:+ str_of_int current_val))
     else if (max_val >? 0) && negb (max_val =? -2)
     then
       q ← int_true_div current_val max_val;
       x ← float_mul_int q 100;
       percentage ← int_of_float x;
       Return (Some percentage, None)
     else Return (None, Some "Cannot calculate"))
    (fun e => match e with
              | ValueError | ZeroDivisionError => true
              | _ => false
              end)
    (Return (None, Some "Error")).

(** The [metrics] dictionary of the extractor: six fixed keys, each [None]
    or a value. *)
Record metrics : Type := {
  total_pages : option Z;
  model : option string;
  device_status : option Z;
  toner_level_pct : option Z;
  toner_status : option string;
  drum_level_pct : option Z
}.

Definition no_metrics : metrics :=
  {| total_pages := None; model := None; device_status := None;
     toner_level_pct := None; toner_status := None; drum_level_pct := None |}.

Definition set_total_pages (v : Z) (m : metrics) : metrics :=
  {| total_pages := Some v; model := model m;
     device_status := device_status m;
     toner_level_pct := toner_level_pct m; toner_status := toner_status m;
     drum_level_pct := drum_level_pct m |}.

Definition set_model (v : string) (m : metrics) : metrics :=
  {| total_pages := total_pages m; model := Some v;
     device_status := device_status m;
     toner_level_pct := toner_level_pct m; toner_status := toner_status m;
     drum_level_pct := drum_level_pct m |}.

Definition set_device_status (v : Z) (m : metrics) : metrics :=
  {| total_pages := total_pages m; model := model m;
     device_status := Some v;
     toner_level_pct := toner_level_pct m; toner_status := toner_status m;
     drum_level_pct := drum_level_pct m |}.

Definition set_toner_level_pct (v : Z) (m : metrics) : metrics :=
  {| total_pages := total_pages m; model := model m;
     device_status := device_status m;
     toner_level_pct := Some v; toner_status := toner_status m;
     drum_level_pct := drum_level_pct m |}.

Definition set_toner_status (v : string) (m : metrics) : metrics :=
  {| total_pages := total_pages m; model := model m;
     device_status := device_status m;
     toner_level_pct := toner_level_pct m; toner_status := Some v;
     drum_level_pct := drum_level_pct m |}.

Definition set_drum_level_pct (v : Z) (m : metrics) : metrics :=
  {| total_pages := total_pages m; model := model m;
     device_status := device_status m;
     toner_level_pct := toner_level_pct m; toner_status := toner_status m;
     drum_level_pct := Some v |}.

(** [any(v is not None for v in metrics.values())] *)
Definition any_value (m : metrics) : bool :=
  not_None (total_pages m) || not_None (model m)
  || not_None (device_status m) || not_None (toner_level_pct m)
  || not_None (toner_status m) || not_None (drum_level_pct m).

Definition is_ValueError (e : exn) : bool :=
  match e with
  | ValueError => true
  | _ => false
  end.

(** [if value: try: metrics[key] = int(value) except ValueError: pass] *)
Definition store_int (set : Z -> metrics -> metrics) (value : option string)
    (m : metrics) : result metrics :=
  match value with
  | Some v =>
      if truthy v
      then try_except (n ← int_of_str v; Return (set n m)) is_ValueError
             (Return m)
      else Return m
  | None => Return m
  end.

(** ['toner' in desc and 'black' in desc] and ['drum' in desc] *)
Definition is_toner (desc : string) : bool :=
  contains "toner" desc && contains "black" desc.

Definition is_drum (desc : string) : bool := contains "drum" desc.

(** One turn of the loop over the supply table: the body of
    [for index in range(1, 10)]. *)
Definition supply_step (net : env) (ip : string) (m : metrics) (index : Z)
    : result metrics :=
  supply ← get_supply_info net ip index;
  match supply with
  | None => Return m
  | Some supply =>
      let desc := lower (default "" (supply !! "description")) in
      let current := supply !! "current_level" in
      let max_cap := supply !! "max_capacity" in
      match current, max_cap with
      | Some current, Some max_cap =>
          if negb (truthy current) || negb (truthy max_cap) then Return m
          else if is_toner desc then
            '(pct, status) ← calculate_toner_percentage current max_cap;
            match pct with
            | Some p => Return (set_toner_level_pct p m)
            | None =>
                match status with
                | Some st => if truthy st then Return (set_toner_status st m)
                             else Return m
                | None => Return m
                end
            end
          else if is_drum desc then
            '(pct, status) ← calculate_toner_percentage current max_cap;
            match pct with
            | Some p => Return (set_drum_level_pct p m)
            | None => Return m
            end
          else Return m
      | _, _ => Return m
      end
  end.

(** [range(1, 10)] *)
Definition supply_indices : list Z := [1; 2; 3; 4; 5; 6; 7; 8; 9].

Definition total_pages_oid : string := "1.3.6.1.2.1.43.10.2.1.4.1.1".
Definition model_oid : string := "1.3.6.1.2.1.25.3.2.1.3.1".
Definition device_status_oid : string := "1.3.6.1.2.1.25.3.2.1.5.1".

(** [get_printer_metrics_async(ip)]: the dictionary, or [None] when no key
    got a value. *)
Definition get_printer_metrics_async (net : env) (ip : string)
    : result (option metrics) :=
  pages ← snmp_get net ip total_pages_oid 2;
  m ← store_int set_total_pages pages no_metrics;
  mdl ← snmp_get net ip model_oid 2;
  let m := match mdl with
           | Some v => if truthy v then set_model v m else m
           | None => m
           end in
  status ← snmp_get net ip device_status_oid 2;
  m ← store_int set_device_status status m;
  m ← foldM (supply_step net ip) supply_indices m;
  if any_value m then Return (Some m) else Return None.

(** [get_printer_metrics(ip)]: the synchronous wrapper. *)
Definition get_printer_metrics (net : env) (ip : string)
    : result (option metrics) :=
  try_except (get_printer_metrics_async net ip) any_exception (Return None).

(** *** The database file

    Two tables.  [id] is [INTEGER PRIMARY KEY AUTOINCREMENT]: a new row gets
    one more than the largest id the table holds or ever held, which the
    [_seq] fields record.  [CURRENT_TIMESTAMP] is passed in as [now]. *)
Record printer_row : Type := {
  p_id : Z;
  p_ip : string;
  p_name : string;
  p_location : option string;
  p_model : option string;
  p_first_seen : Z
}.

Record metrics_row : Type := {
  m_id : Z;
  m_printer_id : Z;
  m_timestamp : Z;
  m_total_pages : option Z;
  m_toner_level_pct : option Z;
  m_toner_status : option string;
  m_drum_level_pct : option Z;
  m_device_status : option Z
}.

Record database : Type := {
  printers : list printer_row;
  printers_seq : Z;
  metrics_rows : list metrics_row;
  metrics_seq : Z
}.

Definition empty_database : database :=
  {| printers := []; printers_seq := 0; metrics_rows := []; metrics_seq := 0 |}.

(** The id [AUTOINCREMENT] gives the next row. *)
Definition next_id (ids : list Z) (seq : Z) : Z :=
  foldr Z.max seq ids + 1.

(** [SELECT ... FROM printers WHERE ip = ?], [fetchone()] *)
Definition find_printer (ip : string) (rows : list printer_row)
    : option printer_row :=
  List.find (fun r => String.eqb (p_ip r) ip) rows.

(** [INSERT INTO printers (ip, name, location, model) VALUES (?, ?, ?, ?)]
    once the unique key is known to be free. *)
Definition insert_printer (db : database) (now : Z) (ip name : string)
    (location mdl : option string) : database * Z :=
  let id := next_id (map p_id (printers db)) (printers_seq db) in
  ({| printers := printers db ++
        [ {| p_id := id; p_ip := ip; p_name := name; p_location := location;
             p_model := mdl; p_first_seen := now |} ];
      printers_seq := id;
      metrics_rows := metrics_rows db;
      metrics_seq := metrics_seq db |}, id).

Definition with_printers (db : database) (rows : list printer_row)
    : database :=
  {| printers := rows; printers_seq := printers_seq db;
     metrics_rows := metrics_rows db; metrics_seq := metrics_seq db |}.

(** [UPDATE printers SET model = ? WHERE id = ? AND model IS NULL] *)
Definition fill_model (id : Z) (mdl : string) (r : printer_row)
    : printer_row :=
  if (p_id r =? id) && negb (not_None (p_model r))
  then {| p_id := p_id r; p_ip := p_ip r; p_name := p_name r;
          p_location := p_location r; p_model := Some mdl;
          p_first_seen := p_first_seen r |}
  else r.

(** [get_or_create_printer(ip, name, location, model=None)] *)
Definition get_or_create_printer (db : database) (now : Z) (ip name : string)
    (location mdl : option string) : database * Z :=
  match find_printer ip (printers db) with
  | Some row =>
      let printer_id := p_id row in
      match mdl with
      | Some v =>
          if truthy v
          then (with_printers db (map (fill_model printer_id v) (printers db)),
                printer_id)
          else (db, printer_id)
      | None => (db, printer_id)
      end
  | None => insert_printer db now ip name location mdl
  end.

(** An [int] that [sqlite3] can bind to a parameter: a signed 64-bit
    integer.  For any other [int], [cursor.execute] raises
    [OverflowError]. *)
Definition fits_int64 (n : Z) : bool :=
  (- 2 ^ 63 <=? n) && (n <=? 2 ^ 63 - 1).

Definition bindable (value : option Z) : bool :=
  match value with
  | Some n => fits_int64 n
  | None => true
  end.

(** The parameters of the [INSERT] of [save_metrics] can all be bound: the
    printer id and the four numbers of the sample; the toner status is a
    text. *)
Definition storable (printer_id : Z) (m : metrics) : bool :=
  fits_int64 printer_id && bindable (total_pages m)
  && bindable (toner_level_pct m) && bindable (drum_level_pct m)
  && bindable (device_status m).

(** [INSERT INTO metrics (printer_id, total_pages, toner_level_pct,
    toner_status, drum_level_pct, device_status) VALUES (?, ?, ?, ?, ?, ?)]
    once the parameters are bound, and [commit]. *)
Definition insert_metrics (db : database) (now : Z) (printer_id : Z)
    (m : metrics) : database :=
  let id := next_id (map m_id (metrics_rows db)) (metrics_seq db) in
  {| printers := printers db;
     printers_seq := printers_seq db;
     metrics_rows := metrics_rows db ++
       [ {| m_id := id; m_printer_id := printer_id; m_timestamp := now;
            m_total_pages := total_pages m;
            m_toner_level_pct := toner_level_pct m;
            m_toner_status := toner_status m;
            m_drum_level_pct := drum_level_pct m;
            m_device_status := device_status m |} ];
     metrics_seq := id |}.

(** [save_metrics(printer_id, metrics)]: the database after the call, and
    what the call comes to.  When a parameter cannot be bound,
    [cursor.execute] raises before anything is written. *)
Definition save_metrics (db : database) (now : Z) (printer_id : Z)
    (m : metrics) : database * result unit :=
  if storable printer_id m
  then (insert_metrics db now printer_id m, Return tt)
  else (db, Raise OverflowError).

(** The body of the loop of [monitor_printers] for one printer of the
    database: collect, and when a sample came back, look the printer up and
    store the sample.  The body runs in a [try] whose handler for
    [Exception] prints the error: when [save_metrics] raises, what
    [get_or_create_printer] committed stays and no sample is stored. *)
Definition monitor_printer (net : env) (db : database) (now : Z)
    (ip name : string) (location : option string) : database :=
  match get_printer_metrics net ip with
  | Return (Some m) =>
      let '(db1, printer_id) :=
        get_or_create_printer db now ip name location (model m) in
      fst (save_metrics db1 now printer_id m)
  | _ => db
  end.

End PrinterMonitor.


(** ** fix_toner_reading.py *)

Module FixTonerReading.
Import Py Snmp.

(** What one turn of the loop of [snmp_walk] decides. *)
Inductive turn : Type :=
| Next (results : list (string * string))
| Break (results : list (string * string)).

(** The body of [for i in range(1, 20)], with its own [try] / bare
    [except: break]. *)
Definition walk_turn (net : env) (ip base_oid : string) (i : Z)
    (results : list (string * string)) : turn :=
  let oid := base_oid +:+ "." +:+ str_of_int i in
  match
    try_except
      (r ← getCmd net ip oid 2;
       if reports_error r then Return (Break results)
       else
         value ← first_value r;
         if usable value && negb (String.eqb value "")
         then Return (Next (results ++ [(oid, value)])%list)
         else if (i >? 5) && (0 <? Z.of_nat (length results))
         then Return (Break results)
         else Return (Next results))
      any_exception
      (Return (Break results))
  with
  | Return t => t
  | Raise _ => Break results
  end.

(** The loop: the pairs collected, and the indices probed on the way. *)
Fixpoint walk_loop (net : env) (ip base_oid : string) (indices : list Z)
    (results : list (string * string)) (probed : list Z)
    : list (string * string) * list Z :=
  match indices with
  | [] => (results, probed)
  | i :: rest =>
      match walk_turn net ip base_oid i results with
      | Next results' =>
          walk_loop net ip base_oid rest results' (probed ++ [i])%list
      | Break results' => (results', (probed ++ [i])%list)
      end
  end.

(** [range(1, 20)] *)
Definition walk_indices : list Z := map Z.of_nat (seq 1 19).

(** [snmp_walk(ip, base_oid)] with the indices it probed.  When the engine
    cannot be made, the outer handler prints and the empty list is
    returned. *)
Definition snmp_walk_trace (net : env) (ip base_oid : string)
    : list (string * string) * list Z :=
  match SnmpEngine net with
  | Return _ => walk_loop net ip base_oid walk_indices [] []
  | Raise _ => ([], [])
  end.

Definition snmp_walk (net : env) (ip base_oid : string)
    : list (string * string) :=
  fst (snmp_walk_trace net ip base_oid).

(** [unit_names.get(value, f'Unknown ({value})')] *)
Definition unit_names : list (string * string) :=
  [ ("3", "tenThousandthsOfInches"); ("4", "micrometers");
    ("7", "impressions"); ("8", "sheets"); ("11", "hours");
    ("12", "thousandthsOfOunces"); ("13", "tenthsOfGrams");
    ("14", "hundrethsOfFluidOunces"); ("15", "tenthsOfMilliliters");
    ("16", "feet"); ("17", "meters"); ("18", "items"); ("19", "percent") ].

Definition unit_name (value : string) : string :=
  match List.find (fun kv => String.eqb (fst kv) value) unit_names with
  | Some kv => snd kv
  | None => "Unknown (" +:+ value +:+ ")"
  end.

(** What section 6 of [diagnose_printer] prints for one toner or ink
    supply. *)
Inductive diagnosis : Type :=
| AlreadyPercent (percentage : Z)
| Calculated (percentage : spec_float)
| StatusUnknown
| StatusOK
| CannotCalculate
| Unable.

Definition diagnose_supply (unit current max_cap : string)
    : result diagnosis :=
  try_except
    (current_val ← int_of_str current;
     max_val ← int_of_str max_cap;
     if String.eqb unit "percent" then Return (AlreadyPercent current_val)
     else if (max_val >? 0) && negb (max_val =? -2)
             && negb (current_val =? -2) && negb (current_val =? -3)
     then
       q ← int_true_div current_val max_val;
       x ← float_mul_int q 100;
       Return (Calculated x)
     else if current_val =? -2 then Return StatusUnknown
     else if current_val =? -3 then Return StatusOK
     else Return CannotCalculate)
    (fun e => match e with
              | ValueError | ZeroDivisionError => true
              | _ => false
              end)
    (Return Unable).

End FixTonerReading.

(** ** auto_configure_monitoring.py and printer_discovery.py *)

Module AutoConfigure.
Import Py.
Import PrinterMonitor.

(** A discovered printer, as [check_if_printer] builds it: [ip] and [name]
    are always there, [location] and [model] are read with [dict.get] and so
    may be missing. *)
Record printer : Type := {
  ip : string;
  name : string;
  location : option string;
  model : option string
}.

(** [UPDATE printers SET name = ?, model = ?, location = ? WHERE ip = ?] *)
Definition update_printer (p : printer) (r : printer_row) : printer_row :=
  if String.eqb (p_ip r) (ip p)
  then {| p_id := p_id r; p_ip := p_ip r; p_name := name p;
          p_location := location p; p_model := model p;
          p_first_seen := p_first_seen r |}
  else r.

(** [add_printer_to_db(printer)]: the database after the call, and what the
    call returns.  The [INSERT] fails with [IntegrityError] exactly when the
    address is already stored; both branches commit before they print
    [printer['location']], which raises [KeyError] when the key is missing. *)
Definition add_printer_to_db (db : database) (now : Z) (p : printer)
    : database * result bool :=
  let printed := match location p with
                 | Some _ => Return tt
                 | None => Raise KeyError
                 end in
  match find_printer (ip p) (printers db) with
  | None =>
      let '(db', _) :=
        insert_printer db now (ip p) (name p)
          (Some (default "Auto-discovered" (location p)))
          (Some (default "Unknown" (model p))) in
      (db', _ ← printed; Return true)
  | Some _ =>
      (with_printers db (map (update_printer p) (printers db)),
       _ ← printed; Return false)
  end.

(** *** Subnets

    [ipaddress.ip_network((address, prefixlen), strict=False)] for IPv4: the
    host bits of the address are cleared. *)
Record network : Type := {
  network_address : Z;
  prefixlen : Z
}.

Definition ALL_ONES : Z := 2 ^ 32 - 1.

Definition netmask (prefix : Z) : Z :=
  Z.lxor ALL_ONES (Z.shiftr ALL_ONES prefix).

Definition hostmask (prefix : Z) : Z := Z.lxor (netmask prefix) ALL_ONES.

Definition ip_network (address prefix : Z) : result network :=
  if (0 <=? address) && (address <=? ALL_ONES)
     && (0 <=? prefix) && (prefix <=? 32)
  then Return {| network_address := Z.land address (netmask prefix);
                 prefixlen := prefix |}
  else Raise ValueError.

Definition broadcast_address (n : network) : Z :=
  Z.lor (network_address n) (hostmask (prefixlen n)).

(** [range(lo, hi)] *)
Definition range (lo hi : Z) : list Z :=
  map (fun k => lo + Z.of_nat k) (seq 0 (Z.to_nat (hi - lo))).

(** [network.hosts()]: every address of the subnet but the network and the
    broadcast address; a /31 keeps both of its addresses and a /32 its single
    one. *)
Definition hosts (n : network) : list Z :=
  if prefixlen n =? 31 then [network_address n; network_address n + 1]
  else if prefixlen n =? 32 then [network_address n]
  else range (network_address n + 1) (broadcast_address n).

(** [str(ip)]: the dotted quad. *)
Definition str_of_ip (a : Z) : string :=
  str_of_int (a / 2 ^ 24 mod 256) +:+ "." +:+ str_of_int (a / 2 ^ 16 mod 256)
  +:+ "." +:+ str_of_int (a / 2 ^ 8 mod 256) +:+ "." +:+ str_of_int (a mod 256).

(** The reachability check: [run_ping ip_str] is what
    [subprocess.run(['ping', ...])] comes back with, the return code of the
    command or an exception such as the timeout. *)
Definition ping_ip (run_ping : string -> result Z) (a : Z) : option string :=
  let ip_str := str_of_ip a in
  match run_ping ip_str with
  | Return returncode => if returncode =? 0 then Some ip_str else None
  | Raise _ => None
  end.

(** [ping_sweep_windows(subnet)].  The futures are made in the order of
    [hosts()] and read in the order they complete, which [completed] gives:
    it permutes the list of futures. *)
Definition ping_sweep_windows (run_ping : string -> result Z)
    (completed : list (option string) -> list (option string))
    (address prefix : Z) : result (list string) :=
  net ← ip_network address prefix;
  let futures := map (ping_ip run_ping) (hosts net) in
  Return (omap id (completed futures)).

End AutoConfigure.

(** * Definitions used in the statements *)

Import Py Snmp PrinterMonitor.

(** The probe as a function of what the engine and the request gave. *)
Definition probe_outcome (engine : result unit) (got : result response)
    : option string :=
  match engine, got with
  | Return _, Return r =>
      if reports_error r then None
      else match varBinds r with
           | (_, value) :: _ => if usable value then Some value else None
           | [] => None
           end
  | _, _ => None
  end.

(** A network on which every request times out. *)
Definition dead_net : env :=
  {| SnmpEngine := Return tt; getCmd := fun _ _ _ => Raise OSError |}.

(** The object identifiers of the five columns of a supply row. *)
Definition description_oid (index : Z) : string :=
  "1.3.6.1.2.1.43.11.1.1.6.1." +:+ str_of_int index.
Definition type_oid (index : Z) : string :=
  "1.3.6.1.2.1.43.11.1.1.5.1." +:+ str_of_int index.
Definition unit_oid (index : Z) : string :=
  "1.3.6.1.2.1.43.11.1.1.7.1." +:+ str_of_int index.
Definition max_capacity_oid (index : Z) : string :=
  "1.3.6.1.2.1.43.11.1.1.8.1." +:+ str_of_int index.
Definition current_level_oid (index : Z) : string :=
  "1.3.6.1.2.1.43.11.1.1.9.1." +:+ str_of_int index.

(** What the probe of [oid] with the default timeout gives. *)
Definition column (net : env) (ip oid : string) : option string :=
  probe_outcome (SnmpEngine net) (getCmd net ip oid 2).

(** [if value: supply[key] = value] *)
Definition put (key : string) (value : option string)
    (supply : gmap string string) : gmap string string :=
  match value with
  | Some v => if truthy v then <[key := v]> supply else supply
  | None => supply
  end.

(** The dictionary [get_supply_info] builds, column by column. *)
Definition supply_of (net : env) (ip : string) (index : Z)
    : gmap string string :=
  put "current_level" (column net ip (current_level_oid index))
    (put "max_capacity" (column net ip (max_capacity_oid index))
       (put "unit" (column net ip (unit_oid index))
          (put "type" (column net ip (type_oid index))
             (put "description" (column net ip (description_oid index)) ∅)))).

(** What a matched toner row, and a matched drum row, store. *)
Definition record_toner (m : metrics) (r : option Z * option string)
    : metrics :=
  match r with
  | (Some p, _) => set_toner_level_pct p m
  | (None, Some st) => if truthy st then set_toner_status st m else m
  | (None, None) => m
  end.

Definition record_drum (m : metrics) (r : option Z * option string)
    : metrics :=
  match r with
  | (Some p, _) => set_drum_level_pct p m
  | (None, _) => m
  end.

(** A device that answers the requests listed in [table] and reports every
    other object as missing. *)
Definition agent (table : list (string * string)) : env :=
  {| SnmpEngine := Return tt;
     getCmd := fun _ oid _ =>
       Return {| errorIndication := None;
                 errorStatus := 0;
                 varBinds :=
                   [ (oid,
                      match List.find (fun kv => String.eqb (fst kv) oid)
                              table with
                      | Some kv => snd kv
                      | None => "No Such Object currently exists at this OID"
                      end) ] |} |}.

(** A row described as black toner whose level is missing. *)
Definition toner_without_level : env :=
  agent [ ("1.3.6.1.2.1.43.11.1.1.6.1.1", "Black Toner Cartridge");
          ("1.3.6.1.2.1.43.11.1.1.8.1.1", "100") ].

(** The metrics after the three direct probes, before the supply table is
    read. *)
Definition basic_metrics (net : env) (ip : string) : metrics :=
  {| total_pages := v ← column net ip total_pages_oid; parse_int v;
     model := column net ip model_oid;
     device_status := v ← column net ip device_status_oid; parse_int v;
     toner_level_pct := None;
     toner_status := None;
     drum_level_pct := None |}.

(** The metrics row [save_metrics] writes for a sample. *)
Definition stored_row (id printer_id now : Z) (m : metrics) : metrics_row :=
  {| m_id := id; m_printer_id := printer_id; m_timestamp := now;
     m_total_pages := total_pages m;
     m_toner_level_pct := toner_level_pct m;
     m_toner_status := toner_status m;
     m_drum_level_pct := drum_level_pct m;
     m_device_status := device_status m |}.


(** A printer that reports its model and nothing else. *)
Definition model_only_printer : env :=
  agent [ (model_oid, "HP LaserJet 4250") ].

(** How the loop treats the supply row at an index: not readable (the level
    or the capacity did not resolve), black toner, drum, or a supply the
    monitor does not follow. *)
Inductive row_kind : Type :=
| Unreadable
| TonerRow (current max_cap : string)
| DrumRow (current max_cap : string)
| OtherRow.

Definition kind_of_row (net : env) (ip : string) (index : Z) : row_kind :=
  match column net ip (current_level_oid index),
        column net ip (max_capacity_oid index) with
  | Some current, Some max_cap =>
      let desc :=
        lower (default "" (column net ip (description_oid index))) in
      if is_toner desc then TonerRow current max_cap
      else if is_drum desc then DrumRow current max_cap
      else OtherRow
  | _, _ => Unreadable
  end.






(** The levels from 0 to 100 of a capacity of 100 for which the code does
    not return the level itself. *)
Definition misread_levels : list Z :=
  List.filter
    (fun c => match calculate_toner_percentage (str_of_int c) "100" with
              | Return (Some p, _) => negb (p =? c)
              | _ => true
              end)
    (map Z.of_nat (seq 0 101)).

(** A black toner row that reports its level in percent (unit code 19)
    with an unknown capacity. *)
Definition percent_toner : env :=
  agent [ (description_oid 1, "Black Toner Cartridge");
          (unit_oid 1, "19");
          (max_capacity_oid 1, "-2");
          (current_level_oid 1, "42") ].

(** The number of stored rows with a given address. *)
Definition count_ip (ip : string) (rows : list printer_row) : nat :=
  length (List.filter (fun r => String.eqb (p_ip r) ip) rows).

(** The constraint [ip TEXT UNIQUE] of the table. *)
Definition unique_ips (db : database) : Prop :=
  List.NoDup (map p_ip (printers db)).

(** The subnet 192.0.2.0/30 with one host that answers. *)
Definition answers_at (ip_str : string) (s : string) : result Z :=
  if String.eqb s ip_str then Return 0 else Return 1.

(** The object identifier probed for an index: [f"{base_oid}.{i}"]. *)
Definition probe_oid (base_oid : string) (i : Z) : string :=
  base_oid +:+ "." +:+ str_of_int i.

(** What the request for one index comes to: it failed (the request raised,
    the response carries an error, or it has no variable binding), it gave
    an empty or placeholder value, or it gave a value. *)
Inductive answer : Type :=
| Failed
| Empty
| Value (v : string).

Definition answer_at (net : env) (ip base_oid : string) (i : Z) : answer :=
  match getCmd net ip (probe_oid base_oid i) 2 with
  | Raise _ => Failed
  | Return r =>
      if reports_error r then Failed
      else match varBinds r with
           | [] => Failed
           | (_, v) :: _ =>
               if usable v && negb (String.eqb v "") then Value v else Empty
           end
  end.

(** The pair the walk keeps for an index, when it keeps one. *)
Definition pair_at (net : env) (ip base_oid : string) (i : Z)
    : option (string * string) :=
  match answer_at net ip base_oid i with
  | Value v => Some (probe_oid base_oid i, v)
  | _ => None
  end.

(** The indices [first, first + 1, ..., first + count - 1]. *)
Definition indices_from (first count : nat) : list Z :=
  map Z.of_nat (seq first count).

(** The pairs kept for the indices 1 to [n]. *)
Definition pairs_upto (net : env) (ip base_oid : string) (n : nat)
    : list (string * string) :=
  omap (pair_at net ip base_oid) (indices_from 1 n).

(** The walk ends at an index when the request for it failed, or when it
    gave no value, the index is above 5 and some earlier index gave one. *)
Definition halts (net : env) (ip base_oid : string) (i : nat) : bool :=
  match answer_at net ip base_oid (Z.of_nat i) with
  | Failed => true
  | Empty => (5 <? i)%nat
             && negb (Nat.eqb (length (pairs_upto net ip base_oid (i - 1))) 0)
  | Value _ => false
  end.

(** The last index probed once [done] indices are behind and at most [left]
    are ahead: the first one at which the walk ends, or the last one. *)
Fixpoint last_probed (halt : nat -> bool) (done left : nat) : nat :=
  match left with
  | O => done
  | S left' =>
      if halt (S done) then S done else last_probed halt (S done) left'
  end.

(** An agent whose first supply description is missing and whose second is
    there. *)
Definition gap_at_first_index : env :=
  {| SnmpEngine := Return tt;
     getCmd := fun _ oid _ =>
       if String.eqb oid "1.3.6.1.2.1.43.11.1.1.6.1.1"
       then Return {| errorIndication := None; errorStatus := 0;
                      varBinds := [(oid, "No Such Instance currently exists at this OID")] |}
       else if String.eqb oid "1.3.6.1.2.1.43.11.1.1.6.1.2"
       then Return {| errorIndication := None; errorStatus := 0;
                      varBinds := [(oid, "Black Toner Cartridge")] |}
       else Raise OSError |}.

(** Decimal digits, the 256 values of an octet, and the 33 prefix
    lengths. *)
Definition is_digit (c : ascii) : bool :=
  match digit_of c with
  | Some _ => true
  | None => false
  end.

Fixpoint digits_only (s : string) : bool :=
  match s with
  | EmptyString => true
  | String c r => is_digit c && digits_only r
  end.

Definition octets : list Z := map Z.of_nat (seq 0 256).

Definition octet_of_str (s : string) : option Z :=
  List.find (fun k => String.eqb (str_of_int k) s) octets.

Definition prefixes : list Z := map Z.of_nat (seq 0 33).

(** * More of the sources

    The functions around the ones above: the other copies of the probe, the
    classifier and the scans of the two discovery scripts, the file of
    subnets, the cycle of the monitor, and the supply map of the diagnostic
    script. *)

(** ** More Python builtins *)

Module PyStr.

(** [s.split(sep, 1)]: the part before the first separator and, when there
    is one, the part after it. *)
Fixpoint split_once (sep : ascii) (s : string) : string * option string :=
  match s with
  | EmptyString => (EmptyString, None)
  | String c r =>
      if Ascii.eqb c sep then (EmptyString, Some r)
      else let '(a, b) := split_once sep r in (String c a, b)
  end.

(** [s.startswith(c)] for a one-character prefix. *)
Definition startswith (c : ascii) (s : string) : bool :=
  match s with
  | EmptyString => false
  | String d _ => Ascii.eqb d c
  end.

(** The part of [s] after its last [sep], when [sep] occurs in [s]. *)
Fixpoint after_last (sep : ascii) (s : string) : option string :=
  match s with
  | EmptyString => None
  | String c r =>
      match after_last sep r with
      | Some t => Some t
      | None => if Ascii.eqb c sep then Some r else None
      end
  end.

(** [s.split(sep)[-1]] *)
Definition last_component (sep : ascii) (s : string) : string :=
  default s (after_last sep s).

(** A string of [n] zeros. *)
Fixpoint zeros (n : nat) : string :=
  match n with
  | O => EmptyString
  | S n' => String "0" (zeros n')
  end.

End PyStr.

(** ** printer_monitor.py: the monitoring cycle *)

Module MonitorCycle.
Import Py Snmp PrinterMonitor.

(** [get_printers_from_db()]: the address, name and location of every
    stored printer.  The rows come [ORDER BY name]; [ordered] is the order
    the database gives them in. *)
Definition get_printers_from_db
    (ordered : list printer_row -> list printer_row) (db : database)
    : list (string * string * option string) :=
  map (fun r => (p_ip r, p_name r, p_location r)) (ordered (printers db)).

(** The loop of [monitor_printers] over the printers read from the
    database; [clock k] is the time at which the [k]-th of them is
    handled. *)
Fixpoint monitor_loop (net : env) (clock : nat -> Z) (k : nat)
    (todo : list (string * string * option string)) (db : database)
    : database :=
  match todo with
  | [] => db
  | (ip, name, location) :: rest =>
      monitor_loop net clock (S k) rest
        (monitor_printer net db (clock k) ip name location)
  end.

(** [monitor_printers()] *)
Definition monitor_printers (net : env)
    (ordered : list printer_row -> list printer_row) (clock : nat -> Z)
    (db : database) : database :=
  match get_printers_from_db ordered db with
  | [] => db
  | todo => monitor_loop net clock 0 todo db
  end.

End MonitorCycle.

(** ** printer_discovery.py *)

Module Discovery.
Import Py Snmp.

Definition SNMP_TIMEOUT : Z := 2.

Definition sysDescr_oid : string := "1.3.6.1.2.1.1.1.0".
Definition sysName_oid : string := "1.3.6.1.2.1.1.5.0".
Definition model_oid : string := "1.3.6.1.2.1.25.3.2.1.3.1".
Definition total_pages_oid : string := "1.3.6.1.2.1.43.10.2.1.4.1.1".

(** [snmp_get(ip, oid, timeout=2)] of the discovery script. *)
Definition snmp_get (net : env) (ip oid : string) (timeout : Z)
    : result (option string) :=
  try_except
    (_ ← SnmpEngine net;
     r ← getCmd net ip oid timeout;
     if not_None (errorIndication r) || negb (errorStatus r =? 0)
     then Return None
     else
       value ← first_value r;
       if contains "No Such" value || negb (truthy (strip value))
       then Return None
       else Return (Some value))
    any_exception
    (Return None).

Definition printer_keywords : list string :=
  [ "printer"; "print"; "laser"; "inkjet"; "multifunction";
    "hp"; "canon"; "epson"; "brother"; "xerox"; "ricoh";
    "samsung"; "lexmark"; "kyocera"; "sharp"; "dell";
    "konica"; "oki"; "toshiba"; "copystation"; "mfp" ].

(** [any(keyword in sys_descr.lower() for keyword in printer_keywords)] *)
Definition is_printer (sys_descr : string) : bool :=
  existsb (fun keyword => contains keyword (lower sys_descr))
    printer_keywords.

(** The dictionary [check_if_printer] returns. *)
Record found : Type := {
  f_ip : string;
  f_name : string;
  f_description : string;
  f_model : string;
  f_total_pages : string
}.

(** [value if value else fallback] *)
Definition or_else (value : option string) (fallback : string) : string :=
  match value with
  | Some v => if truthy v then v else fallback
  | None => fallback
  end.

(** [check_if_printer(ip)] *)
Definition check_if_printer (net : env) (ip : string)
    : result (option found) :=
  sys_descr ← snmp_get net ip sysDescr_oid SNMP_TIMEOUT;
  match sys_descr with
  | None => Return None
  | Some descr =>
      if negb (truthy descr) then Return None
      else if is_printer descr then
        name ← snmp_get net ip sysName_oid SNMP_TIMEOUT;
        mdl ← snmp_get net ip model_oid SNMP_TIMEOUT;
        pages ← snmp_get net ip total_pages_oid SNMP_TIMEOUT;
        Return (Some {| f_ip := ip;
                        f_name := or_else name "Unknown";
                        f_description := descr;
                        f_model := or_else mdl "Unknown";
                        f_total_pages := or_else pages "N/A" |})
      else Return None
  end.

(** [scan_ip_sync(ip)] *)
Definition scan_ip_sync (net : env) (a : Z) : option found :=
  let ip_str := AutoConfigure.str_of_ip a in
  match try_except (check_if_printer net ip_str) any_exception (Return None)
  with
  | Return r => r
  | Raise _ => None
  end.

(** [scan_subnet(subnet)]: every host address of the subnet is probed, with
    no ping sweep before; the results are read in the order the probes
    complete. *)
Definition scan_subnet (net : env)
    (completed : list (option found) -> list (option found))
    (address prefix : Z) : result (list found) :=
  network ← AutoConfigure.ip_network address prefix;
  let ip_list := AutoConfigure.hosts network in
  Return (omap id (completed (map (scan_ip_sync net) ip_list))).

End Discovery.

(** ** auto_configure_monitoring.py: the scan *)

Module Scan.
Import Py Snmp.

(** [snmp_get(ip, oid, timeout=2)] of the configuration script. *)
Definition snmp_get (net : env) (ip oid : string) (timeout : Z)
    : result (option string) :=
  try_except
    (_ ← SnmpEngine net;
     r ← getCmd net ip oid timeout;
     if not_None (errorIndication r) || negb (errorStatus r =? 0)
     then Return None
     else
       value ← first_value r;
       if negb (contains "No Such" value) && truthy (strip value)
       then Return (Some value)
       else Return None)
    any_exception
    (Return None).

(** The dictionary [check_if_printer] returns. *)
Record discovered : Type := {
  d_ip : string;
  d_name : string;
  d_description : string;
  d_model : string;
  d_total_pages : string;
  d_location : string
}.

(** [check_if_printer(ip, location)] *)
Definition check_if_printer (net : env) (ip location : string)
    : result (option discovered) :=
  sys_descr ← snmp_get net ip Discovery.sysDescr_oid Discovery.SNMP_TIMEOUT;
  match sys_descr with
  | None => Return None
  | Some descr =>
      if negb (truthy descr) then Return None
      else if Discovery.is_printer descr then
        name ← snmp_get net ip Discovery.sysName_oid Discovery.SNMP_TIMEOUT;
        mdl ← snmp_get net ip Discovery.model_oid Discovery.SNMP_TIMEOUT;
        pages ← snmp_get net ip Discovery.total_pages_oid
                  Discovery.SNMP_TIMEOUT;
        Return (Some {| d_ip := ip;
                        d_name := Discovery.or_else name
                                    (Discovery.or_else mdl
                                       ("Printer-" +:+ ip));
                        d_description := descr;
                        d_model := Discovery.or_else mdl "Unknown";
                        d_total_pages := Discovery.or_else pages "N/A";
                        d_location := location |})
      else Return None
  end.

(** [scan_ip_sync(ip, location)] *)
Definition scan_ip_sync (net : env) (location ip_str : string)
    : option discovered :=
  match try_except (check_if_printer net ip_str location) any_exception
          (Return None) with
  | Return r => r
  | Raise _ => None
  end.

(** [scan_subnet(subnet, location)]: the ping sweep, then the classifier
    over the live hosts, read in the order the probes complete. *)
Definition scan_subnet (net : env) (run_ping : string -> result Z)
    (pinged : list (option string) -> list (option string))
    (scanned : list (option discovered) -> list (option discovered))
    (address prefix : Z) (location : string) : result (list discovered) :=
  live_hosts ← AutoConfigure.ping_sweep_windows run_ping pinged address
                 prefix;
  match live_hosts with
  | [] => Return []
  | _ => Return (omap id (scanned (map (scan_ip_sync net location)
                                     live_hosts)))
  end.

(** [scan_multiple_subnets(subnet_list)] *)
Fixpoint scan_multiple_subnets (net : env) (run_ping : string -> result Z)
    (pinged : list (option string) -> list (option string))
    (scanned : list (option discovered) -> list (option discovered))
    (subnet_list : list (Z * Z * string)) (all_printers : list discovered)
    : result (list discovered) :=
  match subnet_list with
  | [] => Return all_printers
  | (address, prefix, location) :: rest =>
      printers ← scan_subnet net run_ping pinged scanned address prefix
                   location;
      scan_multiple_subnets net run_ping pinged scanned rest
        (all_printers ++ printers)%list
  end.

(** The dictionary of a discovered printer as [add_printer_to_db] reads
    it. *)
Definition as_printer (d : discovered) : AutoConfigure.printer :=
  {| AutoConfigure.ip := d_ip d;
     AutoConfigure.name := d_name d;
     AutoConfigure.location := Some (d_location d);
     AutoConfigure.model := Some (d_model d) |}.

(** *** The file of subnets *)

(** What [read_subnets_from_file] makes of one line of the file;
    [valid subnet] tells whether [ipaddress.ip_network(subnet,
    strict=False)] accepts the text. *)
Definition read_line (valid : string -> bool) (line : string)
    : option (string * string) :=
  let line := strip line in
  if negb (truthy line) || PyStr.startswith "#" line then None
  else
    let '(first, second) := PyStr.split_once "," line in
    let subnet := strip first in
    let location := match second with
                    | Some l => strip l
                    | None => "Auto-discovered"
                    end in
    if valid subnet then Some (subnet, location) else None.

(** [read_subnets_from_file(filename)]: [file] is [None] when the file does
    not exist, and the lines of the file otherwise. *)
Definition read_subnets_from_file (valid : string -> bool)
    (file : option (list string)) : list (string * string) :=
  match file with
  | None => []
  | Some lines => omap (read_line valid) lines
  end.

End Scan.

(** ** fix_toner_reading.py: the probe and the supply map *)

Module Diagnose.
Import Py Snmp.

(** [snmp_get(ip, oid)] of the diagnostic script: the timeout is 3 seconds
    and the engine is closed, inside the [try], once the response is
    there; [closed] is what [snmpEngine.close()] comes to. *)
Definition snmp_get (net : env) (closed : result unit) (ip oid : string)
    : result (option string) :=
  try_except
    (_ ← SnmpEngine net;
     r ← getCmd net ip oid 3;
     _ ← closed;
     if not_None (errorIndication r) || negb (errorStatus r =? 0)
     then Return None
     else
       value ← first_value r;
       if negb (contains "No Such" value) && truthy (strip value)
       then Return (Some value)
       else Return None)
    any_exception
    (Return None).

(** [oid.split('.')[-1]] *)
Definition index_of (oid : string) : string := PyStr.last_component "." oid.

(** [for oid, value in descriptions: supply_map[index] = {'description':
    value}] *)
Definition add_descriptions (descriptions : list (string * string))
    : gmap string (gmap string string) :=
  foldl (fun supply_map '(oid, value) =>
           <[index_of oid := {[ "description" := value ]}]> supply_map)
    ∅ descriptions.

(** [for oid, value in results: if index in supply_map:
    supply_map[index][key] = convert(value)] *)
Definition add_column (key : string) (convert : string -> string)
    (results : list (string * string))
    (supply_map : gmap string (gmap string string))
    : gmap string (gmap string string) :=
  foldl (fun supply_map '(oid, value) =>
           match supply_map !! index_of oid with
           | Some supply =>
               <[index_of oid := <[key := convert value]> supply]> supply_map
           | None => supply_map
           end)
    supply_map results.

(** The supply map of [diagnose_printer], from what the five walks
    returned. *)
Definition supply_map_of
    (descriptions types units max_caps levels : list (string * string))
    : gmap string (gmap string string) :=
  add_column "current_level" id levels
    (add_column "max_capacity" id max_caps
       (add_column "unit" FixTonerReading.unit_name units
          (add_column "type" id types
             (add_descriptions descriptions)))).

(** The five walks of [diagnose_printer]. *)
Definition walk_supplies (net : env) (ip : string)
    : gmap string (gmap string string) :=
  supply_map_of
    (FixTonerReading.snmp_walk net ip "1.3.6.1.2.1.43.11.1.1.6.1")
    (FixTonerReading.snmp_walk net ip "1.3.6.1.2.1.43.11.1.1.5.1")
    (FixTonerReading.snmp_walk net ip "1.3.6.1.2.1.43.11.1.1.7.1")
    (FixTonerReading.snmp_walk net ip "1.3.6.1.2.1.43.11.1.1.8.1")
    (FixTonerReading.snmp_walk net ip "1.3.6.1.2.1.43.11.1.1.9.1").

Definition shown_keywords : list string :=
  [ "toner"; "ink"; "black"; "cyan"; "magenta"; "yellow"; "cartridge" ].

(** Section 6 of [diagnose_printer] for one entry of the supply map:
    nothing for a supply that is no toner or ink, and the diagnosis
    otherwise; a missing level or capacity reads as ['0']. *)
Definition diagnose_entry (supply : gmap string string)
    : option (result FixTonerReading.diagnosis) :=
  let desc := default "Unknown" (supply !! "description") in
  let current := default "0" (supply !! "current_level") in
  let max_cap := default "0" (supply !! "max_capacity") in
  let unit := default "Unknown" (supply !! "unit") in
  if existsb (fun keyword => contains keyword (lower desc)) shown_keywords
  then Some (FixTonerReading.diagnose_supply unit current max_cap)
  else None.

End Diagnose.

(** ** printer_monitor.py: the reports

    The two queries behind [generate_current_status_report] and
    [generate_usage_report], over the tables as lists of rows.  [ordered]
    is the order [ORDER BY] leaves the rows in; times are numbers, as in
    the tables above, and [cutoff] is [datetime('now', '-N days')]. *)

Module Reports.
Import Py PrinterMonitor.

(** The ids of the samples of one printer. *)
Definition group_ids (rows : list metrics_row) (printer_id : Z) : list Z :=
  map m_id (List.filter (fun m => m_printer_id m =? printer_id) rows).

(** [MAX] and [MIN] of a group, which is never empty. *)
Definition max_of (values : list Z) : option Z :=
  match values with
  | [] => None
  | v :: rest => Some (foldr Z.max v rest)
  end.

Definition min_of (values : list Z) : option Z :=
  match values with
  | [] => None
  | v :: rest => Some (foldr Z.min v rest)
  end.

(** [SELECT MAX(id) FROM metrics GROUP BY printer_id] *)
Definition latest_ids (rows : list metrics_row) : list Z :=
  omap (fun printer_id => max_of (group_ids rows printer_id))
    (nodup Z.eq_dec (map m_printer_id rows)).

(** [FROM printers p LEFT JOIN metrics m ON p.id = m.printer_id] *)
Definition left_join (db : database)
    : list (printer_row * option metrics_row) :=
  flat_map
    (fun p =>
       match List.filter (fun m => m_printer_id m =? p_id p)
               (metrics_rows db) with
       | [] => [(p, None)]
       | samples => map (fun m => (p, Some m)) samples
       end)
    (printers db).

(** [WHERE m.id IN (SELECT MAX(id) ...) OR m.id IS NULL] *)
Definition is_current (db : database)
    (row : printer_row * option metrics_row) : bool :=
  match snd row with
  | Some m => existsb (Z.eqb (m_id m)) (latest_ids (metrics_rows db))
  | None => true
  end.

(** The rows of [generate_current_status_report]. *)
Definition current_status
    (ordered : list (printer_row * option metrics_row)
               -> list (printer_row * option metrics_row))
    (db : database) : list (printer_row * option metrics_row) :=
  ordered (List.filter (is_current db) (left_join db)).

(** One row of the usage report: [start_pages], [end_pages],
    [pages_printed] and [readings]. *)
Record usage : Type := {
  start_pages : Z;
  end_pages : Z;
  pages_printed : Z;
  readings : Z
}.

(** The page counters of a printer that [JOIN metrics m ON p.id =
    m.printer_id WHERE m.timestamp >= cutoff AND m.total_pages IS NOT NULL]
    leaves. *)
Definition counters (db : database) (cutoff : Z) (p : printer_row)
    : list Z :=
  omap m_total_pages
    (List.filter
       (fun m => (m_printer_id m =? p_id p) && (cutoff <=? m_timestamp m))
       (metrics_rows db)).

(** The group of one printer, when it has a row: [GROUP BY p.id, p.name,
    p.location], where [p.id] is the primary key. *)
Definition usage_of (db : database) (cutoff : Z) (p : printer_row)
    : option (printer_row * usage) :=
  match min_of (counters db cutoff p), max_of (counters db cutoff p) with
  | Some lo, Some hi =>
      Some (p, {| start_pages := lo; end_pages := hi;
                  pages_printed := hi - lo;
                  readings := Z.of_nat (length (counters db cutoff p)) |})
  | _, _ => None
  end.

(** The rows of [generate_usage_report]. *)
Definition usage_rows
    (ordered : list (printer_row * usage) -> list (printer_row * usage))
    (db : database) (cutoff : Z) : list (printer_row * usage) :=
  ordered (omap (usage_of db cutoff) (printers db)).

(** [total_pages] once the loop over the rows is over: [if printed:
    total_pages += printed]. *)
Definition total_pages_printed (rows : list (printer_row * usage)) : Z :=
  fold_left
    (fun total row =>
       if pages_printed (snd row) =? 0 then total
       else total + pages_printed (snd row))
    rows 0.

End Reports.

(** Every capacity from 1 to [bound] and every level from 0 to the capacity
    is read back by [int] from its decimal text and gets a percentage that
    is the floor of the exact one, or one below it. *)
Definition accurate_upto (bound : nat) : bool :=
  forallb
    (fun m =>
       forallb
         (fun c =>
            match parse_int (str_of_int (Z.of_nat c)),
                  parse_int (str_of_int (Z.of_nat m)),
                  calculate_toner_percentage (str_of_int (Z.of_nat c))
                    (str_of_int (Z.of_nat m)) with
            | Some c', Some m', Return (Some p, None) =>
                let exact := 100 * Z.of_nat c / Z.of_nat m in
                (c' =? Z.of_nat c) && (m' =? Z.of_nat m)
                && (exact - 1 <=? p) && (p <=? exact) && (0 <=? p)
            | _, _, _ => false
            end)
         (seq 0 (S m)))
    (seq 1 bound).

(** A level of 309 digits, beyond the range of a double once multiplied by
    100. *)
Definition huge_level : string := String "1" (PyStr.zeros 308).

(** A printer that reports its page counter and a black toner row with that
    level. *)
Definition huge_toner : env :=
  agent [ (total_pages_oid, "1234");
          (description_oid 1, "Black Toner Cartridge");
          (max_capacity_oid 1, "1");
          (current_level_oid 1, huge_level) ].

(** The primary keys of the two tables. *)
Definition unique_printer_ids (db : database) : Prop :=
  List.NoDup (map p_id (printers db)).

Definition unique_metric_ids (db : database) : Prop :=
  List.NoDup (map m_id (metrics_rows db)).

(** The foreign key of the metrics table: every sample belongs to a stored
    printer. *)
Definition references_printers (db : database) : Prop :=
  Forall (fun row => In (m_printer_id row) (map p_id (printers db)))
    (metrics_rows db).

Definition consistent (db : database) : Prop :=
  unique_ips db /\ unique_printer_ids db /\ unique_metric_ids db
  /\ references_printers db.

(** A run of calls of [save_metrics], each with its time, printer id and
    sample; a call that raises leaves the run to go on. *)
Definition save_all (samples : list (Z * Z * metrics)) (db : database)
    : database :=
  fold_left
    (fun db '(now, printer_id, m) => fst (save_metrics db now printer_id m))
    samples db.

(** The calls of a run whose parameters can be bound. *)
Definition storable_calls (samples : list (Z * Z * metrics))
    : list (Z * Z * metrics) :=
  List.filter (fun '(_, printer_id, m) => storable printer_id m) samples.

(** Two versions of a printer row that differ at most in a model that was
    null and is now set. *)
Definition same_but_model (r r' : printer_row) : Prop :=
  p_id r' = p_id r /\ p_ip r' = p_ip r /\ p_name r' = p_name r
  /\ p_location r' = p_location r /\ p_first_seen r' = p_first_seen r
  /\ (p_model r' = p_model r \/ p_model r = None).

(** Whether the printer of a row gives the monitor a sample that can be
    stored under the id of the row. *)
Definition gives_stored_sample (net : env) (r : printer_row) : bool :=
  match get_printer_metrics net (p_ip r) with
  | Return (Some m) => storable (p_id r) m
  | _ => false
  end.

(** A database with two printers, of which the second has its model
    stored, and one sample. *)
Definition two_printers : database :=
  let '(db1, id1) :=
    get_or_create_printer empty_database 1700000000 "10.164.1.30"
      "Front desk" (Some "Main Office") None in
  let '(db2, _) :=
    get_or_create_printer db1 1700000060 "10.164.1.31" "Warehouse" None
      (Some "HP LaserJet 400") in
  fst (save_metrics db2 1700000120 id1 no_metrics).

(** A printer with a page counter and a model, as an agent. *)
Definition counting_printer : env :=
  agent [ (total_pages_oid, "1234"); (model_oid, "HP LaserJet 400") ].

(** The record [check_if_printer] of the configuration script builds for a
    device with the given description. *)
Definition discovered_at (net : env) (ip location descr : string)
    : Scan.discovered :=
  {| Scan.d_ip := ip;
     Scan.d_name :=
       Discovery.or_else (column net ip Discovery.sysName_oid)
         (Discovery.or_else (column net ip Discovery.model_oid)
            ("Printer-" +:+ ip));
     Scan.d_description := descr;
     Scan.d_model :=
       Discovery.or_else (column net ip Discovery.model_oid) "Unknown";
     Scan.d_total_pages :=
       Discovery.or_else (column net ip Discovery.total_pages_oid) "N/A";
     Scan.d_location := location |}.

(** The record [check_if_printer] of the discovery script builds. *)
Definition found_at (net : env) (ip descr : string) : Discovery.found :=
  {| Discovery.f_ip := ip;
     Discovery.f_name :=
       Discovery.or_else (column net ip Discovery.sysName_oid) "Unknown";
     Discovery.f_description := descr;
     Discovery.f_model :=
       Discovery.or_else (column net ip Discovery.model_oid) "Unknown";
     Discovery.f_total_pages :=
       Discovery.or_else (column net ip Discovery.total_pages_oid) "N/A" |}.

(** A laser printer that reports its description and model but no name. *)
Definition nameless_printer : env :=
  agent [ (Discovery.sysDescr_oid, "Brother HL-L2350DW series");
          (Discovery.model_oid, "Brother HL-L2350DW") ].

(** The loop of [main] of the configuration script over the printers a scan
    found: [new_count] counts the calls of [add_printer_to_db] that returned
    [True]; [clock k] is the time of the [k]-th call. *)
Fixpoint add_printers (clock : nat -> Z) (k : nat)
    (found : list AutoConfigure.printer) (db : database) (new_count : Z)
    : database * result Z :=
  match found with
  | [] => (db, Return new_count)
  | p :: rest =>
      let '(db1, created) := AutoConfigure.add_printer_to_db db (clock k) p in
      match created with
      | Return true => add_printers clock (S k) rest db1 (new_count + 1)
      | Return false => add_printers clock (S k) rest db1 new_count
      | Raise e => (db1, Raise e)
      end
  end.

(** Two records of one scan. *)
Definition two_discovered : list Scan.discovered :=
  [ discovered_at nameless_printer "10.164.1.31" "Main Office"
      "Brother HL-L2350DW series";
    discovered_at nameless_printer "10.164.1.40" "Main Office"
      "Brother HL-L2350DW series" ].

(** [c in s] for a character. *)
Fixpoint has_char (c : ascii) (s : string) : bool :=
  match s with
  | EmptyString => false
  | String d r => Ascii.eqb d c || has_char c r
  end.

(** A file of subnets as the sample file has it. *)
Definition sample_lines : list string :=
  [ "# Printer subnets"; ""; "10.164.1.0/24,Main Office";
    "  192.168.1.0/24 , Home Office  "; "10.0.0.0/24"; "not a subnet,Nowhere" ].

(** A string that starts with no blank. *)
Definition no_lead (s : string) : bool :=
  match s with
  | EmptyString => true
  | String c _ => negb (isspace c)
  end.

(** The value a walk kept for an index. *)
Definition value_at (results : list (string * string)) (base_oid : string)
    (i : Z) : option string :=
  snd <$> List.find (fun r => String.eqb (fst r) (probe_oid base_oid i))
            results.

(** [supply[key] = value] when there is a value. *)
Definition put_col (key : string) (value : option string)
    (supply : gmap string string) : gmap string string :=
  match value with
  | Some v => <[key := v]> supply
  | None => supply
  end.

(** The pairs of a walk, from the indices and values kept. *)
Definition pairs_of (base_oid : string) (ivs : list (Z * string))
    : list (string * string) :=
  map (fun iv => (probe_oid base_oid (fst iv), snd iv)) ivs.

(** The value kept for an index. *)
Definition kept (ivs : list (Z * string)) (i : Z) : option string :=
  snd <$> List.find (fun iv => fst iv =? i) ivs.

(** The entries of the supply table checked index by index: no dot in the
    decimal text of an index of the walk. *)
Definition indices_checked : bool :=
  forallb (fun i => negb (not_None (PyStr.after_last "." (str_of_int i))))
    FixTonerReading.walk_indices.

(** A printer with a black toner row that has a capacity but no level, and
    a row of fuser oil. *)
Definition toner_and_oil : env :=
  agent [ ("1.3.6.1.2.1.43.11.1.1.6.1.1", "Black Toner Cartridge");
          ("1.3.6.1.2.1.43.11.1.1.8.1.1", "3000");
          ("1.3.6.1.2.1.43.11.1.1.6.1.2", "Fuser Oil");
          ("1.3.6.1.2.1.43.11.1.1.9.1.2", "50") ].

(** The index and the value the walk keeps, when it keeps one. *)
Definition kept_at (net : env) (ip base_oid : string) (i : Z)
    : option (Z * string) :=
  match answer_at net ip base_oid i with
  | Value v => Some (i, v)
  | _ => None
  end.

(** Three samples of the first of the two printers and one of the
    second. *)
Definition sampled_printers : database :=
  save_all
    [ (1700003600, 1, set_total_pages 1200 no_metrics);
      (1700007200, 2, set_total_pages 40 no_metrics);
      (1700010800, 1, set_total_pages 1260 no_metrics) ]
    two_printers.

(** A page counter that never decreases from one reading to the next. *)
Fixpoint nondecreasing (l : list Z) : bool :=
  match l with
  | a :: (b :: _) as rest => (a <=? b) && nondecreasing rest
  | _ => true
  end.

(** The sum of the pages printed of the rows of a report. *)
Definition sum_printed (rows : list (printer_row * Reports.usage)) : Z :=
  foldr (fun row acc => Reports.pages_printed (snd row) + acc) 0 rows.

(** What the row of an index gives the toner percentage, the toner status
    and the drum percentage of the sample. *)
Definition toner_pct_at (net : env) (ip : string) (index : Z) : option Z :=
  match kind_of_row net ip index with
  | TonerRow current max_cap =>
      match calculate_toner_percentage current max_cap with
      | Return (Some p, _) => Some p
      | _ => None
      end
  | _ => None
  end.

Definition toner_status_at (net : env) (ip : string) (index : Z)
    : option string :=
  match kind_of_row net ip index with
  | TonerRow current max_cap =>
      match calculate_toner_percentage current max_cap with
      | Return (None, Some st) => if truthy st then Some st else None
      | _ => None
      end
  | _ => None
  end.

Definition drum_pct_at (net : env) (ip : string) (index : Z) : option Z :=
  match kind_of_row net ip index with
  | DrumRow current max_cap =>
      match calculate_toner_percentage current max_cap with
      | Return (Some p, _) => Some p
      | _ => None
      end
  | _ => None
  end.

(** The value of the last index that gives one, and [start] when none
    does. *)
Definition last_given {A : Type} (given : Z -> option A) (indices : list Z)
    (start : option A) : option A :=
  foldl (fun acc index =>
           match given index with
           | Some v => Some v
           | None => acc
           end)
    start indices.

(** A printer with two black toner rows. *)
Definition second_toner_wins : env :=
  agent [ (total_pages_oid, "1234");
          (description_oid 1, "Black Toner Cartridge");
          (max_capacity_oid 1, "100");
          (current_level_oid 1, "80");
          (description_oid 4, "Black Toner High Capacity");
          (max_capacity_oid 4, "200");
          (current_level_oid 4, "50") ].

(** * Properties of the embedded code *)

Ltac unfold_monad :=
  unfold mbind, result_bind, mret, result_ret, Py.bind in *.

(** ** The probe *)

Lemma strip_empty : strip "" = "".
Proof. reflexivity. Qed.

Lemma truthy_strip (s : string) : truthy (strip s) = true -> truthy s = true.
Proof. destruct s; [discriminate | reflexivity]. Qed.

Lemma usable_truthy (v : string) : usable v = true -> truthy v = true.
Proof.
  unfold usable. intros H. apply andb_true_iff in H as [_ H].
  now apply truthy_strip.
Qed.

Lemma snmp_get_outcome (net : env) (ip oid : string) (timeout : Z) :
  snmp_get net ip oid timeout
  = Return (probe_outcome (SnmpEngine net) (getCmd net ip oid timeout)).
Proof.
  unfold snmp_get, probe_outcome, reports_error, first_value. unfold_monad.
  destruct (SnmpEngine net) as [[]|e]; [|reflexivity].
  destruct (getCmd net ip oid timeout) as [r|e]; [|reflexivity].
  destruct (errorIndication r); [reflexivity|]. simpl.
  destruct (errorStatus r =? 0); [|reflexivity]. simpl.
  destruct (varBinds r) as [|[nm value] rest]; [reflexivity|]. simpl.
  destruct (usable value); reflexivity.
Qed.

Lemma snmp_get_Some_truthy (net : env) (ip oid : string) (timeout : Z)
    (v : string) :
  snmp_get net ip oid timeout = Return (Some v) -> truthy v = true.
Proof.
  rewrite snmp_get_outcome. unfold probe_outcome. intros H.
  destruct (SnmpEngine net); [|discriminate].
  destruct (getCmd net ip oid timeout) as [r|]; [|discriminate].
  destruct (reports_error r); [discriminate|].
  destruct (varBinds r) as [|[nm value] rest]; [discriminate|].
  destruct (usable value) eqn:U; [|discriminate].
  injection H as <-. now apply usable_truthy.
Qed.

(** C6: whatever the address, the object identifier and the timeout, the
    single-value probe [snmp_get] returns and never raises.  It returns
    [None] when the engine or the request raises, when the response carries
    an error indication or a non-zero error status, when the response has no
    variable binding, and when the value is empty, blank or a "No Such"
    placeholder; otherwise it returns the value. *)
Theorem snmp_get_never_raises (net : env) (ip oid : string) (timeout : Z) :
  (exists v, snmp_get net ip oid timeout = Return v)
  /\ (forall e, SnmpEngine net = Raise e ->
        snmp_get net ip oid timeout = Return None)
  /\ (forall e, getCmd net ip oid timeout = Raise e ->
        snmp_get net ip oid timeout = Return None)
  /\ (forall r, getCmd net ip oid timeout = Return r ->
        (errorIndication r <> None \/ errorStatus r <> 0) ->
        snmp_get net ip oid timeout = Return None)
  /\ (forall r, getCmd net ip oid timeout = Return r -> varBinds r = [] ->
        snmp_get net ip oid timeout = Return None)
  /\ (forall r nm value rest,
        getCmd net ip oid timeout = Return r ->
        varBinds r = (nm, value) :: rest ->
        (value = "" \/ strip value = "" \/ contains "No Such" value = true) ->
        snmp_get net ip oid timeout = Return None)
  /\ (forall r nm value rest,
        SnmpEngine net = Return tt ->
        getCmd net ip oid timeout = Return r ->
        errorIndication r = None -> errorStatus r = 0 ->
        varBinds r = (nm, value) :: rest ->
        contains "No Such" value = false -> strip value <> "" ->
        snmp_get net ip oid timeout = Return (Some value)).
Proof.
  rewrite snmp_get_outcome. unfold probe_outcome, reports_error.
  repeat split.
  - eauto.
  - intros e ->. reflexivity.
  - intros e ->. now destruct (SnmpEngine net).
  - intros r -> [H|H]; destruct (SnmpEngine net); try reflexivity.
    + destruct (errorIndication r); [reflexivity | congruence].
    + destruct (errorIndication r); [reflexivity|]. simpl.
      destruct (Z.eqb_spec (errorStatus r) 0); [congruence | reflexivity].
  - intros r -> ->. destruct (SnmpEngine net); [|reflexivity].
    now destruct (_ || _).
  - intros r nm value rest -> -> H. destruct (SnmpEngine net); [|reflexivity].
    destruct (_ || _); [reflexivity|].
    assert (usable value = false) as ->; [|reflexivity].
    unfold usable. destruct H as [-> | [H | H]].
    + reflexivity.
    + rewrite H. apply andb_false_r.
    + now rewrite H.
  - intros r nm value rest -> -> -> -> -> Hc Hs. simpl.
    unfold usable. rewrite Hc. simpl.
    destruct (strip value); [congruence | reflexivity].
Qed.

Lemma snmp_get_never_raises_witness :
  snmp_get dead_net "10.164.1.30" "1.3.6.1.2.1.1.1.0" 2 = Return None.
Proof.
  exact (proj1 (proj2 (proj2
    (snmp_get_never_raises dead_net "10.164.1.30" "1.3.6.1.2.1.1.1.0" 2)))
    OSError eq_refl).
Defined.

(** ** Reading one row of the supply table *)

Lemma snmp_get_column (net : env) (ip oid : string) :
  snmp_get net ip oid 2 = Return (column net ip oid).
Proof. apply snmp_get_outcome. Qed.

Lemma column_truthy (net : env) (ip oid v : string) :
  column net ip oid = Some v -> truthy v = true.
Proof.
  intros H. apply (snmp_get_Some_truthy net ip oid 2).
  now rewrite snmp_get_column, H.
Qed.

Lemma lookup_put_ne (key k : string) (value : option string)
    (supply : gmap string string) :
  key <> k -> put key value supply !! k = supply !! k.
Proof.
  intros Hne. unfold put. destruct value as [v|]; [|reflexivity].
  destruct (truthy v); [|reflexivity]. now apply lookup_insert_ne.
Qed.

Lemma lookup_put_eq (key : string) (value : option string)
    (supply : gmap string string) :
  (forall v, value = Some v -> truthy v = true) ->
  put key value supply !! key
  = match value with Some v => Some v | None => supply !! key end.
Proof.
  intros Ht. unfold put. destruct value as [v|]; [|reflexivity].
  rewrite (Ht v eq_refl). apply lookup_insert_eq.
Qed.

Lemma get_supply_info_eq (net : env) (ip : string) (index : Z) :
  get_supply_info net ip index
  = Return (if decide (supply_of net ip index = ∅) then None
            else Some (supply_of net ip index)).
Proof.
  unfold get_supply_info, base_oids. cbn [foldM]. unfold_monad.
  rewrite !snmp_get_column.
  change (supply_of net ip index) with
    (put "current_level" (column net ip (current_level_oid index))
       (put "max_capacity" (column net ip (max_capacity_oid index))
          (put "unit" (column net ip (unit_oid index))
             (put "type" (column net ip (type_oid index))
                (put "description"
                   (column net ip (description_oid index)) ∅))))).
  unfold put, description_oid, type_oid, unit_oid, max_capacity_oid,
    current_level_oid.
  destruct (column net ip _) as [v1|]; [destruct (truthy v1)|];
  (destruct (column net ip _) as [v2|]; [destruct (truthy v2)|]);
  (destruct (column net ip _) as [v3|]; [destruct (truthy v3)|]);
  (destruct (column net ip _) as [v4|]; [destruct (truthy v4)|]);
  (destruct (column net ip _) as [v5|]; [destruct (truthy v5)|]);
  destruct (decide _); reflexivity.
Qed.

Lemma supply_current_level (net : env) (ip : string) (index : Z) :
  supply_of net ip index !! "current_level"
  = column net ip (current_level_oid index).
Proof.
  unfold supply_of. rewrite lookup_put_eq by apply column_truthy.
  destruct (column net ip (current_level_oid index)); [reflexivity|].
  rewrite !lookup_put_ne by discriminate. apply lookup_empty.
Qed.

Lemma supply_max_capacity (net : env) (ip : string) (index : Z) :
  supply_of net ip index !! "max_capacity"
  = column net ip (max_capacity_oid index).
Proof.
  unfold supply_of. rewrite lookup_put_ne by discriminate.
  rewrite lookup_put_eq by apply column_truthy.
  destruct (column net ip (max_capacity_oid index)); [reflexivity|].
  rewrite !lookup_put_ne by discriminate. apply lookup_empty.
Qed.

Lemma supply_description (net : env) (ip : string) (index : Z) :
  supply_of net ip index !! "description"
  = column net ip (description_oid index).
Proof.
  unfold supply_of. rewrite !lookup_put_ne by discriminate.
  rewrite lookup_put_eq by apply column_truthy.
  destruct (column net ip (description_oid index)); [reflexivity|].
  apply lookup_empty.
Qed.

(** ** The percentage derivation *)

Lemma int_of_str_Return (s : string) (n : Z) :
  parse_int s = Some n -> int_of_str s = Return n.
Proof. unfold int_of_str. now intros ->. Qed.


(** ** One turn of the loop over the supply table *)

Lemma supply_step_eq (net : env) (ip : string) (m : metrics) (index : Z) :
  supply_step net ip m index
  = match column net ip (current_level_oid index),
          column net ip (max_capacity_oid index) with
    | Some current, Some max_cap =>
        let desc :=
          lower (default "" (column net ip (description_oid index))) in
        if is_toner desc
        then r ← calculate_toner_percentage current max_cap;
             Return (record_toner m r)
        else if is_drum desc
        then r ← calculate_toner_percentage current max_cap;
             Return (record_drum m r)
        else Return m
    | _, _ => Return m
    end.
Proof.
  unfold supply_step. rewrite get_supply_info_eq. unfold_monad.
  destruct (decide (supply_of net ip index = ∅)) as [E|_].
  - rewrite <- supply_current_level, E, lookup_empty. reflexivity.
  - rewrite supply_current_level, supply_max_capacity, supply_description.
    destruct (column net ip (current_level_oid index)) as [c|] eqn:Hc;
      [|reflexivity].
    destruct (column net ip (max_capacity_oid index)) as [mx|] eqn:Hm;
      [|reflexivity].
    rewrite (column_truthy _ _ _ _ Hc), (column_truthy _ _ _ _ Hm). simpl.
    destruct (is_toner _).
    + destruct (calculate_toner_percentage c mx) as [[[p|] [st|]]|];
        try reflexivity.
      simpl. now destruct (truthy st).
    + destruct (is_drum _); [|reflexivity].
      destruct (calculate_toner_percentage c mx) as [[[p|] [st|]]|];
        reflexivity.
Qed.

(** A row whose level or capacity did not resolve changes nothing. *)
Lemma supply_step_skip (net : env) (ip : string) (m : metrics) (index : Z) :
  column net ip (current_level_oid index) = None
  \/ column net ip (max_capacity_oid index) = None ->
  supply_step net ip m index = Return m.
Proof.
  rewrite supply_step_eq. intros [-> | ->]; [reflexivity|].
  now destruct (column net ip (current_level_oid index)).
Qed.

(** C9: when the current level or the maximum capacity of a supply row did
    not resolve, the turn of the loop for that row returns the metrics as
    they were: no percentage and no status is recorded for any channel,
    whatever the description of the row says. *)
Theorem unresolved_level_or_capacity_skips_row (net : env) (ip : string)
    (m : metrics) (index : Z) :
  snmp_get net ip (current_level_oid index) 2 = Return None
  \/ snmp_get net ip (max_capacity_oid index) 2 = Return None ->
  supply_step net ip m index = Return m.
Proof.
  rewrite !snmp_get_column. intros H. apply supply_step_skip.
  destruct H as [[= H] | [= H]]; auto.
Qed.

Lemma unresolved_level_or_capacity_skips_row_witness :
  snmp_get toner_without_level "10.164.1.30"
    "1.3.6.1.2.1.43.11.1.1.6.1.1" 2 = Return (Some "Black Toner Cartridge")
  /\ supply_step toner_without_level "10.164.1.30" no_metrics 1
     = Return no_metrics.
Proof.
  split; [vm_compute; reflexivity|].
  apply (unresolved_level_or_capacity_skips_row toner_without_level
           "10.164.1.30" no_metrics 1).
  left. vm_compute. reflexivity.
Defined.

(** ** The extractor *)

Lemma store_int_eq (set : Z -> metrics -> metrics) (value : option string)
    (m : metrics) :
  store_int set value m
  = Return match value with
           | Some v => if truthy v
                       then match parse_int v with
                            | Some n => set n m
                            | None => m
                            end
                       else m
           | None => m
           end.
Proof.
  unfold store_int, int_of_str. unfold_monad.
  destruct value as [v|]; [|reflexivity].
  destruct (truthy v); [|reflexivity].
  now destruct (parse_int v).
Qed.

Lemma get_printer_metrics_async_eq (net : env) (ip : string) :
  get_printer_metrics_async net ip
  = m ← foldM (supply_step net ip) supply_indices (basic_metrics net ip);
    if any_value m then Return (Some m) else Return None.
Proof.
  unfold get_printer_metrics_async.
  rewrite !snmp_get_column. unfold_monad. rewrite store_int_eq.
  cbv beta iota. rewrite store_int_eq. cbv beta iota.
  match goal with
  | |- match foldM _ _ ?a with _ => _ end
       = match foldM _ _ ?b with _ => _ end =>
      replace a with b; [reflexivity|]
  end.
  unfold basic_metrics.
  destruct (column net ip total_pages_oid) as [v1|] eqn:H1;
  destruct (column net ip model_oid) as [v2|] eqn:H2;
  destruct (column net ip device_status_oid) as [v3|] eqn:H3;
  repeat match goal with
         | H : column _ _ _ = Some _ |- _ =>
             rewrite (column_truthy _ _ _ _ H); clear H
         end;
  simpl;
  repeat match goal with
         | |- context [parse_int ?v] => destruct (parse_int v)
         end;
  reflexivity.
Qed.

Lemma foldM_cons_Return {A B : Type} (f : B -> A -> result B) (a : A)
    (l : list A) (b c : B) :
  foldM f (a :: l) b = Return c ->
  exists b', f b a = Return b' /\ foldM f l b' = Return c.
Proof.
  simpl. unfold_monad. destruct (f b a) as [b'|]; [|discriminate]. eauto.
Qed.



(** The direct callers of the extractor, in terms of its result. *)
Lemma get_printer_metrics_eq (net : env) (ip : string) :
  get_printer_metrics net ip
  = match get_printer_metrics_async net ip with
    | Return r => Return r
    | Raise _ => Return None
    end.
Proof. unfold get_printer_metrics, try_except. now destruct (_ net ip). Qed.

Lemma get_or_create_printer_metrics_rows (db : database) (now : Z)
    (ip name : string) (location mdl : option string) :
  metrics_rows (fst (get_or_create_printer db now ip name location mdl))
  = metrics_rows db.
Proof.
  unfold get_or_create_printer.
  destruct (find_printer ip (printers db)); [|reflexivity].
  destruct mdl as [v|]; [|reflexivity]. now destruct (truthy v).
Qed.

(** One pass of the monitor over a printer: without a sample nothing
    changes; with one, the printer is looked up or created, and the row of
    the sample is appended when its parameters can be bound. *)
Lemma monitor_printer_cases (net : env) (db : database) (now : Z)
    (ip name : string) (location : option string) :
  ((forall m, get_printer_metrics net ip <> Return (Some m)) ->
   monitor_printer net db now ip name location = db)
  /\ (forall m, get_printer_metrics net ip = Return (Some m) ->
      let created := get_or_create_printer db now ip name location (model m)
      in
      if storable (snd created) m
      then exists id,
             metrics_rows (monitor_printer net db now ip name location)
             = (metrics_rows db ++ [stored_row id (snd created) now m])%list
      else monitor_printer net db now ip name location = fst created).
Proof.
  split.
  - intros H. unfold monitor_printer.
    destruct (get_printer_metrics net ip) as [[m|]|]; try reflexivity.
    now destruct (H m).
  - intros m H. unfold monitor_printer. rewrite H.
    pose proof (get_or_create_printer_metrics_rows db now ip name location
                  (model m)) as Hrows.
    destruct (get_or_create_printer db now ip name location (model m))
      as [db1 printer_id].
    cbn [fst snd] in *. unfold save_metrics.
    destruct (storable printer_id m); [|reflexivity].
    unfold insert_metrics. simpl. rewrite Hrows.
    eexists. reflexivity.
Qed.

Lemma foldM_skip {A B : Type} (f : B -> A -> result B) (l : list A) (b : B) :
  (forall a, In a l -> f b a = Return b) -> foldM f l b = Return b.
Proof.
  induction l as [|a l IH]; intros H; [reflexivity|].
  simpl. rewrite (H a) by now left. unfold_monad.
  apply IH. intros a' Hin. apply H. now right.
Qed.




(** ** Samples in which only the model resolved *)

Lemma current_level_oid_not_model (index : Z) :
  current_level_oid index <> model_oid.
Proof. discriminate. Qed.

Lemma agent_missing (table : list (string * string)) (ip oid : string) :
  List.find (fun kv => String.eqb (fst kv) oid) table = None ->
  snmp_get (agent table) ip oid 2 = Return None.
Proof. rewrite snmp_get_outcome. simpl. now intros ->. Qed.

Lemma model_only_printer_others (ip oid : string) :
  oid <> model_oid ->
  snmp_get model_only_printer ip oid 2 = Return None.
Proof.
  intros Hne. apply agent_missing. cbn [List.find fst].
  destruct (String.eqb_spec model_oid oid); [congruence | reflexivity].
Qed.

(** C10: when the model probe resolves and no other probe gives the sample
    a value (the page counter and the device status do not resolve, and at
    each of the indices 1 to 9 the level or the capacity does not, as is the
    case when the model probe is the only one that resolves), the extractor
    returns a sample, because the model counts toward its test that some
    field resolved; and the row the monitor then inserts under the id of
    the printer has [total_pages], [toner_level_pct], [toner_status],
    [drum_level_pct] and [device_status] all null: the model is no column
    of the metrics table. *)
Theorem model_only_sample_stored_with_null_metrics (net : env) (ip v : string) :
  snmp_get net ip model_oid 2 = Return (Some v) ->
  snmp_get net ip total_pages_oid 2 = Return None ->
  snmp_get net ip device_status_oid 2 = Return None ->
  (forall index, In index supply_indices ->
     snmp_get net ip (current_level_oid index) 2 = Return None
     \/ snmp_get net ip (max_capacity_oid index) 2 = Return None) ->
  get_printer_metrics_async net ip
  = Return (Some {| total_pages := None; model := Some v;
                    device_status := None; toner_level_pct := None;
                    toner_status := None; drum_level_pct := None |})
  /\ forall db now name location,
       let printer_id :=
         snd (get_or_create_printer db now ip name location (Some v)) in
       fits_int64 printer_id = true ->
       exists id,
         metrics_rows (monitor_printer net db now ip name location)
         = (metrics_rows db
            ++ [ {| m_id := id; m_printer_id := printer_id;
                    m_timestamp := now;
                    m_total_pages := None; m_toner_level_pct := None;
                    m_toner_status := None; m_drum_level_pct := None;
                    m_device_status := None |} ])%list.
Proof.
  intros Hmodel Hpages Hstatus Hrows.
  rewrite snmp_get_column in Hmodel, Hpages, Hstatus.
  injection Hmodel as Hm. injection Hpages as Hp. injection Hstatus as Hs.
  assert (Hsample : get_printer_metrics_async net ip
                    = Return (Some (set_model v no_metrics))).
  { rewrite get_printer_metrics_async_eq. unfold basic_metrics.
    rewrite Hm, Hp, Hs.
    rewrite foldM_skip; [reflexivity|].
    intros index Hindex. apply supply_step_skip.
    destruct (Hrows index Hindex) as [H | H];
      rewrite snmp_get_column in H; injection H as H; auto. }
  split; [exact Hsample|].
  intros db now name location printer_id Hfits.
  destruct (monitor_printer_cases net db now ip name location) as [_ Hadd].
  specialize (Hadd (set_model v no_metrics)).
  rewrite get_printer_metrics_eq, Hsample in Hadd.
  specialize (Hadd eq_refl). cbv zeta in Hadd.
  change (model (set_model v no_metrics)) with (Some v) in Hadd.
  fold printer_id in Hadd.
  assert (Hstorable : storable printer_id (set_model v no_metrics) = true).
  { unfold storable. rewrite Hfits. reflexivity. }
  rewrite Hstorable in Hadd. exact Hadd.
Qed.

Lemma model_only_printer_rows (ip : string) (index : Z) :
  In index supply_indices ->
  snmp_get model_only_printer ip (current_level_oid index) 2 = Return None
  \/ snmp_get model_only_printer ip (max_capacity_oid index) 2 = Return None.
Proof.
  intros _. left. apply model_only_printer_others.
  apply current_level_oid_not_model.
Qed.

Lemma model_only_sample_stored_with_null_metrics_witness :
  exists id,
    metrics_rows (monitor_printer model_only_printer empty_database 1700000000
                    "10.164.1.30" "Front desk" (Some "Main Office"))
    = [ {| m_id := id; m_printer_id := 1; m_timestamp := 1700000000;
           m_total_pages := None; m_toner_level_pct := None;
           m_toner_status := None; m_drum_level_pct := None;
           m_device_status := None |} ].
Proof.
  exact (proj2 (model_only_sample_stored_with_null_metrics model_only_printer
                  "10.164.1.30" "HP LaserJet 4250" eq_refl eq_refl eq_refl
                  (model_only_printer_rows "10.164.1.30"))
           empty_database 1700000000 "Front desk" (Some "Main Office")
           eq_refl).
Defined.

(** ** Samples in which nothing resolved *)





(** ** Channels of a sample *)

Lemma supply_step_kind (net : env) (ip : string) (m : metrics) (index : Z) :
  supply_step net ip m index
  = match kind_of_row net ip index with
    | TonerRow current max_cap =>
        r ← calculate_toner_percentage current max_cap;
        Return (record_toner m r)
    | DrumRow current max_cap =>
        r ← calculate_toner_percentage current max_cap;
        Return (record_drum m r)
    | Unreadable | OtherRow => Return m
    end.
Proof.
  rewrite supply_step_eq. unfold kind_of_row.
  destruct (column net ip (current_level_oid index)); [|reflexivity].
  destruct (column net ip (max_capacity_oid index)); [|reflexivity].
  cbv zeta. destruct (is_toner _); [reflexivity|].
  now destruct (is_drum _).
Qed.











(** ** The percentage derivation on the sentinels and on numeric levels *)

(** The branches of [calculate_toner_percentage] that do not divide. *)
Lemma calculate_without_division (current max_capacity : string)
    (current_val max_val : Z) :
  parse_int current = Some current_val ->
  parse_int max_capacity = Some max_val ->
  (current_val = -3 ->
   calculate_toner_percentage current max_capacity = Return (None, Some "OK"))
  /\ (current_val = -2 ->
      calculate_toner_percentage current max_capacity
      = Return (None, Some "Unknown"))
  /\ (current_val < 0 -> current_val <> -3 -> current_val <> -2 ->
      calculate_toner_percentage current max_capacity
      = Return (None, Some ("Status: " +:+ str_of_int current_val)))
  /\ (0 <= current_val -> max_val <= 0 ->
      calculate_toner_percentage current max_capacity
      = Return (None, Some "Cannot calculate")).
Proof.
  intros Hc Hm. unfold calculate_toner_percentage.
  rewrite (int_of_str_Return _ _ Hc), (int_of_str_Return _ _ Hm).
  unfold_monad. cbv beta iota. repeat split.
  - intros ->. reflexivity.
  - intros ->. reflexivity.
  - intros Hneg H3 H2.
    destruct (Z.eqb_spec current_val (-3)); [contradiction|].
    destruct (Z.eqb_spec current_val (-2)); [contradiction|].
    destruct (Z.ltb_spec current_val 0); [reflexivity | lia].
  - intros Hpos Hmax.
    destruct (Z.eqb_spec current_val (-3)); [lia|].
    destruct (Z.eqb_spec current_val (-2)); [lia|].
    destruct (Z.ltb_spec current_val 0); [lia|].
    assert ((max_val >? 0) = false) as -> by lia. reflexivity.
Qed.

Lemma calculate_without_division_witness :
  calculate_toner_percentage "-3" "100" = Return (None, Some "OK").
Proof.
  exact (proj1 (calculate_without_division "-3" "100" (-3) 100
                  eq_refl eq_refl) eq_refl).
Defined.

(** C3, the division branch: for the level 29 of a capacity of 100 the code
    returns 28, where the floor of 29 / 100 x 100 is 29.  The quotient
    29 / 100 is rounded to the nearest double, below 0.29; its product with
    100 is rounded again, to the double just below 29; [int] then
    truncates. *)
Theorem percentage_of_29_in_100 :
  calculate_toner_percentage "29" "100" = Return (Some 28, None)
  /\ int_true_div 29 100 = Return (S754_finite false 5224175567749775 (-54))
  /\ float_mul_int (S754_finite false 5224175567749775 (-54)) 100
     = Return (S754_finite false 8162774324609023 (-48)).
Proof. repeat split; vm_compute; reflexivity. Qed.

Lemma misread_levels_eq : misread_levels = [29; 57; 58].
Proof. vm_compute. reflexivity. Qed.

(** ** The unit of a supply row *)

(** C1 on the monitor: the extractor reads the unit of the row and never
    looks at it.  For the row above it records the status "Cannot calculate"
    and no percentage, where the claim has the percentage 42 and no
    status. *)
Theorem percent_unit_ignored_by_monitor :
  supply_of percent_toner "10.164.1.30" 1 !! "unit" = Some "19"
  /\ get_printer_metrics_async percent_toner "10.164.1.30"
     = Return (Some {| total_pages := None; model := None;
                       device_status := None; toner_level_pct := None;
                       toner_status := Some "Cannot calculate";
                       drum_level_pct := None |}).
Proof. split; vm_compute; reflexivity. Qed.

(** C1 on the diagnostic script: there the unit is looked at, and a row in
    percent gives its level as the percentage whatever the capacity is. *)
Lemma percent_unit_read_by_diagnosis (current max_cap : string)
    (current_val max_val : Z) :
  parse_int current = Some current_val ->
  parse_int max_cap = Some max_val ->
  FixTonerReading.diagnose_supply (FixTonerReading.unit_name "19")
    current max_cap
  = Return (FixTonerReading.AlreadyPercent current_val).
Proof.
  intros Hc Hm. unfold FixTonerReading.diagnose_supply.
  rewrite (int_of_str_Return _ _ Hc), (int_of_str_Return _ _ Hm).
  reflexivity.
Qed.

Lemma percent_unit_read_by_diagnosis_witness :
  FixTonerReading.diagnose_supply (FixTonerReading.unit_name "19") "42" "-2"
  = Return (FixTonerReading.AlreadyPercent 42).
Proof.
  exact (percent_unit_read_by_diagnosis "42" "-2" 42 (-2) eq_refl eq_refl).
Defined.

(** ** The printers table *)

Lemma count_ip_absent (ip : string) (rows : list printer_row) :
  ~ In ip (map p_ip rows) -> count_ip ip rows = 0%nat.
Proof.
  unfold count_ip. induction rows as [|a l IH]; intros Hnin; [reflexivity|].
  simpl. destruct (String.eqb_spec (p_ip a) ip) as [E|_].
  - destruct Hnin. now left.
  - apply IH. intros Hin. apply Hnin. now right.
Qed.

Lemma find_printer_None (ip : string) (rows : list printer_row) :
  find_printer ip rows = None -> ~ In ip (map p_ip rows).
Proof.
  unfold find_printer. induction rows as [|a l IH]; simpl; [tauto|].
  destruct (String.eqb_spec (p_ip a) ip) as [E|Hne]; [discriminate|].
  intros Hf [H|H]; [contradiction | now apply IH].
Qed.

Lemma find_printer_Some (ip : string) (rows : list printer_row)
    (r : printer_row) :
  find_printer ip rows = Some r -> In r rows /\ p_ip r = ip.
Proof.
  unfold find_printer. intros H. apply List.find_some in H as [Hin He].
  split; [exact Hin | now apply String.eqb_eq].
Qed.

Lemma count_ip_found (ip : string) (rows : list printer_row)
    (r : printer_row) :
  List.NoDup (map p_ip rows) -> find_printer ip rows = Some r ->
  count_ip ip rows = 1%nat.
Proof.
  unfold count_ip, find_printer.
  induction rows as [|a l IH]; simpl; [discriminate|].
  intros Hnd. apply List.NoDup_cons_iff in Hnd as [Hnin Hnd].
  destruct (String.eqb_spec (p_ip a) ip) as [E|Hne].
  - intros _. simpl. f_equal. apply count_ip_absent. now rewrite <- E.
  - now apply IH.
Qed.

Lemma find_printer_map (f : printer_row -> printer_row) (ip : string)
    (rows : list printer_row) :
  (forall r, p_ip (f r) = p_ip r) ->
  find_printer ip (map f rows) = f <$> find_printer ip rows.
Proof.
  intros Hf. unfold find_printer.
  induction rows as [|a l IH]; [reflexivity|].
  simpl. rewrite Hf. now destruct (String.eqb (p_ip a) ip).
Qed.

Lemma map_p_ip_map (f : printer_row -> printer_row)
    (rows : list printer_row) :
  (forall r, p_ip (f r) = p_ip r) -> map p_ip (map f rows) = map p_ip rows.
Proof.
  intros Hf. induction rows as [|a l IH]; [reflexivity|].
  simpl. now rewrite Hf, IH.
Qed.

Lemma count_ip_map (f : printer_row -> printer_row) (ip : string)
    (rows : list printer_row) :
  (forall r, p_ip (f r) = p_ip r) ->
  count_ip ip (map f rows) = count_ip ip rows.
Proof.
  intros Hf. unfold count_ip.
  induction rows as [|a l IH]; [reflexivity|].
  simpl. rewrite Hf. destruct (String.eqb (p_ip a) ip); simpl; now rewrite IH.
Qed.

Lemma find_printer_app_new (ip : string) (rows : list printer_row)
    (r : printer_row) :
  find_printer ip rows = None -> p_ip r = ip ->
  find_printer ip (rows ++ [r]) = Some r
  /\ count_ip ip (rows ++ [r]) = 1%nat
  /\ (List.NoDup (map p_ip rows) -> List.NoDup (map p_ip (rows ++ [r]))).
Proof.
  intros Hnone Hr. pose proof (find_printer_None _ _ Hnone) as Hnin.
  repeat split.
  - unfold find_printer in *.
    induction rows as [|a l IH]; simpl in *.
    + now rewrite Hr, String.eqb_refl.
    + destruct (String.eqb (p_ip a) ip); [discriminate|].
      apply IH; [exact Hnone|]. intros Hin. apply Hnin. now right.
  - unfold count_ip. rewrite List.filter_app, length_app.
    fold (count_ip ip rows). rewrite (count_ip_absent _ _ Hnin). simpl.
    now rewrite Hr, String.eqb_refl.
  - intros Hnd. rewrite map_app. simpl.
    apply List.NoDup_app; [exact Hnd | repeat constructor; intros [] |].
    intros x Hx [<- | []]. rewrite Hr in Hx. contradiction.
Qed.

Lemma update_printer_ip (p : AutoConfigure.printer) (r : printer_row) :
  p_ip (AutoConfigure.update_printer p r) = p_ip r.
Proof.
  unfold AutoConfigure.update_printer. now destruct (String.eqb _ _).
Qed.

Lemma fill_model_ip (id : Z) (mdl : string) (r : printer_row) :
  p_ip (fill_model id mdl r) = p_ip r.
Proof. unfold fill_model. now destruct (_ && _). Qed.

(** One call of the upsert of the discovery tool. *)
Lemma add_printer_to_db_row (db : database) (now : Z)
    (p : AutoConfigure.printer) :
  unique_ips db ->
  let db' := fst (AutoConfigure.add_printer_to_db db now p) in
  unique_ips db'
  /\ count_ip (AutoConfigure.ip p) (printers db') = 1%nat
  /\ exists r,
       find_printer (AutoConfigure.ip p) (printers db') = Some r
       /\ match find_printer (AutoConfigure.ip p) (printers db) with
          | Some r0 =>
              p_model r = AutoConfigure.model p
              /\ p_name r = AutoConfigure.name p
              /\ p_location r = AutoConfigure.location p
              /\ p_first_seen r = p_first_seen r0 /\ p_id r = p_id r0
          | None =>
              p_model r = Some (default "Unknown" (AutoConfigure.model p))
              /\ p_first_seen r = now
          end.
Proof.
  intros Hu. unfold AutoConfigure.add_printer_to_db, unique_ips in *.
  destruct (find_printer (AutoConfigure.ip p) (printers db)) as [r0|] eqn:Hf.
  - cbn [fst with_printers printers].
    rewrite (map_p_ip_map _ _ (update_printer_ip p)).
    rewrite (count_ip_map _ _ _ (update_printer_ip p)).
    rewrite (find_printer_map _ _ _ (update_printer_ip p)), Hf.
    split; [exact Hu|]. split; [now apply (count_ip_found _ _ r0)|].
    eexists. split; [reflexivity|].
    apply find_printer_Some in Hf as [_ Hip].
    unfold AutoConfigure.update_printer.
    rewrite Hip, String.eqb_refl. simpl. repeat split; reflexivity.
  - unfold insert_printer. cbn [fst printers].
    match goal with
    | |- context [(printers db ++ [?r])%list] =>
        destruct (find_printer_app_new (AutoConfigure.ip p) (printers db) r
                    Hf eq_refl) as (Hfind & Hcount & Hnd)
    end.
    split; [now apply Hnd|]. split; [exact Hcount|].
    eexists. split; [exact Hfind|]. simpl. repeat split; reflexivity.
Qed.

(** One call of the lookup of the monitor. *)
Lemma get_or_create_printer_row (db : database) (now : Z) (ip name : string)
    (location mdl : option string) :
  unique_ips db ->
  let db' := fst (get_or_create_printer db now ip name location mdl) in
  unique_ips db'
  /\ count_ip ip (printers db') = 1%nat
  /\ exists r,
       find_printer ip (printers db') = Some r
       /\ match find_printer ip (printers db) with
          | Some r0 =>
              p_model r = match p_model r0 with
                          | Some old => Some old
                          | None => if truthy_opt mdl then mdl else None
                          end
              /\ p_name r = p_name r0 /\ p_location r = p_location r0
              /\ p_first_seen r = p_first_seen r0 /\ p_id r = p_id r0
          | None => p_model r = mdl /\ p_first_seen r = now
          end.
Proof.
  intros Hu. unfold get_or_create_printer, unique_ips in *.
  destruct (find_printer ip (printers db)) as [r0|] eqn:Hf.
  - assert (Hsame : unique_ips db /\ count_ip ip (printers db) = 1%nat).
    { split; [exact Hu | now apply (count_ip_found _ _ r0)]. }
    destruct mdl as [v|]; cbn [truthy_opt];
      [destruct (truthy v) eqn:Hv|]; cbn [fst with_printers printers].
    + rewrite (map_p_ip_map _ _ (fill_model_ip (p_id r0) v)).
      rewrite (count_ip_map _ _ _ (fill_model_ip (p_id r0) v)).
      rewrite (find_printer_map _ _ _ (fill_model_ip (p_id r0) v)), Hf.
      split; [exact Hu|]. split; [apply Hsame|].
      eexists. split; [reflexivity|].
      unfold fill_model. rewrite Z.eqb_refl.
      destruct (p_model r0) eqn:E; simpl; rewrite ?E;
        repeat split; reflexivity.
    + split; [exact Hu|]. split; [apply Hsame|].
      exists r0. split; [exact Hf|].
      destruct (p_model r0); repeat split; reflexivity.
    + split; [exact Hu|]. split; [apply Hsame|].
      exists r0. split; [exact Hf|].
      destruct (p_model r0); repeat split; reflexivity.
  - unfold insert_printer. cbn [fst printers].
    match goal with
    | |- context [(printers db ++ [?r])%list] =>
        destruct (find_printer_app_new ip (printers db) r Hf eq_refl)
          as (Hfind & Hcount & Hnd)
    end.
    split; [now apply Hnd|]. split; [exact Hcount|].
    eexists. split; [exact Hfind|]. simpl. repeat split; reflexivity.
Qed.

(** The claim that the model of the second call wins fails on the lookup of
    the monitor: the model stored by the first call stays. *)
Lemma stored_model_is_not_overwritten :
  let db1 := fst (get_or_create_printer empty_database 1700000000
                    "10.164.1.30" "Front desk" (Some "Main Office")
                    (Some "HP LaserJet 4250")) in
  let db2 := fst (get_or_create_printer db1 1700003600
                    "10.164.1.30" "Front desk" (Some "Main Office")
                    (Some "HP LaserJet 4350")) in
  map p_model (printers db2) = [Some "HP LaserJet 4250"].
Proof. vm_compute. reflexivity. Qed.

(** C2, amended: on a table whose addresses are unique, two calls of
    [add_printer_to_db] with the same address leave exactly one row for that
    address; its model is the model of the second call and its [first_seen]
    is the one the row had after the first call.  Two calls of
    [get_or_create_printer] with the same address also leave exactly one row
    with [first_seen] unchanged, but the second call writes its model only
    when the stored model is null and the new model is not empty: a stored
    model is never overwritten. *)
Theorem upsert_twice_keeps_one_row (db : database) (now1 now2 : Z) :
  unique_ips db ->
  (forall p1 p2 : AutoConfigure.printer,
     AutoConfigure.ip p1 = AutoConfigure.ip p2 ->
     let db1 := fst (AutoConfigure.add_printer_to_db db now1 p1) in
     let db2 := fst (AutoConfigure.add_printer_to_db db1 now2 p2) in
     count_ip (AutoConfigure.ip p1) (printers db2) = 1%nat
     /\ exists r1 r2,
          find_printer (AutoConfigure.ip p1) (printers db1) = Some r1
          /\ find_printer (AutoConfigure.ip p1) (printers db2) = Some r2
          /\ p_model r2 = AutoConfigure.model p2
          /\ p_first_seen r2 = p_first_seen r1)
  /\ (forall (ip name1 name2 : string) (loc1 loc2 mdl1 mdl2 : option string),
        let db1 := fst (get_or_create_printer db now1 ip name1 loc1 mdl1) in
        let db2 := fst (get_or_create_printer db1 now2 ip name2 loc2 mdl2) in
        count_ip ip (printers db2) = 1%nat
        /\ exists r1 r2,
             find_printer ip (printers db1) = Some r1
             /\ find_printer ip (printers db2) = Some r2
             /\ p_model r2 = match p_model r1 with
                             | Some old => Some old
                             | None => if truthy_opt mdl2 then mdl2 else None
                             end
             /\ p_first_seen r2 = p_first_seen r1).
Proof.
  intros Hu. split.
  - intros p1 p2 Hip db1 db2.
    destruct (add_printer_to_db_row db now1 p1 Hu) as (Hu1 & _ & r1 & Hr1 & _).
    fold db1 in Hu1, Hr1.
    destruct (add_printer_to_db_row db1 now2 p2 Hu1)
      as (_ & Hc2 & r2 & Hr2 & Hrel).
    fold db2 in Hc2, Hr2. rewrite <- Hip in Hc2, Hr2, Hrel.
    rewrite Hr1 in Hrel. destruct Hrel as (Hm & _ & _ & Hfs & _).
    split; [exact Hc2|]. exists r1, r2. auto.
  - intros ip name1 name2 loc1 loc2 mdl1 mdl2 db1 db2.
    destruct (get_or_create_printer_row db now1 ip name1 loc1 mdl1 Hu)
      as (Hu1 & _ & r1 & Hr1 & _).
    fold db1 in Hu1, Hr1.
    destruct (get_or_create_printer_row db1 now2 ip name2 loc2 mdl2 Hu1)
      as (_ & Hc2 & r2 & Hr2 & Hrel).
    fold db2 in Hc2, Hr2. rewrite Hr1 in Hrel.
    destruct Hrel as (Hm & _ & _ & Hfs & _).
    split; [exact Hc2|]. exists r1, r2. auto.
Qed.

Lemma unique_ips_empty : unique_ips empty_database.
Proof. constructor. Qed.

Lemma upsert_twice_keeps_one_row_witness :
  let p1 := {| AutoConfigure.ip := "10.164.1.30";
               AutoConfigure.name := "Front desk";
               AutoConfigure.location := Some "Main Office";
               AutoConfigure.model := Some "HP LaserJet 4250" |} in
  let p2 := {| AutoConfigure.ip := "10.164.1.30";
               AutoConfigure.name := "Front desk";
               AutoConfigure.location := Some "Main Office";
               AutoConfigure.model := Some "HP LaserJet 4350" |} in
  let db1 := fst (AutoConfigure.add_printer_to_db empty_database
                    1700000000 p1) in
  let db2 := fst (AutoConfigure.add_printer_to_db db1 1700003600 p2) in
  count_ip "10.164.1.30" (printers db2) = 1%nat
  /\ exists r1 r2,
       find_printer "10.164.1.30" (printers db1) = Some r1
       /\ find_printer "10.164.1.30" (printers db2) = Some r2
       /\ p_model r2 = Some "HP LaserJet 4350"
       /\ p_first_seen r2 = p_first_seen r1.
Proof.
  exact (proj1 (upsert_twice_keeps_one_row empty_database 1700000000
                  1700003600 unique_ips_empty)
           {| AutoConfigure.ip := "10.164.1.30";
              AutoConfigure.name := "Front desk";
              AutoConfigure.location := Some "Main Office";
              AutoConfigure.model := Some "HP LaserJet 4250" |}
           {| AutoConfigure.ip := "10.164.1.30";
              AutoConfigure.name := "Front desk";
              AutoConfigure.location := Some "Main Office";
              AutoConfigure.model := Some "HP LaserJet 4350" |}
           eq_refl).
Defined.

(** ** The ping sweep *)

Lemma In_range (lo hi a : Z) :
  In a (AutoConfigure.range lo hi) -> lo <= a < hi.
Proof.
  unfold AutoConfigure.range. intros H.
  apply List.in_map_iff in H as (k & <- & Hk).
  apply List.in_seq in Hk. lia.
Qed.

Lemma ping_ip_Some (run_ping : string -> result Z) (a : Z) (s : string) :
  AutoConfigure.ping_ip run_ping a = Some s ->
  s = AutoConfigure.str_of_ip a /\ run_ping s = Return 0.
Proof.
  unfold AutoConfigure.ping_ip.
  destruct (run_ping (AutoConfigure.str_of_ip a)) as [code|] eqn:Hrun;
    [|discriminate].
  destruct (Z.eqb_spec code 0) as [->|]; [|discriminate].
  intros [= <-]. auto.
Qed.


(** The dotted quad tells the address. *)
Lemma octets_checked :
  forallb (fun k => digits_only (str_of_int k)
                    && match octet_of_str (str_of_int k) with
                       | Some k' => k' =? k
                       | None => false
                       end)
    octets = true.
Proof. vm_compute. reflexivity. Qed.

Lemma In_octets (b : Z) : 0 <= b < 256 -> In b octets.
Proof.
  intros H. unfold octets. apply List.in_map_iff. exists (Z.to_nat b).
  split; [lia|]. apply List.in_seq. lia.
Qed.

Lemma octet_digits (b : Z) :
  0 <= b < 256 -> digits_only (str_of_int b) = true.
Proof.
  intros H. pose proof octets_checked as Hc.
  rewrite List.forallb_forall in Hc. specialize (Hc b (In_octets b H)).
  now apply andb_true_iff in Hc as [Hc _].
Qed.

Lemma octet_inj (a b : Z) :
  0 <= a < 256 -> 0 <= b < 256 -> str_of_int a = str_of_int b -> a = b.
Proof.
  intros Ha Hb E. pose proof octets_checked as Hc.
  rewrite List.forallb_forall in Hc.
  pose proof (Hc a (In_octets a Ha)) as H1.
  pose proof (Hc b (In_octets b Hb)) as H2.
  apply andb_true_iff in H1 as [_ H1]. apply andb_true_iff in H2 as [_ H2].
  rewrite E in H1.
  destruct (octet_of_str (str_of_int b)) as [k|]; [|discriminate].
  apply Z.eqb_eq in H1, H2. congruence.
Qed.

Lemma split_at_dot (s t x y : string) :
  digits_only s = true -> digits_only t = true ->
  s +:+ String "." x = t +:+ String "." y -> s = t /\ x = y.
Proof.
  revert t. induction s as [|c s IH]; intros [|d t] Hs Ht E; simpl in *.
  - injection E as <-. auto.
  - injection E as <- _. apply andb_true_iff in Ht as [Ht _]. discriminate.
  - injection E as -> _. apply andb_true_iff in Hs as [Hs _]. discriminate.
  - injection E as <- E. apply andb_true_iff in Hs as [_ Hs].
    apply andb_true_iff in Ht as [_ Ht].
    destruct (IH t Hs Ht E) as [-> ->]. auto.
Qed.

Lemma str_of_ip_inj (a b : Z) :
  0 <= a < 2 ^ 32 -> 0 <= b < 2 ^ 32 ->
  AutoConfigure.str_of_ip a = AutoConfigure.str_of_ip b -> a = b.
Proof.
  intros Ha Hb. unfold AutoConfigure.str_of_ip.
  set (a1 := a / 2 ^ 24 mod 256). set (a2 := a / 2 ^ 16 mod 256).
  set (a3 := a / 2 ^ 8 mod 256). set (a4 := a mod 256).
  set (b1 := b / 2 ^ 24 mod 256). set (b2 := b / 2 ^ 16 mod 256).
  set (b3 := b / 2 ^ 8 mod 256). set (b4 := b mod 256).
  assert (H1 : 0 <= a1 < 256) by (apply Z.mod_pos_bound; lia).
  assert (H2 : 0 <= a2 < 256) by (apply Z.mod_pos_bound; lia).
  assert (H3 : 0 <= a3 < 256) by (apply Z.mod_pos_bound; lia).
  assert (H4 : 0 <= a4 < 256) by (apply Z.mod_pos_bound; lia).
  assert (K1 : 0 <= b1 < 256) by (apply Z.mod_pos_bound; lia).
  assert (K2 : 0 <= b2 < 256) by (apply Z.mod_pos_bound; lia).
  assert (K3 : 0 <= b3 < 256) by (apply Z.mod_pos_bound; lia).
  assert (K4 : 0 <= b4 < 256) by (apply Z.mod_pos_bound; lia).
  intros E.
  apply (split_at_dot (str_of_int a1) (str_of_int b1)) in E as [E1 E];
    [|now apply octet_digits..].
  apply (split_at_dot (str_of_int a2) (str_of_int b2)) in E as [E2 E];
    [|now apply octet_digits..].
  apply (split_at_dot (str_of_int a3) (str_of_int b3)) in E as [E3 E4];
    [|now apply octet_digits..].
  apply octet_inj in E1, E2, E3, E4; try assumption.
  unfold a1, a2, a3, a4, b1, b2, b3, b4 in *. clear -Ha Hb E1 E2 E3 E4.
  change (2 ^ 32) with 4294967296 in *. change (2 ^ 24) with 16777216 in *.
  change (2 ^ 16) with 65536 in *. change (2 ^ 8) with 256 in *.
  Z.div_mod_to_equations. lia.
Qed.

(** The addresses of a subnet are 32-bit. *)
Lemma lor_lt_pow2 (a b n : Z) :
  0 <= n -> 0 <= a < 2 ^ n -> 0 <= b < 2 ^ n -> 0 <= Z.lor a b < 2 ^ n.
Proof.
  intros Hn Ha Hb.
  assert (H0 : 0 <= Z.lor a b) by (apply Z.lor_nonneg; lia).
  split; [exact H0|].
  destruct (Z.eq_dec (Z.lor a b) 0) as [->|Hne]; [lia|].
  apply Z.log2_lt_pow2; [lia|].
  rewrite Z.log2_lor by lia.
  destruct (Z.eq_dec a 0) as [->|Ha0], (Z.eq_dec b 0) as [->|Hb0].
  - now destruct Hne.
  - rewrite Z.max_r by (apply Z.log2_nonneg). apply Z.log2_lt_pow2; lia.
  - rewrite Z.max_l by (apply Z.log2_nonneg). apply Z.log2_lt_pow2; lia.
  - apply Z.max_lub_lt; apply Z.log2_lt_pow2; lia.
Qed.

Lemma land_lt_pow2 (a m n : Z) :
  0 <= a < 2 ^ n -> 0 <= m -> 0 <= Z.land a m < 2 ^ n.
Proof.
  intros Ha Hm.
  assert (H0 : 0 <= Z.land a m) by (apply Z.land_nonneg; lia).
  split; [exact H0|].
  destruct (Z.eq_dec (Z.land a m) 0) as [->|Hne]; [lia|].
  destruct (Z.eq_dec a 0) as [->|Ha0]; [now rewrite Z.land_0_l in Hne|].
  apply Z.log2_lt_pow2; [lia|].
  apply Z.le_lt_trans with (Z.log2 a).
  - etransitivity; [apply Z.log2_land; lia | apply Z.le_min_l].
  - apply Z.log2_lt_pow2; lia.
Qed.

Lemma masks_checked :
  forallb (fun p => (0 <=? AutoConfigure.netmask p)
                    && (0 <=? AutoConfigure.hostmask p)
                    && (AutoConfigure.hostmask p <? 2 ^ 32)) prefixes = true.
Proof. vm_compute. reflexivity. Qed.

Lemma mask_bounds (p : Z) :
  0 <= p <= 32 ->
  0 <= AutoConfigure.netmask p /\ 0 <= AutoConfigure.hostmask p < 2 ^ 32.
Proof.
  intros H. pose proof masks_checked as Hc.
  rewrite List.forallb_forall in Hc.
  assert (Hin : In p prefixes).
  { unfold prefixes. apply List.in_map_iff. exists (Z.to_nat p).
    split; [lia|]. apply List.in_seq. lia. }
  specialize (Hc p Hin). lia.
Qed.

Lemma network_bounds (address prefix : Z) (net : AutoConfigure.network) :
  AutoConfigure.ip_network address prefix = Return net ->
  0 <= AutoConfigure.network_address net < 2 ^ 32
  /\ 0 <= AutoConfigure.broadcast_address net < 2 ^ 32.
Proof.
  unfold AutoConfigure.ip_network, AutoConfigure.broadcast_address.
  destruct (_ && _) eqn:Hv; [|discriminate]. intros [= <-]. simpl.
  assert (Ha : 0 <= address < 2 ^ 32)
    by (unfold AutoConfigure.ALL_ONES in Hv; lia).
  assert (Hp : 0 <= prefix <= 32) by lia.
  destruct (mask_bounds prefix Hp) as [Hn Hh].
  pose proof (land_lt_pow2 address (AutoConfigure.netmask prefix) 32 Ha Hn)
    as Hnet.
  pose proof (lor_lt_pow2 _ (AutoConfigure.hostmask prefix) 32
                ltac:(lia) Hnet Hh).
  split; lia.
Qed.






Lemma ping_sweep_example :
  AutoConfigure.ping_sweep_windows (answers_at "192.0.2.1")
    (@List.rev (option string)) 3221225984 30
  = Return ["192.0.2.1"].
Proof. vm_compute. reflexivity. Qed.

(** ** The simulated table walk *)

Lemma walk_turn_eq (net : env) (ip base_oid : string) (i : Z)
    (results : list (string * string)) :
  FixTonerReading.walk_turn net ip base_oid i results
  = match answer_at net ip base_oid i with
    | Failed => FixTonerReading.Break results
    | Value v =>
        FixTonerReading.Next (results ++ [(probe_oid base_oid i, v)])%list
    | Empty =>
        if (i >? 5) && (0 <? Z.of_nat (length results))
        then FixTonerReading.Break results
        else FixTonerReading.Next results
    end.
Proof.
  unfold FixTonerReading.walk_turn, answer_at, probe_oid, first_value.
  unfold_monad.
  destruct (getCmd net ip _ 2) as [r|e]; [|reflexivity]. cbv beta iota.
  destruct (reports_error r); [reflexivity|].
  destruct (varBinds r) as [|[nm v] rest]; [reflexivity|]. cbv beta iota.
  destruct (usable v && negb (String.eqb v "")); [reflexivity|].
  cbv beta iota.
  now destruct ((i >? 5) && (0 <? Z.of_nat (length results))).
Qed.

Lemma indices_from_snoc (n : nat) :
  indices_from 1 (S n) = (indices_from 1 n ++ [Z.of_nat (S n)])%list.
Proof.
  unfold indices_from. rewrite seq_S, map_app. reflexivity.
Qed.

Lemma pairs_upto_S (net : env) (ip base_oid : string) (n : nat) :
  pairs_upto net ip base_oid (S n)
  = (pairs_upto net ip base_oid n
     ++ match pair_at net ip base_oid (Z.of_nat (S n)) with
        | Some p => [p]
        | None => []
        end)%list.
Proof.
  unfold pairs_upto. rewrite indices_from_snoc, omap_app. reflexivity.
Qed.

(** The loop, started after [done] indices, probes up to the index
    [last_probed] says and keeps the pairs of the indices it probed. *)
Lemma walk_loop_eq (net : env) (ip base_oid : string) (left done : nat) :
  FixTonerReading.walk_loop net ip base_oid (indices_from (S done) left)
    (pairs_upto net ip base_oid done) (indices_from 1 done)
  = (pairs_upto net ip base_oid
       (last_probed (halts net ip base_oid) done left),
     indices_from 1 (last_probed (halts net ip base_oid) done left)).
Proof.
  revert done. induction left as [|left IH]; intros done; [reflexivity|].
  change (indices_from (S done) (S left))
    with (Z.of_nat (S done) :: indices_from (S (S done)) left).
  cbn [FixTonerReading.walk_loop last_probed].
  rewrite walk_turn_eq. unfold halts.
  replace (S done - 1)%nat with done by lia.
  rewrite <- indices_from_snoc.
  pose proof (pairs_upto_S net ip base_oid done) as HS.
  unfold pair_at in HS.
  destruct (answer_at net ip base_oid (Z.of_nat (S done))) as [| |v].
  - rewrite app_nil_r in HS. now rewrite HS.
  - rewrite app_nil_r in HS.
    assert (((Z.of_nat (S done) >? 5)
             && (0 <? Z.of_nat (length (pairs_upto net ip base_oid done))))
            = ((5 <? S done)%nat
               && negb (Nat.eqb
                          (length (pairs_upto net ip base_oid done)) 0)))
      as ->.
    { rewrite Z.gtb_ltb.
      destruct (Z.ltb_spec 5 (Z.of_nat (S done))),
        (Nat.ltb_spec 5 (S done)),
        (Z.ltb_spec 0 (Z.of_nat (length (pairs_upto net ip base_oid done)))),
        (Nat.eqb_spec (length (pairs_upto net ip base_oid done)) 0);
        simpl; try reflexivity; lia. }
    destruct (_ && _).
    + now rewrite HS.
    + rewrite <- HS. apply IH.
  - rewrite <- HS. apply IH.
Qed.

Lemma last_probed_bounds (halt : nat -> bool) (left done : nat) :
  (done <= last_probed halt done left <= done + left)%nat
  /\ (left <> 0%nat -> (done < last_probed halt done left)%nat)
  /\ (forall i, (done < i < last_probed halt done left)%nat ->
        halt i = false)
  /\ (left <> 0%nat ->
      last_probed halt done left = (done + left)%nat
      \/ halt (last_probed halt done left) = true).
Proof.
  revert done. induction left as [|left IH]; intros done; simpl.
  - repeat split; lia.
  - destruct (halt (S done)) eqn:Hh.
    + repeat split; try lia. intros _. now right.
    + destruct (IH (S done)) as (Hb & Hpos & Hbefore & Hend).
      repeat split; try lia.
      * intros i Hi. destruct (Nat.eq_dec i (S done)) as [->|Hne];
          [exact Hh | apply Hbefore; lia].
      * intros _. destruct left as [|left'].
        -- left. simpl. lia.
        -- destruct Hend as [-> | Hend]; [discriminate | left; lia | now right].
Qed.

(** The claim that the walk ends exactly when an index returns no value
    fails: index 1 returns no value, and the walk goes on to index 2, keeps
    its value, and ends at index 3, where the request fails. *)
Lemma walk_goes_on_after_missing_index :
  answer_at gap_at_first_index "10.164.1.30" "1.3.6.1.2.1.43.11.1.1.6.1" 1
  = Empty
  /\ FixTonerReading.snmp_walk_trace gap_at_first_index "10.164.1.30"
       "1.3.6.1.2.1.43.11.1.1.6.1"
     = ([("1.3.6.1.2.1.43.11.1.1.6.1.2", "Black Toner Cartridge")],
        [1; 2; 3]).
Proof. split; vm_compute; reflexivity. Qed.

(** C7, amended: the walk [snmp_walk] probes the index suffixes 1, 2, ...
    in order and stops after the index [n] that is the first at which the
    request fails (it raises, or the response carries an error indication or
    status) or at which the value is empty or a placeholder while the index
    is above 5 and an earlier index gave a value; it stops after index 19
    when there is no such index.  An index below that which returns no value
    is skipped and the walk goes on.  The result is the finite list, in
    index order, of the pairs (object identifier, value) of the probed
    indices that gave a value; it is empty when the engine cannot be
    made. *)
Theorem snmp_walk_probes_until_first_halt (net : env) (ip base_oid : string) :
  let n := last_probed (halts net ip base_oid) 0 19 in
  FixTonerReading.snmp_walk_trace net ip base_oid
  = match SnmpEngine net with
    | Return _ => (pairs_upto net ip base_oid n, indices_from 1 n)
    | Raise _ => ([], [])
    end
  /\ (1 <= n <= 19)%nat
  /\ (forall i, (1 <= i < n)%nat -> halts net ip base_oid i = false)
  /\ (n = 19%nat \/ halts net ip base_oid n = true)
  /\ (forall oid v,
        In (oid, v) (pairs_upto net ip base_oid n) ->
        exists i, (1 <= i <= n)%nat
                  /\ oid = probe_oid base_oid (Z.of_nat i)
                  /\ answer_at net ip base_oid (Z.of_nat i) = Value v).
Proof.
  intros n.
  destruct (last_probed_bounds (halts net ip base_oid) 19 0)
    as (Hb & Hpos & Hbefore & Hend).
  fold n in Hb, Hpos, Hbefore, Hend.
  split; [|split; [|split; [|split]]].
  - unfold FixTonerReading.snmp_walk_trace.
    destruct (SnmpEngine net); [|reflexivity].
    apply (walk_loop_eq net ip base_oid 19 0).
  - specialize (Hpos ltac:(discriminate)). lia.
  - intros i Hi. apply Hbefore. lia.
  - destruct (Hend ltac:(discriminate)) as [H|H]; [left; exact H | now right].
  - intros oid v Hin. unfold pairs_upto in Hin.
    apply list_elem_of_In, list_elem_of_omap in Hin as (z & Hz & Hpair).
    apply list_elem_of_In in Hz. unfold indices_from in Hz.
    apply List.in_map_iff in Hz as (i & <- & Hi). apply List.in_seq in Hi.
    exists i. split; [lia|].
    unfold pair_at in Hpair.
    destruct (answer_at net ip base_oid (Z.of_nat i)) as [| |v'];
      try discriminate.
    injection Hpair as <- <-. auto.
Qed.

Lemma snmp_walk_probes_until_first_halt_witness :
  FixTonerReading.snmp_walk gap_at_first_index "10.164.1.30"
    "1.3.6.1.2.1.43.11.1.1.6.1"
  = pairs_upto gap_at_first_index "10.164.1.30" "1.3.6.1.2.1.43.11.1.1.6.1"
      (last_probed
         (halts gap_at_first_index "10.164.1.30" "1.3.6.1.2.1.43.11.1.1.6.1")
         0 19).
Proof.
  exact (f_equal fst
           (proj1 (snmp_walk_probes_until_first_halt gap_at_first_index
                     "10.164.1.30" "1.3.6.1.2.1.43.11.1.1.6.1"))).
Defined.

(** ** The percentage on small capacities, and on huge levels *)

Lemma calculate_on_parsed (current max_capacity : string)
    (current_val max_val : Z) :
  parse_int current = Some current_val ->
  parse_int max_capacity = Some max_val ->
  calculate_toner_percentage current max_capacity
  = try_except
      (if current_val =? -3 then Return (None, Some "OK")
       else if current_val =? -2 then Return (None, Some "Unknown")
       else if current_val <? 0
       then Return (None, Some ("Status: " +:+ str_of_int current_val))
       else if (max_val >? 0) && negb (max_val =? -2)
       then
         q ← int_true_div current_val max_val;
         x ← float_mul_int q 100;
         percentage ← int_of_float x;
         Return (Some percentage, None)
       else Return (None, Some "Cannot calculate"))
      (fun e => match e with
                | ValueError | ZeroDivisionError => true
                | _ => false
                end)
      (Return (None, Some "Error")).
Proof.
  intros Hc Hm. unfold calculate_toner_percentage.
  rewrite (int_of_str_Return _ _ Hc), (int_of_str_Return _ _ Hm).
  reflexivity.
Qed.

Lemma calculate_depends_on_values
    (current max_capacity current' max' : string) (current_val max_val : Z) :
  parse_int current = Some current_val ->
  parse_int max_capacity = Some max_val ->
  parse_int current' = Some current_val ->
  parse_int max' = Some max_val ->
  calculate_toner_percentage current max_capacity
  = calculate_toner_percentage current' max'.
Proof.
  intros H1 H2 H3 H4.
  rewrite (calculate_on_parsed _ _ _ _ H1 H2).
  now rewrite (calculate_on_parsed _ _ _ _ H3 H4).
Qed.

Lemma accurate_upto_spec (bound : nat) :
  accurate_upto bound = true ->
  forall m c : nat, (1 <= m <= bound)%nat -> (c <= m)%nat ->
  exists p,
    parse_int (str_of_int (Z.of_nat c)) = Some (Z.of_nat c)
    /\ parse_int (str_of_int (Z.of_nat m)) = Some (Z.of_nat m)
    /\ calculate_toner_percentage (str_of_int (Z.of_nat c))
         (str_of_int (Z.of_nat m)) = Return (Some p, None)
    /\ 100 * Z.of_nat c / Z.of_nat m - 1 <= p <= 100 * Z.of_nat c / Z.of_nat m
    /\ 0 <= p.
Proof.
  unfold accurate_upto. intros Hall m c Hm Hc.
  rewrite List.forallb_forall in Hall.
  specialize (Hall m ltac:(apply List.in_seq; lia)).
  rewrite List.forallb_forall in Hall.
  specialize (Hall c ltac:(apply List.in_seq; lia)). cbv beta in Hall.
  destruct (parse_int (str_of_int (Z.of_nat c))) as [c'|]; [|discriminate].
  destruct (parse_int (str_of_int (Z.of_nat m))) as [m'|]; [|discriminate].
  destruct (calculate_toner_percentage _ _) as [[[p|] [st|]]|];
    try discriminate.
  cbv zeta in Hall.
  repeat (apply andb_true_iff in Hall as [Hall ?]).
  exists p.
  assert (c' = Z.of_nat c) as -> by lia.
  assert (m' = Z.of_nat m) as -> by lia.
  repeat split; lia.
Qed.

Lemma accurate_upto_200 : accurate_upto 200 = true.
Proof. vm_compute. reflexivity. Qed.

(** For a capacity from 1 to 200 and a level from 0 to the capacity,
    [calculate_toner_percentage] returns a percentage and no status, and the
    percentage is the floor of level / capacity x 100 or one below it: the
    rounding of the division never costs more than one point and never adds
    one. *)
Theorem percentage_within_one_point (current max_capacity : string)
    (current_val max_val : Z) :
  parse_int current = Some current_val ->
  parse_int max_capacity = Some max_val ->
  1 <= max_val <= 200 -> 0 <= current_val <= max_val ->
  exists p,
    calculate_toner_percentage current max_capacity = Return (Some p, None)
    /\ 100 * current_val / max_val - 1 <= p <= 100 * current_val / max_val
    /\ 0 <= p <= 100.
Proof.
  intros Hc Hm Hmax Hcur.
  destruct (accurate_upto_spec 200 accurate_upto_200 (Z.to_nat max_val)
              (Z.to_nat current_val) ltac:(lia) ltac:(lia))
    as (p & Hc' & Hm' & Hcalc & Hp & Hp0).
  rewrite !Z2Nat.id in * by lia.
  exists p. split.
  - rewrite <- Hcalc.
    now apply (calculate_depends_on_values _ _ _ _ current_val max_val).
  - assert (100 * current_val / max_val <= 100)
      by (apply Z.div_le_upper_bound; lia).
    lia.
Qed.

Lemma percentage_within_one_point_witness :
  exists p,
    calculate_toner_percentage "57" "100" = Return (Some p, None)
    /\ 100 * 57 / 100 - 1 <= p <= 100 * 57 / 100
    /\ 0 <= p <= 100.
Proof.
  apply (percentage_within_one_point "57" "100" 57 100); try reflexivity; lia.
Defined.

Lemma int_true_div_raises (a b : Z) (e : exn) :
  int_true_div a b = Raise e -> e = ZeroDivisionError \/ e = OverflowError.
Proof.
  unfold int_true_div. destruct (b =? 0); [intros [= <-]; now left|].
  destruct (a =? 0); [discriminate|].
  destruct (SFdiv _ _ _ _); try discriminate. intros [= <-]. now right.
Qed.

Lemma float_mul_int_raises (x : spec_float) (n : Z) (e : exn) :
  float_mul_int x n = Raise e -> e = OverflowError.
Proof.
  unfold float_mul_int, float_of_int, Py.bind.
  destruct (binary_normalize _ _ _ _ _); try discriminate. now intros [= <-].
Qed.

Lemma int_of_float_raises (x : spec_float) (e : exn) :
  int_of_float x = Raise e -> e = OverflowError \/ e = ValueError.
Proof.
  destruct x; simpl; try discriminate; intros [= <-]; auto.
Qed.

Lemma calculate_raise_is_overflow (current max_capacity : string)
    (e : exn) :
  calculate_toner_percentage current max_capacity = Raise e ->
  e = OverflowError
  /\ exists current_val max_val,
       parse_int current = Some current_val
       /\ parse_int max_capacity = Some max_val
       /\ 0 <= current_val /\ 0 < max_val.
Proof.
  unfold calculate_toner_percentage, int_of_str. unfold_monad.
  destruct (parse_int current) as [c|]; cbv beta iota; [|discriminate].
  destruct (parse_int max_capacity) as [mx|]; cbv beta iota; [|discriminate].
  destruct (Z.eqb_spec c (-3)); cbv beta iota; [discriminate|].
  destruct (Z.eqb_spec c (-2)); cbv beta iota; [discriminate|].
  destruct (Z.ltb_spec c 0); cbv beta iota; [discriminate|].
  destruct ((mx >? 0) && negb (mx =? -2)) eqn:Hb; cbv beta iota;
    [|discriminate].
  intros Hraise.
  assert (e = OverflowError) as ->.
  { destruct (int_true_div c mx) as [q|e1] eqn:H1.
    - destruct (float_mul_int q 100) as [x|e2] eqn:H2.
      + destruct (int_of_float x) as [p|e3] eqn:H3; [discriminate|].
        apply int_of_float_raises in H3 as [-> | ->];
          [now injection Hraise as <- | discriminate].
      + apply float_mul_int_raises in H2 as ->. now injection Hraise as <-.
    - apply int_true_div_raises in H1 as [-> | ->];
        [discriminate | now injection Hraise as <-]. }
  split; [reflexivity|]. exists c, mx. repeat split; try lia.
Qed.

Lemma calculate_unparsable (current max_capacity : string) :
  parse_int current = None \/ parse_int max_capacity = None ->
  calculate_toner_percentage current max_capacity
  = Return (None, Some "Error").
Proof.
  unfold calculate_toner_percentage, int_of_str, try_except. unfold_monad.
  intros [H | H]; rewrite H; [reflexivity|].
  now destruct (parse_int current).
Qed.

(** [calculate_toner_percentage] catches [ValueError] and
    [ZeroDivisionError] only.  When it raises, the exception is
    [OverflowError], and it comes from the division branch: both texts are
    integers, the level is not negative and the capacity is positive.  A
    text that is no integer never makes it raise: the [ValueError] of [int]
    is caught and the result is no percentage and the status ['Error']. *)
Theorem calculate_raises_only_overflow (current max_capacity : string) :
  (forall e,
     calculate_toner_percentage current max_capacity = Raise e ->
     e = OverflowError
     /\ exists current_val max_val,
          parse_int current = Some current_val
          /\ parse_int max_capacity = Some max_val
          /\ 0 <= current_val /\ 0 < max_val)
  /\ (parse_int current = None \/ parse_int max_capacity = None ->
      calculate_toner_percentage current max_capacity
      = Return (None, Some "Error")).
Proof.
  split.
  - exact (calculate_raise_is_overflow current max_capacity).
  - exact (calculate_unparsable current max_capacity).
Qed.

Lemma calculate_raises_only_overflow_witness :
  (OverflowError = OverflowError
   /\ exists current_val max_val,
        parse_int huge_level = Some current_val
        /\ parse_int "1" = Some max_val
        /\ 0 <= current_val /\ 0 < max_val)
  /\ calculate_toner_percentage "12" "" = Return (None, Some "Error").
Proof.
  split.
  - apply (proj1 (calculate_raises_only_overflow huge_level "1")
             OverflowError).
    vm_compute. reflexivity.
  - apply (proj2 (calculate_raises_only_overflow "12" "")).
    right. reflexivity.
Defined.

Lemma foldM_raises {A B : Type} (f : B -> A -> result B) (l : list A)
    (E : exn) :
  (forall b a e, f b a = Raise e -> e = E) ->
  (exists a, In a l /\ forall b, exists e, f b a = Raise e) ->
  forall b, foldM f l b = Raise E.
Proof.
  intros Honly. induction l as [|a l IH]; intros (x & Hin & Hx) b.
  - destruct Hin.
  - simpl. unfold_monad. destruct (f b a) as [b'|e] eqn:Hf.
    + destruct Hin as [-> | Hin].
      * destruct (Hx b) as [e He]. congruence.
      * apply IH. eauto.
    + now rewrite (Honly _ _ _ Hf).
Qed.

Lemma supply_step_raises_only_overflow (net : env) (ip : string)
    (m : metrics) (index : Z) (e : exn) :
  supply_step net ip m index = Raise e -> e = OverflowError.
Proof.
  rewrite supply_step_kind. unfold_monad.
  destruct (kind_of_row net ip index) as [|c mx|c mx|]; try discriminate;
    (destruct (calculate_toner_percentage c mx) as [r|e'] eqn:Hcalc;
       [discriminate|]);
    intros [= <-]; now apply (calculate_raise_is_overflow c mx).
Qed.

(** When the level of one black toner or drum row among the indices 1 to 9
    makes [calculate_toner_percentage] raise, the extractor raises
    [OverflowError], the wrapper [get_printer_metrics] returns [None], and
    the monitor stores nothing for the printer: the page counter, the model
    and the device status that did resolve are lost with it. *)
Theorem raising_row_loses_the_sample (net : env) (ip : string) (index : Z)
    (current max_cap : string) (e : exn) :
  In index supply_indices ->
  kind_of_row net ip index = TonerRow current max_cap
  \/ kind_of_row net ip index = DrumRow current max_cap ->
  calculate_toner_percentage current max_cap = Raise e ->
  get_printer_metrics_async net ip = Raise OverflowError
  /\ get_printer_metrics net ip = Return None
  /\ forall db now name location,
       monitor_printer net db now ip name location = db.
Proof.
  intros Hin Hkind Hraise.
  assert (Hasync : get_printer_metrics_async net ip = Raise OverflowError).
  { rewrite get_printer_metrics_async_eq.
    rewrite (foldM_raises (supply_step net ip) supply_indices OverflowError);
      [reflexivity | |].
    - intros b a e'. apply supply_step_raises_only_overflow.
    - exists index. split; [exact Hin|]. intros b. exists e.
      rewrite supply_step_kind. unfold_monad.
      destruct Hkind as [-> | ->]; now rewrite Hraise. }
  assert (Hget : get_printer_metrics net ip = Return None).
  { now rewrite get_printer_metrics_eq, Hasync. }
  repeat split; [exact Hasync | exact Hget |].
  intros db now name location. apply monitor_printer_cases.
  intros m. rewrite Hget. discriminate.
Qed.

Lemma raising_row_loses_the_sample_witness :
  get_printer_metrics_async huge_toner "10.164.1.30" = Raise OverflowError
  /\ get_printer_metrics huge_toner "10.164.1.30" = Return None
  /\ forall db now name location,
       monitor_printer huge_toner db now "10.164.1.30" name location = db.
Proof.
  apply (raising_row_loses_the_sample huge_toner "10.164.1.30" 1
           huge_level "1" OverflowError).
  - vm_compute. auto.
  - left. vm_compute. reflexivity.
  - vm_compute. reflexivity.
Defined.

(** ** The dictionary of a supply row *)

Lemma supply_unit (net : env) (ip : string) (index : Z) :
  supply_of net ip index !! "unit" = column net ip (unit_oid index).
Proof.
  unfold supply_of. rewrite !lookup_put_ne by discriminate.
  rewrite lookup_put_eq by apply column_truthy.
  destruct (column net ip (unit_oid index)); [reflexivity|].
  rewrite !lookup_put_ne by discriminate. apply lookup_empty.
Qed.

Lemma supply_type (net : env) (ip : string) (index : Z) :
  supply_of net ip index !! "type" = column net ip (type_oid index).
Proof.
  unfold supply_of. rewrite !lookup_put_ne by discriminate.
  rewrite lookup_put_eq by apply column_truthy.
  destruct (column net ip (type_oid index)); [reflexivity|].
  rewrite !lookup_put_ne by discriminate. apply lookup_empty.
Qed.

Lemma lookup_put_other (key k : string) (value : option string)
    (supply : gmap string string) :
  key <> k -> supply !! k = None -> put key value supply !! k = None.
Proof. intros Hne Hk. now rewrite lookup_put_ne. Qed.

(** [get_supply_info] always returns.  It returns [None] exactly when none
    of the five columns of the row resolved; otherwise its dictionary holds,
    under the name of each column, what the probe of that column returned,
    and it holds no other key. *)
Theorem get_supply_info_holds_resolved_columns (net : env) (ip : string)
    (index : Z) :
  exists r,
    get_supply_info net ip index = Return r
    /\ (r = None <->
        forall key oid, In (key, oid) (base_oids index) ->
                        snmp_get net ip oid 2 = Return None)
    /\ (forall supply, r = Some supply ->
          (forall key oid, In (key, oid) (base_oids index) ->
                           snmp_get net ip oid 2 = Return (supply !! key))
          /\ (forall key, ~ In key (map fst (base_oids index)) ->
                          supply !! key = None)).
Proof.
  rewrite get_supply_info_eq. eexists. split; [reflexivity|].
  assert (Hcols : forall key oid, In (key, oid) (base_oids index) ->
            snmp_get net ip oid 2
            = Return (supply_of net ip index !! key)).
  { intros key oid Hin. rewrite snmp_get_column. f_equal.
    unfold base_oids in Hin. simpl in Hin.
    destruct Hin as [[= <- <-] | [[= <- <-] | [[= <- <-] | [[= <- <-]
      | [[= <- <-] | []]]]]].
    - symmetry. apply supply_description.
    - symmetry. apply supply_type.
    - symmetry. apply supply_unit.
    - symmetry. apply supply_max_capacity.
    - symmetry. apply supply_current_level. }
  split; [split|].
  - destruct (decide (supply_of net ip index = ∅)) as [E|]; [|discriminate].
    intros _ key oid Hin. rewrite (Hcols key oid Hin), E.
    now rewrite lookup_empty.
  - intros Hnone.
    destruct (decide (supply_of net ip index = ∅)) as [|Hne];
      [reflexivity|].
    destruct Hne. apply map_eq. intros k. rewrite lookup_empty.
    assert (Hk : forall key oid, In (key, oid) (base_oids index) ->
              supply_of net ip index !! key = None).
    { intros key oid Hin. specialize (Hnone key oid Hin).
      rewrite (Hcols key oid Hin) in Hnone. congruence. }
    assert (H1 : column net ip (current_level_oid index) = None).
    { rewrite <- supply_current_level.
      apply (Hk _ (current_level_oid index)). unfold base_oids. simpl. tauto. }
    assert (H2 : column net ip (max_capacity_oid index) = None).
    { rewrite <- supply_max_capacity.
      apply (Hk _ (max_capacity_oid index)). unfold base_oids. simpl. tauto. }
    assert (H3 : column net ip (unit_oid index) = None).
    { rewrite <- supply_unit.
      apply (Hk _ (unit_oid index)). unfold base_oids. simpl. tauto. }
    assert (H4 : column net ip (type_oid index) = None).
    { rewrite <- supply_type.
      apply (Hk _ (type_oid index)). unfold base_oids. simpl. tauto. }
    assert (H5 : column net ip (description_oid index) = None).
    { rewrite <- supply_description.
      apply (Hk _ (description_oid index)). unfold base_oids. simpl. tauto. }
    unfold supply_of. rewrite H1, H2, H3, H4, H5. apply lookup_empty.
  - intros supply Hsome.
    destruct (decide (supply_of net ip index = ∅)); [discriminate|].
    injection Hsome as <-. split; [exact Hcols|].
    intros key Hkey. unfold base_oids in Hkey. simpl in Hkey.
    unfold supply_of.
    repeat (apply lookup_put_other; [intros E; apply Hkey; auto 10|]).
    apply lookup_empty.
Qed.

Lemma get_supply_info_holds_resolved_columns_witness :
  exists r,
    get_supply_info toner_without_level "10.164.1.30" 1 = Return r
    /\ (r = None <->
        forall key oid, In (key, oid) (base_oids 1) ->
                        snmp_get toner_without_level "10.164.1.30" oid 2
                        = Return None)
    /\ (forall supply, r = Some supply ->
          (forall key oid, In (key, oid) (base_oids 1) ->
                           snmp_get toner_without_level "10.164.1.30" oid 2
                           = Return (supply !! key))
          /\ (forall key, ~ In key (map fst (base_oids 1)) ->
                          supply !! key = None)).
Proof.
  exact (get_supply_info_holds_resolved_columns toner_without_level
           "10.164.1.30" 1).
Defined.

(** ** The tables of the monitor *)

Lemma foldr_max_ge (ids : list Z) (seq : Z) :
  seq <= foldr Z.max seq ids
  /\ forall id, In id ids -> id <= foldr Z.max seq ids.
Proof.
  induction ids as [|a l [IH1 IH2]]; simpl.
  - split; [lia | intros id []].
  - split; [lia|]. intros id [<- | Hin]; [lia|]. specialize (IH2 id Hin). lia.
Qed.

Lemma next_id_fresh (ids : list Z) (seq : Z) :
  seq < next_id ids seq /\ forall id, In id ids -> id < next_id ids seq.
Proof.
  unfold next_id. destruct (foldr_max_ge ids seq) as [H1 H2].
  split; [lia|]. intros id Hin. specialize (H2 id Hin). lia.
Qed.

Lemma insert_metrics_rows (db : database) (now printer_id : Z) (m : metrics) :
  let db' := insert_metrics db now printer_id m in
  printers db' = printers db
  /\ metrics_rows db'
     = (metrics_rows db ++ [stored_row (metrics_seq db') printer_id now m])%list
  /\ (forall r, In r (metrics_rows db) -> m_id r < metrics_seq db')
  /\ (unique_metric_ids db -> unique_metric_ids db').
Proof.
  intros db'. unfold db', insert_metrics, unique_metric_ids. simpl.
  destruct (next_id_fresh (map m_id (metrics_rows db)) (metrics_seq db))
    as [_ Hfresh].
  split; [reflexivity|]. split; [reflexivity|]. split.
  - intros r Hin. apply Hfresh. now apply List.in_map.
  - intros Hnd. rewrite map_app. simpl.
    apply List.NoDup_app; [exact Hnd | repeat constructor; intros [] |].
    intros id Hin [<- | []]. specialize (Hfresh _ Hin). lia.
Qed.

(** What a call of [save_metrics] comes to. *)
Lemma save_metrics_eq (db : database) (now printer_id : Z) (m : metrics) :
  save_metrics db now printer_id m
  = if storable printer_id m
    then (insert_metrics db now printer_id m, Return tt)
    else (db, Raise OverflowError).
Proof. reflexivity. Qed.

Lemma save_all_rows (samples : list (Z * Z * metrics)) (db : database) :
  printers (save_all samples db) = printers db
  /\ (unique_metric_ids db -> unique_metric_ids (save_all samples db))
  /\ exists new,
       metrics_rows (save_all samples db) = (metrics_rows db ++ new)%list
       /\ Forall2 (fun '(now, printer_id, m) row =>
                     exists id, row = stored_row id printer_id now m)
            (storable_calls samples) new
       /\ forall old row,
            In old (metrics_rows db) -> In row new -> m_id old < m_id row.
Proof.
  revert db. induction samples as [|[[now pid] m] l IH]; intros db.
  - split; [reflexivity|]. split; [tauto|].
    exists []. split; [now rewrite app_nil_r|].
    split; [constructor | intros old row _ []].
  - unfold save_all, storable_calls. cbn [fold_left List.filter].
    fold (save_all l (fst (save_metrics db now pid m))).
    fold (storable_calls l). rewrite save_metrics_eq.
    destruct (storable pid m); cbn [fst]; [|exact (IH db)].
    destruct (IH (insert_metrics db now pid m))
      as (Hp & Hnd & new & Hrows & Hall & Hlt).
    destruct (insert_metrics_rows db now pid m) as (_ & Hone & Hfresh & Hnd1).
    cbv zeta in Hone, Hfresh, Hnd1.
    split; [exact Hp|]. split; [tauto|].
    exists (stored_row (metrics_seq (insert_metrics db now pid m)) pid now m
              :: new).
    split; [|split].
    + rewrite Hrows, Hone. now rewrite <- app_assoc.
    + constructor; [eauto | exact Hall].
    + intros old row Hold [<- | Hin].
      * exact (Hfresh old Hold).
      * apply Hlt; [|exact Hin]. rewrite Hone. apply in_or_app. now left.
Qed.

(** A call of [save_metrics] raises [OverflowError] and writes nothing when
    the printer id or a number of the sample is no signed 64-bit integer,
    and returns otherwise.  After any run of calls the printers are as they
    were and the rows stored before are still there, unchanged and in
    place; they are followed by one row for each call that returned, in the
    order of the calls, each holding the printer id, the time and the five
    metric values of its call under an id above every id stored before, so
    that ids that were unique stay unique. *)
Theorem save_metrics_only_appends (samples : list (Z * Z * metrics))
    (db : database) :
  unique_metric_ids db ->
  (forall now printer_id m,
     save_metrics db now printer_id m
     = if storable printer_id m
       then (insert_metrics db now printer_id m, Return tt)
       else (db, Raise OverflowError))
  /\ printers (save_all samples db) = printers db
  /\ unique_metric_ids (save_all samples db)
  /\ exists new,
       metrics_rows (save_all samples db) = (metrics_rows db ++ new)%list
       /\ length new = length (storable_calls samples)
       /\ Forall2 (fun '(now, printer_id, m) row =>
                     exists id, row = stored_row id printer_id now m)
            (storable_calls samples) new
       /\ forall old row,
            In old (metrics_rows db) -> In row new -> m_id old < m_id row.
Proof.
  intros Hnd.
  destruct (save_all_rows samples db) as (Hp & Hnd' & new & Hrows & Hall & Hlt).
  split; [intros; apply save_metrics_eq|].
  split; [exact Hp|]. split; [exact (Hnd' Hnd)|].
  exists new. split; [exact Hrows|]. split; [|split; [exact Hall | exact Hlt]].
  symmetry. exact (Forall2_length _ _ _ Hall).
Qed.

Lemma save_metrics_only_appends_witness :
  unique_metric_ids two_printers
  /\ exists new,
       metrics_rows
         (save_all [ (1700000180, 2, set_total_pages (2 ^ 63) no_metrics);
                     (1700000240, 2, set_total_pages 77 no_metrics) ]
            two_printers)
       = (metrics_rows two_printers ++ new)%list
       /\ length new = 1%nat.
Proof.
  assert (H : unique_metric_ids two_printers).
  { unfold unique_metric_ids. vm_compute. repeat constructor; intros []. }
  split; [exact H|].
  destruct (save_metrics_only_appends
              [ (1700000180, 2, set_total_pages (2 ^ 63) no_metrics);
                (1700000240, 2, set_total_pages 77 no_metrics) ]
              two_printers H)
    as (_ & _ & _ & new & Hrows & Hlen & _).
  exists new. split; [exact Hrows | exact Hlen].
Defined.

(** ** The printers table *)

Lemma NoDup_map_eq {A B : Type} (f : A -> B) (l : list A) (x y : A) :
  List.NoDup (map f l) -> In x l -> In y l -> f x = f y -> x = y.
Proof.
  induction l as [|a l IH]; simpl; [intros _ []|].
  intros Hnd Hx Hy Heq. apply List.NoDup_cons_iff in Hnd as [Hnotin Hnd].
  destruct Hx as [<- | Hx], Hy as [<- | Hy]; [reflexivity | | | now apply IH].
  - exfalso. apply Hnotin. rewrite Heq. now apply List.in_map.
  - exfalso. apply Hnotin. rewrite <- Heq. now apply List.in_map.
Qed.

Lemma find_printer_unchanged (f : printer_row -> printer_row) (ip : string)
    (rows : list printer_row) :
  (forall r, p_ip (f r) = p_ip r) ->
  (forall r, In r rows -> p_ip r = ip -> f r = r) ->
  find_printer ip (map f rows) = find_printer ip rows.
Proof.
  intros Hip Hsame. unfold find_printer.
  induction rows as [|a l IH]; [reflexivity|]. simpl. rewrite Hip.
  destruct (String.eqb_spec (p_ip a) ip) as [E | _].
  - f_equal. apply Hsame; [now left | exact E].
  - apply IH. intros r Hin. apply Hsame. now right.
Qed.

Lemma find_printer_app_other (ip : string) (rows : list printer_row)
    (r : printer_row) :
  p_ip r <> ip -> find_printer ip (rows ++ [r]) = find_printer ip rows.
Proof.
  intros Hne. unfold find_printer.
  induction rows as [|a l IH]; simpl.
  - now destruct (String.eqb_spec (p_ip r) ip).
  - now destruct (String.eqb (p_ip a) ip).
Qed.

Lemma fill_model_id (id : Z) (mdl : string) (r : printer_row) :
  p_id (fill_model id mdl r) = p_id r.
Proof. unfold fill_model. now destruct (_ && _). Qed.

Lemma fill_model_twice (id : Z) (mdl : string) (r : printer_row) :
  fill_model id mdl (fill_model id mdl r) = fill_model id mdl r.
Proof.
  unfold fill_model at 2.
  destruct ((p_id r =? id) && negb (not_None (p_model r))) eqn:E.
  - unfold fill_model. simpl. now rewrite E, andb_false_r.
  - unfold fill_model. now rewrite E.
Qed.

Lemma fill_model_same_but_model (id : Z) (mdl : string) (r : printer_row) :
  same_but_model r (fill_model id mdl r).
Proof.
  unfold same_but_model, fill_model.
  destruct ((p_id r =? id) && negb (not_None (p_model r))) eqn:E; simpl.
  - apply andb_true_iff in E as [_ E]. destruct (p_model r); [discriminate|].
    auto 10.
  - auto 10.
Qed.

Lemma with_printers_same (db : database) :
  with_printers db (printers db) = db.
Proof. now destruct db. Qed.

Lemma map_p_id_fill_model (id : Z) (mdl : string) (rows : list printer_row) :
  map p_id (map (fill_model id mdl) rows) = map p_id rows.
Proof.
  rewrite map_map. apply map_ext. intros r. apply fill_model_id.
Qed.

(** What [get_or_create_printer] does to the database, by the row it
    finds. *)
Lemma get_or_create_printer_eq (db : database) (now : Z) (ip name : string)
    (location mdl : option string) :
  match find_printer ip (printers db) with
  | Some row =>
      exists rows',
        get_or_create_printer db now ip name location mdl
        = (with_printers db rows', p_id row)
        /\ (rows' = printers db
            \/ exists v, rows' = map (fill_model (p_id row) v) (printers db))
  | None =>
      get_or_create_printer db now ip name location mdl
      = insert_printer db now ip name location mdl
  end.
Proof.
  unfold get_or_create_printer.
  destruct (find_printer ip (printers db)) as [row|]; [|reflexivity].
  destruct mdl as [v|]; [destruct (truthy v)|].
  - eexists. split; [reflexivity|]. right. now exists v.
  - exists (printers db). rewrite with_printers_same. auto.
  - exists (printers db). rewrite with_printers_same. auto.
Qed.

(** The id [get_or_create_printer] returns is the id of the row stored for
    the address once the call is over; the rows of all other addresses are
    as they were; addresses and ids stay unique; and a second call for the
    address with the same model, whatever name and location it is given,
    returns the same id and changes nothing. *)
Theorem get_or_create_printer_returns_stored_id (db : database) (now : Z)
    (ip name : string) (location mdl : option string) :
  unique_ips db -> unique_printer_ids db ->
  let db' := fst (get_or_create_printer db now ip name location mdl) in
  let id := snd (get_or_create_printer db now ip name location mdl) in
  (exists r, find_printer ip (printers db') = Some r /\ p_id r = id)
  /\ (forall other, other <> ip ->
      find_printer other (printers db') = find_printer other (printers db))
  /\ unique_ips db' /\ unique_printer_ids db'
  /\ (forall now' name' location',
      get_or_create_printer db' now' ip name' location' mdl = (db', id)).
Proof.
  intros Hips Hids db' id. unfold db', id. clear db' id.
  unfold unique_ips, unique_printer_ids in *.
  destruct (find_printer ip (printers db)) as [row|] eqn:Hfind.
  - destruct (find_printer_Some _ _ _ Hfind) as [Hin Hrow].
    assert (Hupd : forall v,
      let db' := with_printers db (map (fill_model (p_id row) v) (printers db))
      in
      (exists r, find_printer ip (printers db') = Some r /\ p_id r = p_id row)
      /\ (forall other, other <> ip ->
          find_printer other (printers db')
          = find_printer other (printers db))
      /\ List.NoDup (map p_ip (printers db'))
      /\ List.NoDup (map p_id (printers db'))
      /\ (truthy v = true ->
          forall now' name' location',
            get_or_create_printer db' now' ip name' location' (Some v)
            = (db', p_id row))).
    { intros v db'. unfold db'. simpl. split; [|split; [|split; [|split]]].
      - exists (fill_model (p_id row) v row).
        rewrite find_printer_map by apply fill_model_ip. rewrite Hfind.
        split; [reflexivity | apply fill_model_id].
      - intros other Hother. apply find_printer_unchanged.
        + apply fill_model_ip.
        + intros r Hr Hrip. unfold fill_model.
          destruct (Z.eqb_spec (p_id r) (p_id row)) as [E | _]; [|reflexivity].
          exfalso. apply Hother.
          rewrite (NoDup_map_eq p_id _ _ _ Hids Hr Hin E) in Hrip.
          now rewrite <- Hrip.
      - rewrite map_p_ip_map by apply fill_model_ip. exact Hips.
      - rewrite map_p_id_fill_model. exact Hids.
      - intros Hv now' name' location'. unfold get_or_create_printer. simpl.
        rewrite find_printer_map by apply fill_model_ip. rewrite Hfind.
        simpl. rewrite Hv, fill_model_id. unfold with_printers. simpl.
        do 2 f_equal. rewrite map_map. apply map_ext. intros r.
        apply fill_model_twice. }
    assert (Hsame :
      (exists r, find_printer ip (printers db) = Some r /\ p_id r = p_id row)
      /\ (forall other, other <> ip ->
          find_printer other (printers db) = find_printer other (printers db))
      /\ List.NoDup (map p_ip (printers db))
      /\ List.NoDup (map p_id (printers db))).
    { split; [now exists row | auto]. }
    destruct mdl as [v|]; [destruct (truthy v) eqn:Hv|].
    + assert (Hcall : get_or_create_printer db now ip name location (Some v)
                      = (with_printers db
                           (map (fill_model (p_id row) v) (printers db)),
                         p_id row)).
      { unfold get_or_create_printer. now rewrite Hfind, Hv. }
      rewrite Hcall. cbn [fst snd].
      destruct (Hupd v) as (H1 & H2 & H3 & H4 & H5).
      exact (conj H1 (conj H2 (conj H3 (conj H4 (H5 Hv))))).
    + assert (Hcall : forall now' name' location',
                get_or_create_printer db now' ip name' location' (Some v)
                = (db, p_id row)).
      { intros. unfold get_or_create_printer. now rewrite Hfind, Hv. }
      rewrite Hcall. cbn [fst snd].
      destruct Hsame as (H1 & H2 & H3 & H4).
      exact (conj H1 (conj H2 (conj H3 (conj H4 Hcall)))).
    + assert (Hcall : forall now' name' location',
                get_or_create_printer db now' ip name' location' None
                = (db, p_id row)).
      { intros. unfold get_or_create_printer. now rewrite Hfind. }
      rewrite Hcall. cbn [fst snd].
      destruct Hsame as (H1 & H2 & H3 & H4).
      exact (conj H1 (conj H2 (conj H3 (conj H4 Hcall)))).
  - assert (Hcall : get_or_create_printer db now ip name location mdl
                    = insert_printer db now ip name location mdl).
    { unfold get_or_create_printer. now rewrite Hfind. }
    rewrite Hcall. unfold insert_printer. cbn [fst snd printers].
    set (new_id := next_id (map p_id (printers db)) (printers_seq db)).
    set (new := {| p_id := new_id; p_ip := ip; p_name := name;
                   p_location := location; p_model := mdl;
                   p_first_seen := now |}).
    destruct (find_printer_app_new ip (printers db) new Hfind eq_refl)
      as (Hnew & _ & Hnd).
    destruct (next_id_fresh (map p_id (printers db)) (printers_seq db))
      as [_ Hfresh]. fold new_id in Hfresh.
    split; [now exists new|]. split; [|split; [|split]].
    + intros other Hother. apply find_printer_app_other. simpl. congruence.
    + now apply Hnd.
    + rewrite map_app. simpl.
      apply List.NoDup_app; [exact Hids | repeat constructor; intros [] |].
      intros i Hi [<- | []]. specialize (Hfresh _ Hi). lia.
    + intros now' name' location'. unfold get_or_create_printer. simpl.
      rewrite Hnew. simpl.
      assert (Hmap : forall v,
        map (fill_model new_id v) (printers db ++ [new])
        = (printers db ++ [new])%list \/ mdl = None).
      { intros v. destruct mdl as [old|]; [left | now right].
        rewrite map_app. simpl. f_equal.
        - rewrite <- (map_id (printers db)) at 2. apply map_ext_in.
          intros r Hr. unfold fill_model.
          destruct (Z.eqb_spec (p_id r) new_id) as [E | _]; [|reflexivity].
          specialize (Hfresh (p_id r) (List.in_map p_id _ _ Hr)). lia.
        - unfold fill_model. simpl. now rewrite andb_false_r. }
      destruct mdl as [v|]; [|reflexivity].
      destruct (truthy v); [|reflexivity].
      destruct (Hmap v) as [-> | ?]; [|discriminate]. reflexivity.
Qed.

Lemma get_or_create_printer_returns_stored_id_witness :
  unique_ips two_printers /\ unique_printer_ids two_printers
  /\ forall now' name' location',
       get_or_create_printer
         (fst (get_or_create_printer two_printers 1700000300 "10.164.1.31"
                 "Other name" None (Some "HP LaserJet 400")))
         now' "10.164.1.31" name' location' (Some "HP LaserJet 400")
       = get_or_create_printer two_printers 1700000300 "10.164.1.31"
           "Other name" None (Some "HP LaserJet 400").
Proof.
  assert (H1 : unique_ips two_printers).
  { unfold unique_ips. vm_compute.
    repeat constructor; simpl; intuition discriminate. }
  assert (H2 : unique_printer_ids two_printers).
  { unfold unique_printer_ids. vm_compute.
    repeat constructor; simpl; intuition discriminate. }
  split; [exact H1|]. split; [exact H2|].
  intros now' name' location'.
  destruct (get_or_create_printer_returns_stored_id two_printers 1700000300
              "10.164.1.31" "Other name" None (Some "HP LaserJet 400") H1 H2)
    as (_ & _ & _ & _ & Hagain).
  rewrite Hagain. now destruct (get_or_create_printer _ _ _ _ _ _).
Defined.

(** [add_printer_to_db] stores the printer before it reports: the row of
    the address holds the printer's name after every call, also after one
    that raises.  The call raises [KeyError] exactly when the printer has no
    location; otherwise it returns [True] when the address was not stored
    and [False] when it was.  Rows of other addresses and the metrics are as
    they were. *)
Theorem add_printer_to_db_commits_before_reporting (db : database) (now : Z)
    (p : AutoConfigure.printer) :
  let db' := fst (AutoConfigure.add_printer_to_db db now p) in
  let result := snd (AutoConfigure.add_printer_to_db db now p) in
  (exists r, find_printer (AutoConfigure.ip p) (printers db') = Some r
             /\ p_name r = AutoConfigure.name p)
  /\ result
     = match AutoConfigure.location p with
       | None => Raise KeyError
       | Some _ =>
           Return (negb (not_None (find_printer (AutoConfigure.ip p)
                                     (printers db))))
       end
  /\ (forall other, other <> AutoConfigure.ip p ->
      find_printer other (printers db') = find_printer other (printers db))
  /\ metrics_rows db' = metrics_rows db.
Proof.
  intros db' result. unfold db', result. clear db' result.
  unfold AutoConfigure.add_printer_to_db.
  destruct (find_printer (AutoConfigure.ip p) (printers db)) as [row|]
    eqn:Hfind.
  - simpl. split; [|split; [|split]].
    + exists (AutoConfigure.update_printer p row).
      rewrite find_printer_map by apply update_printer_ip. rewrite Hfind.
      split; [reflexivity|]. unfold AutoConfigure.update_printer.
      destruct (find_printer_Some _ _ _ Hfind) as [_ ->].
      now rewrite String.eqb_refl.
    + now destruct (AutoConfigure.location p).
    + intros other Hother. apply find_printer_unchanged.
      * apply update_printer_ip.
      * intros r _ Hr. unfold AutoConfigure.update_printer.
        destruct (String.eqb_spec (p_ip r) (AutoConfigure.ip p)) as [E | _];
          [|reflexivity].
        exfalso. apply Hother. now rewrite <- Hr.
    + reflexivity.
  - unfold insert_printer. simpl. split; [|split; [|split]].
    + eexists. split.
      * apply (find_printer_app_new _ _ _ Hfind). reflexivity.
      * reflexivity.
    + now destruct (AutoConfigure.location p).
    + intros other Hother. apply find_printer_app_other. simpl. congruence.
    + reflexivity.
Qed.
(** ** The monitoring cycle *)

Lemma same_but_model_refl (r : printer_row) : same_but_model r r.
Proof. unfold same_but_model. auto 10. Qed.

Lemma same_but_model_trans (a b c : printer_row) :
  same_but_model a b -> same_but_model b c -> same_but_model a c.
Proof.
  unfold same_but_model.
  intros (A1 & A2 & A3 & A4 & A5 & A6) (B1 & B2 & B3 & B4 & B5 & B6).
  split; [congruence|]. split; [congruence|]. split; [congruence|].
  split; [congruence|]. split; [congruence|].
  destruct A6 as [A6 | A6]; [|now right].
  destruct B6 as [B6 | B6]; [left; congruence|].
  right. congruence.
Qed.

Lemma same_rows_refl (l : list printer_row) : Forall2 same_but_model l l.
Proof. induction l; constructor; [apply same_but_model_refl | assumption]. Qed.

Lemma same_rows_trans (l1 l2 l3 : list printer_row) :
  Forall2 same_but_model l1 l2 -> Forall2 same_but_model l2 l3 ->
  Forall2 same_but_model l1 l3.
Proof.
  intros H12. revert l3. induction H12 as [|a b l1 l2 Hab _ IH]; intros l3 H23.
  - inversion H23. constructor.
  - inversion H23 as [|b' c l2' l3' Hbc Hrest]; subst. constructor.
    + exact (same_but_model_trans _ _ _ Hab Hbc).
    + now apply IH.
Qed.

Lemma same_rows_fill_model (id : Z) (v : string) (l : list printer_row) :
  Forall2 same_but_model l (map (fill_model id v) l).
Proof.
  induction l; simpl; constructor;
    [apply fill_model_same_but_model | assumption].
Qed.

Lemma same_rows_keys (l l' : list printer_row) :
  Forall2 same_but_model l l' ->
  map p_ip l' = map p_ip l /\ map p_id l' = map p_id l.
Proof.
  induction 1 as [|a b l l' Hab _ [IH1 IH2]]; [now split|].
  destruct Hab as (E1 & E2 & _). simpl. split; congruence.
Qed.

Lemma same_rows_find (ip : string) (l l' : list printer_row)
    (r : printer_row) :
  Forall2 same_but_model l l' -> find_printer ip l = Some r ->
  exists r', find_printer ip l' = Some r' /\ same_but_model r r'.
Proof.
  unfold find_printer.
  induction 1 as [|a b l l' Hab _ IH]; [discriminate|]. simpl.
  destruct Hab as (E1 & E2 & Hrest). rewrite E2.
  destruct (String.eqb (p_ip a) ip).
  - intros [= <-]. exists b. split; [reflexivity|].
    unfold same_but_model. tauto.
  - exact IH.
Qed.

Lemma find_printer_own_row (l : list printer_row) (r : printer_row) :
  List.NoDup (map p_ip l) -> In r l -> find_printer (p_ip r) l = Some r.
Proof.
  unfold find_printer. induction l as [|a l IH]; simpl; [intros _ []|].
  intros Hnd Hin. apply List.NoDup_cons_iff in Hnd as [Hnotin Hnd].
  destruct (String.eqb_spec (p_ip a) (p_ip r)) as [E | Hne].
  - destruct Hin as [-> | Hin]; [reflexivity|].
    exfalso. apply Hnotin. rewrite E. now apply List.in_map.
  - destruct Hin as [-> | Hin]; [congruence | now apply IH].
Qed.

(** One turn of the loop for a printer that is stored. *)
Lemma monitor_printer_stored (net : env) (db : database) (now : Z)
    (ip name : string) (location : option string) (r : printer_row) :
  find_printer ip (printers db) = Some r ->
  let db' := monitor_printer net db now ip name location in
  Forall2 same_but_model (printers db) (printers db')
  /\ (unique_metric_ids db -> unique_metric_ids db')
  /\ exists new,
       metrics_rows db' = (metrics_rows db ++ new)%list
       /\ match get_printer_metrics net ip with
          | Return (Some m) =>
              if storable (p_id r) m
              then exists id, new = [stored_row id (p_id r) now m]
              else new = []
          | _ => new = []
          end
       /\ forall old row,
            In old (metrics_rows db) -> In row new -> m_id old < m_id row.
Proof.
  intros Hfind db'. unfold db', monitor_printer. clear db'.
  assert (Hnone :
    Forall2 same_but_model (printers db) (printers db)
    /\ (unique_metric_ids db -> unique_metric_ids db)
    /\ exists new,
         metrics_rows db = (metrics_rows db ++ new)%list /\ new = []
         /\ forall old row,
              In old (metrics_rows db) -> In row new -> m_id old < m_id row).
  { split; [apply same_rows_refl|]. split; [tauto|].
    exists []. split; [now rewrite app_nil_r|].
    split; [reflexivity | intros old row _ []]. }
  destruct (get_printer_metrics net ip) as [[m|]|e]; [|exact Hnone..].
  pose proof (get_or_create_printer_eq db now ip name location
                (PrinterMonitor.model m)) as Hcall.
  rewrite Hfind in Hcall. destruct Hcall as (rows' & -> & Hrows').
  assert (Hsame : Forall2 same_but_model (printers db) rows').
  { destruct Hrows' as [-> | [v ->]];
      [apply same_rows_refl | apply same_rows_fill_model]. }
  rewrite save_metrics_eq. destruct (storable (p_id r) m); cbn [fst].
  - destruct (insert_metrics_rows (with_printers db rows') now (p_id r) m)
      as (Hp & Hone & Hfresh & Hnd). cbv zeta in Hp, Hone, Hfresh, Hnd.
    rewrite Hp. split; [exact Hsame|]. split; [exact Hnd|].
    eexists. split; [exact Hone|]. split; [eexists; reflexivity|].
    intros old row Hold [<- | []]. exact (Hfresh old Hold).
  - split; [exact Hsame|]. split; [tauto|].
    exists []. split; [now rewrite app_nil_r|].
    split; [reflexivity | intros old row _ []].
Qed.

(** The loop over rows of the table the cycle started with. *)
Lemma monitor_loop_rows (net : env) (clock : nat -> Z) (db0 : database) :
  unique_ips db0 ->
  forall (rows : list printer_row) (k : nat) (db : database),
    (forall r, In r rows -> In r (printers db0)) ->
    Forall2 same_but_model (printers db0) (printers db) ->
    let db' :=
      MonitorCycle.monitor_loop net clock k
        (map (fun r => (p_ip r, p_name r, p_location r)) rows) db in
    Forall2 same_but_model (printers db0) (printers db')
    /\ (unique_metric_ids db -> unique_metric_ids db')
    /\ exists new,
         metrics_rows db' = (metrics_rows db ++ new)%list
         /\ map m_printer_id new
            = map p_id (List.filter (gives_stored_sample net) rows).
Proof.
  intros Hips rows. induction rows as [|r rows IH]; intros k db Hin Hsame.
  - simpl. split; [exact Hsame|]. split; [tauto|].
    exists []. now rewrite app_nil_r.
  - cbn [map MonitorCycle.monitor_loop].
    pose proof (find_printer_own_row _ r Hips (Hin r (or_introl eq_refl)))
      as Hfind0.
    destruct (same_rows_find _ _ _ _ Hsame Hfind0) as (r' & Hfind & Hr').
    destruct (monitor_printer_stored net db (clock k) (p_ip r) (p_name r)
                (p_location r) r' Hfind)
      as (Hstep & Hnd1 & new1 & Hrows1 & Hnew1 & _).
    cbv zeta in Hstep, Hnd1, Hrows1.
    set (db1 := monitor_printer net db (clock k) (p_ip r) (p_name r)
                  (p_location r)) in *.
    destruct (IH (S k) db1 (fun x Hx => Hin x (or_intror Hx))
                (same_rows_trans _ _ _ Hsame Hstep))
      as (Hsame' & Hnd' & new & Hrows & Hnew).
    cbv zeta in Hsame', Hnd', Hrows.
    split; [exact Hsame'|]. split; [tauto|].
    exists (new1 ++ new)%list. split.
    + rewrite Hrows, Hrows1. now rewrite <- app_assoc.
    + rewrite map_app, Hnew. cbn [List.filter].
      assert (Hresp : gives_stored_sample net r
                      = match get_printer_metrics net (p_ip r) with
                        | Return (Some m) => storable (p_id r) m
                        | _ => false
                        end) by reflexivity.
      rewrite Hresp. destruct Hr' as (Hid & _). rewrite Hid in Hnew1.
      destruct (get_printer_metrics net (p_ip r)) as [[m|]|e].
      * destruct (storable (p_id r) m).
        -- destruct Hnew1 as [id ->]. reflexivity.
        -- now rewrite Hnew1.
      * now rewrite Hnew1.
      * now rewrite Hnew1.
Qed.

Lemma monitor_printers_eq (net : env)
    (ordered : list printer_row -> list printer_row) (clock : nat -> Z)
    (db : database) :
  MonitorCycle.monitor_printers net ordered clock db
  = MonitorCycle.monitor_loop net clock 0
      (map (fun r => (p_ip r, p_name r, p_location r))
         (ordered (printers db))) db.
Proof.
  unfold MonitorCycle.monitor_printers, MonitorCycle.get_printers_from_db.
  now destruct (map _ (ordered (printers db))).
Qed.

Lemma monitor_printers_rows (net : env)
    (ordered : list printer_row -> list printer_row) (clock : nat -> Z)
    (db : database) :
  (forall l, Permutation (ordered l) l) -> unique_ips db ->
  let db' := MonitorCycle.monitor_printers net ordered clock db in
  Forall2 same_but_model (printers db) (printers db')
  /\ (unique_metric_ids db -> unique_metric_ids db')
  /\ exists new,
       metrics_rows db' = (metrics_rows db ++ new)%list
       /\ map m_printer_id new
          = map p_id
              (List.filter (gives_stored_sample net) (ordered (printers db))).
Proof.
  intros Hperm Hips db'. unfold db'. rewrite monitor_printers_eq.
  apply (monitor_loop_rows net clock db Hips).
  - intros r Hr. exact (Permutation_in r (Hperm (printers db)) Hr).
  - apply same_rows_refl.
Qed.


Lemma two_printers_consistent : consistent two_printers.
Proof.
  unfold consistent, unique_ips, unique_printer_ids, unique_metric_ids,
    references_printers.
  vm_compute.
  repeat split; repeat constructor; simpl; intuition discriminate.
Qed.


(** A monitoring cycle keeps the database consistent: addresses and ids of
    printers and ids of samples stay unique, and every sample, the new ones
    included, belongs to a stored printer. *)
Theorem monitor_printers_keeps_database_consistent (net : env)
    (ordered : list printer_row -> list printer_row) (clock : nat -> Z)
    (db : database) :
  (forall l, Permutation (ordered l) l) -> consistent db ->
  consistent (MonitorCycle.monitor_printers net ordered clock db).
Proof.
  intros Hperm (Hips & Hids & Hmids & Hrefs).
  destruct (monitor_printers_rows net ordered clock db Hperm Hips)
    as (Hsame & Hnd & new & Hrows & Hnew).
  cbv zeta in Hsame, Hnd, Hrows.
  destruct (same_rows_keys _ _ Hsame) as [Eip Eid].
  unfold consistent, unique_ips, unique_printer_ids, references_printers in *.
  rewrite Eip, Eid, Hrows. split; [exact Hips|]. split; [exact Hids|].
  split; [exact (Hnd Hmids)|].
  apply Forall_app. split; [exact Hrefs|].
  apply List.Forall_forall. intros row Hrow.
  apply (List.in_map m_printer_id) in Hrow. rewrite Hnew in Hrow.
  apply List.in_map_iff in Hrow as (r & <- & Hr).
  apply List.filter_In in Hr as [Hr _]. apply List.in_map.
  exact (Permutation_in r (Hperm (printers db)) Hr).
Qed.

Lemma monitor_printers_keeps_database_consistent_witness :
  (forall l : list printer_row, Permutation (id l) l)
  /\ consistent two_printers
  /\ consistent (MonitorCycle.monitor_printers counting_printer id
                   (fun k => 1700000400 + Z.of_nat k) two_printers).
Proof.
  assert (Hperm : forall l : list printer_row, Permutation (id l) l).
  { intros l. apply Permutation_refl. }
  split; [exact Hperm|]. split; [exact two_printers_consistent|].
  exact (monitor_printers_keeps_database_consistent counting_printer id
           (fun k => 1700000400 + Z.of_nat k) two_printers Hperm
           two_printers_consistent).
Defined.

(** ** The four copies of the probe *)

Lemma discovery_snmp_get_outcome (net : env) (ip oid : string) (timeout : Z) :
  Discovery.snmp_get net ip oid timeout
  = Return (probe_outcome (SnmpEngine net) (getCmd net ip oid timeout)).
Proof.
  unfold Discovery.snmp_get, probe_outcome, try_except, first_value,
    reports_error, usable.
  unfold_monad.
  destruct (SnmpEngine net); [|reflexivity].
  destruct (getCmd net ip oid timeout) as [r|]; [|reflexivity].
  destruct (not_None (errorIndication r) || negb (errorStatus r =? 0));
    [reflexivity|].
  destruct (varBinds r) as [|[nm value] rest]; [reflexivity|].
  destruct (contains "No Such" value); [reflexivity|].
  now destruct (truthy (strip value)).
Qed.

Lemma scan_snmp_get_outcome (net : env) (ip oid : string) (timeout : Z) :
  Scan.snmp_get net ip oid timeout
  = Return (probe_outcome (SnmpEngine net) (getCmd net ip oid timeout)).
Proof.
  unfold Scan.snmp_get, probe_outcome, try_except, first_value,
    reports_error, usable.
  unfold_monad.
  destruct (SnmpEngine net); [|reflexivity].
  destruct (getCmd net ip oid timeout) as [r|]; [|reflexivity].
  destruct (not_None (errorIndication r) || negb (errorStatus r =? 0));
    [reflexivity|].
  destruct (varBinds r) as [|[nm value] rest]; [reflexivity|].
  now destruct (negb (contains "No Such" value) && truthy (strip value)).
Qed.

Lemma diagnose_snmp_get_outcome (net : env) (closed : result unit)
    (ip oid : string) :
  Diagnose.snmp_get net closed ip oid
  = Return (match closed with
            | Return _ => probe_outcome (SnmpEngine net) (getCmd net ip oid 3)
            | Raise _ => None
            end).
Proof.
  unfold Diagnose.snmp_get, probe_outcome, try_except, first_value,
    reports_error, usable.
  unfold_monad.
  destruct (SnmpEngine net); [|now destruct closed].
  destruct (getCmd net ip oid 3) as [r|]; [|now destruct closed].
  destruct closed; [|reflexivity].
  destruct (not_None (errorIndication r) || negb (errorStatus r =? 0));
    [reflexivity|].
  destruct (varBinds r) as [|[nm value] rest]; [reflexivity|].
  now destruct (negb (contains "No Such" value) && truthy (strip value)).
Qed.

(** The probes of the monitor, of the two discovery scripts and of the
    diagnostic script give the same answer to the same request: the three
    with a timeout argument agree at every timeout, and the diagnostic one,
    which waits three seconds and closes its engine, agrees with the
    monitor's at that timeout when closing succeeds and gives [None] when
    closing raises.  None of them ever raises. *)
Theorem snmp_get_copies_agree (net : env) (ip oid : string) (timeout : Z) :
  Discovery.snmp_get net ip oid timeout = snmp_get net ip oid timeout
  /\ Scan.snmp_get net ip oid timeout = snmp_get net ip oid timeout
  /\ Diagnose.snmp_get net (Return tt) ip oid = snmp_get net ip oid 3
  /\ (forall e, Diagnose.snmp_get net (Raise e) ip oid = Return None)
  /\ exists v, snmp_get net ip oid timeout = Return v.
Proof.
  rewrite discovery_snmp_get_outcome, scan_snmp_get_outcome,
    !diagnose_snmp_get_outcome, !snmp_get_outcome.
  split; [reflexivity|]. split; [reflexivity|]. split; [reflexivity|].
  split; [|eauto]. intros e. now rewrite diagnose_snmp_get_outcome.
Qed.

(** ** The classifier *)

Lemma scan_check_if_printer_eq (net : env) (ip location : string) :
  Scan.check_if_printer net ip location
  = Return (match column net ip Discovery.sysDescr_oid with
            | Some descr =>
                if Discovery.is_printer descr
                then Some (discovered_at net ip location descr)
                else None
            | None => None
            end).
Proof.
  unfold Scan.check_if_printer. rewrite !scan_snmp_get_outcome.
  unfold_monad. unfold Discovery.SNMP_TIMEOUT.
  fold (column net ip Discovery.sysDescr_oid).
  fold (column net ip Discovery.sysName_oid).
  fold (column net ip Discovery.model_oid).
  fold (column net ip Discovery.total_pages_oid).
  destruct (column net ip Discovery.sysDescr_oid) as [descr|] eqn:Hd;
    [|reflexivity].
  rewrite (column_truthy _ _ _ _ Hd). cbn [negb].
  now destruct (Discovery.is_printer descr).
Qed.

Lemma discovery_check_if_printer_eq (net : env) (ip : string) :
  Discovery.check_if_printer net ip
  = Return (match column net ip Discovery.sysDescr_oid with
            | Some descr =>
                if Discovery.is_printer descr
                then Some (found_at net ip descr)
                else None
            | None => None
            end).
Proof.
  unfold Discovery.check_if_printer. rewrite !discovery_snmp_get_outcome.
  unfold_monad. unfold Discovery.SNMP_TIMEOUT.
  fold (column net ip Discovery.sysDescr_oid).
  fold (column net ip Discovery.sysName_oid).
  fold (column net ip Discovery.model_oid).
  fold (column net ip Discovery.total_pages_oid).
  destruct (column net ip Discovery.sysDescr_oid) as [descr|] eqn:Hd;
    [|reflexivity].
  rewrite (column_truthy _ _ _ _ Hd). cbn [negb].
  now destruct (Discovery.is_printer descr).
Qed.

Lemma scan_ip_sync_eq (net : env) (location ip_str : string) :
  Scan.scan_ip_sync net location ip_str
  = match column net ip_str Discovery.sysDescr_oid with
    | Some descr =>
        if Discovery.is_printer descr
        then Some (discovered_at net ip_str location descr)
        else None
    | None => None
    end.
Proof.
  unfold Scan.scan_ip_sync. now rewrite scan_check_if_printer_eq.
Qed.

Lemma discovery_scan_ip_sync_eq (net : env) (a : Z) :
  Discovery.scan_ip_sync net a
  = match column net (AutoConfigure.str_of_ip a) Discovery.sysDescr_oid with
    | Some descr =>
        if Discovery.is_printer descr
        then Some (found_at net (AutoConfigure.str_of_ip a) descr)
        else None
    | None => None
    end.
Proof.
  unfold Discovery.scan_ip_sync. now rewrite discovery_check_if_printer_eq.
Qed.

Lemma or_else_truthy (value : option string) (fallback : string) :
  truthy fallback = true -> truthy (Discovery.or_else value fallback) = true.
Proof.
  intros Hf. unfold Discovery.or_else. destruct value as [v|]; [|exact Hf].
  now destruct (truthy v) eqn:E.
Qed.

(** Every record the scan of one address returns is complete: it carries
    the address probed and the location of its subnet, a description that
    the device reported and that holds one of the printer keywords, and a
    name, a model and a page count that are never empty.  Storing it with
    [add_printer_to_db] therefore never raises; the call returns whether
    the address was new. *)
Theorem scanned_printer_is_complete (net : env) (location ip_str : string)
    (d : Scan.discovered) :
  Scan.scan_ip_sync net location ip_str = Some d ->
  Scan.d_ip d = ip_str /\ Scan.d_location d = location
  /\ Scan.snmp_get net ip_str Discovery.sysDescr_oid Discovery.SNMP_TIMEOUT
     = Return (Some (Scan.d_description d))
  /\ Discovery.is_printer (Scan.d_description d) = true
  /\ truthy (Scan.d_description d) = true
  /\ truthy (Scan.d_name d) = true
  /\ truthy (Scan.d_model d) = true
  /\ truthy (Scan.d_total_pages d) = true
  /\ forall db now,
       snd (AutoConfigure.add_printer_to_db db now (Scan.as_printer d))
       = Return (negb (not_None (find_printer ip_str (printers db)))).
Proof.
  rewrite scan_ip_sync_eq, scan_snmp_get_outcome.
  unfold Discovery.SNMP_TIMEOUT.
  fold (column net ip_str Discovery.sysDescr_oid).
  destruct (column net ip_str Discovery.sysDescr_oid) as [descr|] eqn:Hd;
    [|discriminate].
  destruct (Discovery.is_printer descr) eqn:Hp; [|discriminate].
  intros [= <-]. cbn [discovered_at Scan.d_ip Scan.d_location
    Scan.d_description Scan.d_name Scan.d_model Scan.d_total_pages].
  split; [reflexivity|]. split; [reflexivity|]. split; [reflexivity|].
  split; [exact Hp|]. split; [exact (column_truthy _ _ _ _ Hd)|].
  split; [apply or_else_truthy, or_else_truthy; reflexivity|].
  split; [apply or_else_truthy; reflexivity|].
  split; [apply or_else_truthy; reflexivity|].
  intros db now. unfold AutoConfigure.add_printer_to_db, Scan.as_printer.
  cbn [AutoConfigure.ip AutoConfigure.location discovered_at Scan.d_ip
       Scan.d_location].
  destruct (find_printer ip_str (printers db)); [reflexivity|].
  now destruct (insert_printer _ _ _ _ _ _).
Qed.

Lemma scanned_printer_is_complete_witness :
  Scan.d_name (discovered_at nameless_printer "10.164.1.30" "Main Office"
                 "Brother HL-L2350DW series")
  = "Brother HL-L2350DW"
  /\ truthy (Scan.d_name (discovered_at nameless_printer "10.164.1.30"
                            "Main Office" "Brother HL-L2350DW series"))
     = true.
Proof.
  split; [reflexivity|].
  assert (H : Scan.scan_ip_sync nameless_printer "Main Office" "10.164.1.30"
              = Some (discovered_at nameless_printer "10.164.1.30"
                        "Main Office" "Brother HL-L2350DW series")).
  { reflexivity. }
  exact (proj1 (proj2 (proj2 (proj2 (proj2 (proj2
    (scanned_printer_is_complete _ _ _ _ H))))))).
Defined.

(** The two discovery scripts classify alike: for every address, both
    report a printer or neither does, and the two records agree on the
    address, the description, the model and the page count.  They differ
    in the name only when the device reports none: the discovery script
    then says ['Unknown'], the configuration script falls back on the model
    and then on ['Printer-<address>']. *)
Theorem discovery_scripts_classify_alike (net : env) (location : string)
    (a : Z) :
  match Discovery.scan_ip_sync net a,
        Scan.scan_ip_sync net location (AutoConfigure.str_of_ip a) with
  | None, None => True
  | Some f, Some d =>
      Discovery.f_ip f = Scan.d_ip d
      /\ Discovery.f_description f = Scan.d_description d
      /\ Discovery.f_model f = Scan.d_model d
      /\ Discovery.f_total_pages f = Scan.d_total_pages d
      /\ (Discovery.f_name f = Scan.d_name d
          \/ (column net (AutoConfigure.str_of_ip a) Discovery.sysName_oid
              = None
              /\ Discovery.f_name f = "Unknown"
              /\ Scan.d_name d
                 = Discovery.or_else
                     (column net (AutoConfigure.str_of_ip a)
                        Discovery.model_oid)
                     ("Printer-" +:+ AutoConfigure.str_of_ip a)))
  | _, _ => False
  end.
Proof.
  rewrite discovery_scan_ip_sync_eq, scan_ip_sync_eq.
  destruct (column net (AutoConfigure.str_of_ip a) Discovery.sysDescr_oid)
    as [descr|]; [|exact I].
  destruct (Discovery.is_printer descr); [|exact I].
  cbn [found_at discovered_at Discovery.f_ip Discovery.f_description
       Discovery.f_model Discovery.f_total_pages Discovery.f_name Scan.d_ip
       Scan.d_description Scan.d_model Scan.d_total_pages Scan.d_name].
  split; [reflexivity|]. split; [reflexivity|]. split; [reflexivity|].
  split; [reflexivity|].
  destruct (column net (AutoConfigure.str_of_ip a) Discovery.sysName_oid)
    as [nm|] eqn:Hn.
  - left. unfold Discovery.or_else at 1 2.
    now rewrite (column_truthy _ _ _ _ Hn).
  - right. auto.
Qed.
(** ** The sweep and the scans *)

(** What the results of probes that complete in any order hold. *)
Lemma In_completed {A B : Type} (f : A -> option B)
    (completed : list (option B) -> list (option B)) (l : list A) (b : B) :
  (forall futures, Permutation (completed futures) futures) ->
  In b (omap id (completed (map f l))) <-> exists a, In a l /\ f a = Some b.
Proof.
  intros Hperm. rewrite <- list_elem_of_In, list_elem_of_omap. split.
  - intros (o & Ho & Hid). simpl in Hid. subst o.
    apply list_elem_of_In in Ho. apply (Permutation_in _ (Hperm _)) in Ho.
    apply List.in_map_iff in Ho as (a & Hf & Ha). eauto.
  - intros (a & Ha & Hf). exists (Some b). split; [|reflexivity].
    apply list_elem_of_In.
    apply (Permutation_in _ (Permutation_sym (Hperm _))).
    rewrite <- Hf. now apply List.in_map.
Qed.

Lemma NoDup_omap_map {A B C : Type} (f : A -> option B) (g : B -> C)
    (h : A -> C) (l : list A) :
  (forall a b, In a l -> f a = Some b -> g b = h a) ->
  List.NoDup (map h l) -> List.NoDup (map g (omap id (map f l))).
Proof.
  induction l as [|a l IH]; intros Hgh Hnd; [constructor|].
  simpl in Hnd. apply List.NoDup_cons_iff in Hnd as [Hnotin Hnd].
  assert (IH' : List.NoDup (map g (omap id (map f l)))).
  { apply IH; [|exact Hnd]. intros x b Hx. apply Hgh. now right. }
  cbn [map omap list_omap]. destruct (f a) as [b|] eqn:Hfa; [|exact IH'].
  cbn [id map]. apply List.NoDup_cons_iff. split; [|exact IH'].
  intros Hin. apply Hnotin.
  apply List.in_map_iff in Hin as (b' & Hb' & Hin).
  apply list_elem_of_In, list_elem_of_omap in Hin as (o & Ho & Hid).
  simpl in Hid. subst o. apply list_elem_of_In in Ho.
  apply List.in_map_iff in Ho as (x & Hfx & Hx).
  rewrite <- (Hgh a b (or_introl eq_refl) Hfa), <- Hb'.
  rewrite (Hgh x b' (or_intror Hx) Hfx). now apply List.in_map.
Qed.

Lemma NoDup_completed {A B C : Type} (f : A -> option B) (g : B -> C)
    (h : A -> C) (completed : list (option B) -> list (option B))
    (l : list A) :
  (forall futures, Permutation (completed futures) futures) ->
  (forall a b, In a l -> f a = Some b -> g b = h a) ->
  List.NoDup (map h l) ->
  List.NoDup (map g (omap id (completed (map f l)))).
Proof.
  intros Hperm Hgh Hnd.
  apply (Permutation_NoDup (l := map g (omap id (map f l)))).
  - apply Permutation_map. apply omap_Permutation.
    apply Permutation_sym, Hperm.
  - now apply (NoDup_omap_map f g h).
Qed.

Lemma NoDup_map_in {A B : Type} (f : A -> B) (l : list A) :
  (forall x y, In x l -> In y l -> f x = f y -> x = y) ->
  List.NoDup l -> List.NoDup (map f l).
Proof.
  induction l as [|a l IH]; intros Hinj Hnd; [constructor|].
  apply List.NoDup_cons_iff in Hnd as [Hnotin Hnd]. simpl.
  apply List.NoDup_cons_iff. split.
  - intros Hin. apply List.in_map_iff in Hin as (x & Hfx & Hx).
    apply Hnotin.
    now rewrite <- (Hinj x a (or_intror Hx) (or_introl eq_refl) Hfx).
  - apply IH; [|exact Hnd]. intros x y Hx Hy. apply Hinj; now right.
Qed.

Lemma range_NoDup (lo hi : Z) : List.NoDup (AutoConfigure.range lo hi).
Proof.
  unfold AutoConfigure.range. apply NoDup_map_in; [|apply List.seq_NoDup].
  intros x y _ _. lia.
Qed.

Lemma hosts_NoDup (n : AutoConfigure.network) :
  List.NoDup (AutoConfigure.hosts n).
Proof.
  unfold AutoConfigure.hosts.
  destruct (AutoConfigure.prefixlen n =? 31).
  - repeat constructor; simpl; [|tauto]. intros [H | []]. lia.
  - destruct (AutoConfigure.prefixlen n =? 32).
    + repeat constructor. intros [].
    + apply range_NoDup.
Qed.

(** Every host address of a subnet is a 32-bit address. *)
Lemma hosts_bounds (address prefix : Z) (n : AutoConfigure.network) (a : Z) :
  AutoConfigure.ip_network address prefix = Return n ->
  In a (AutoConfigure.hosts n) -> 0 <= a < 2 ^ 32.
Proof.
  intros Hnet Hin. pose proof (network_bounds _ _ _ Hnet) as [Hn Hb].
  unfold AutoConfigure.hosts in Hin.
  destruct (Z.eqb_spec (AutoConfigure.prefixlen n) 31) as [H31 | _].
  - assert (Hbc : AutoConfigure.broadcast_address n
                  = AutoConfigure.network_address n + 1).
    { unfold AutoConfigure.ip_network in Hnet.
      destruct (_ && _) eqn:Hok in Hnet; [|discriminate].
      injection Hnet as <-. unfold AutoConfigure.broadcast_address.
      cbn [AutoConfigure.network_address AutoConfigure.prefixlen] in *.
      subst prefix.
      change (AutoConfigure.hostmask 31) with 1.
      change (AutoConfigure.netmask 31) with (Z.lxor (2 ^ 32 - 1) 1).
      set (x := Z.land address (Z.lxor (2 ^ 32 - 1) 1)).
      assert (Hbit : Z.testbit x 0 = false).
      { unfold x. rewrite Z.land_spec. apply andb_false_r. }
      rewrite <- Z.add_nocarry_lor.
      - reflexivity.
      - apply Z.bits_inj'. intros k Hk. rewrite Z.land_spec, Z.bits_0.
        destruct k as [|p|p]; [now rewrite Hbit | | lia].
        assert (Hone : Z.testbit 1 (Z.pos p) = false) by now destruct p.
        rewrite Hone. apply andb_false_r. }
    destruct Hin as [<- | [<- | []]]; lia.
  - destruct (Z.eqb_spec (AutoConfigure.prefixlen n) 32) as [_ | _].
    + destruct Hin as [<- | []]. lia.
    + apply In_range in Hin. lia.
Qed.

Lemma hosts_texts_NoDup (address prefix : Z) (n : AutoConfigure.network) :
  AutoConfigure.ip_network address prefix = Return n ->
  List.NoDup (map AutoConfigure.str_of_ip (AutoConfigure.hosts n)).
Proof.
  intros Hnet. apply NoDup_map_in; [|apply hosts_NoDup].
  intros x y Hx Hy. apply str_of_ip_inj; now apply (hosts_bounds _ _ _ _ Hnet).
Qed.

Lemma ping_ip_eq (run_ping : string -> result Z) (a : Z) (s : string) :
  AutoConfigure.ping_ip run_ping a = Some s
  <-> s = AutoConfigure.str_of_ip a /\ run_ping s = Return 0.
Proof.
  split; [apply ping_ip_Some|]. intros [-> Hrun].
  unfold AutoConfigure.ping_ip. now rewrite Hrun.
Qed.

Lemma ping_sweep_live (run_ping : string -> result Z)
    (completed : list (option string) -> list (option string))
    (address prefix : Z) (net : AutoConfigure.network) :
  (forall futures, Permutation (completed futures) futures) ->
  AutoConfigure.ip_network address prefix = Return net ->
  exists live,
    AutoConfigure.ping_sweep_windows run_ping completed address prefix
    = Return live
    /\ (forall s, In s live <->
          exists a, In a (AutoConfigure.hosts net)
                    /\ s = AutoConfigure.str_of_ip a
                    /\ run_ping s = Return 0)
    /\ List.NoDup live.
Proof.
  intros Hperm Hnet. unfold AutoConfigure.ping_sweep_windows.
  rewrite Hnet. unfold_monad. eexists. split; [reflexivity|]. split.
  - intros s. rewrite (In_completed _ _ _ _ Hperm).
    split; intros (a & Ha & H); exists a; (split; [exact Ha|]);
      now apply ping_ip_eq.
  - rewrite <- (map_id (omap id _)).
    apply (NoDup_completed _ id AutoConfigure.str_of_ip _ _ Hperm).
    + intros a s _ H. now apply ping_ip_eq in H as [-> _].
    + exact (hosts_texts_NoDup _ _ _ Hnet).
Qed.

(** The sweep finds every host that answers: whatever the order in which
    the pings complete, an address is returned exactly when it is the
    dotted quad of a host address of the subnet whose ping came back with
    code 0, and no address is returned twice. *)
Theorem ping_sweep_finds_every_answering_host
    (run_ping : string -> result Z)
    (completed : list (option string) -> list (option string))
    (address prefix : Z) (net : AutoConfigure.network) :
  (forall futures, Permutation (completed futures) futures) ->
  AutoConfigure.ip_network address prefix = Return net ->
  exists live,
    AutoConfigure.ping_sweep_windows run_ping completed address prefix
    = Return live
    /\ (forall s, In s live <->
          exists a, In a (AutoConfigure.hosts net)
                    /\ s = AutoConfigure.str_of_ip a
                    /\ run_ping s = Return 0)
    /\ List.NoDup live.
Proof. exact (ping_sweep_live run_ping completed address prefix net). Qed.

Lemma ping_sweep_finds_every_answering_host_witness :
  exists live,
    AutoConfigure.ping_sweep_windows (answers_at "192.0.2.1")
      (@List.rev (option string)) 3221225984 30 = Return live
    /\ (forall s, In s live <->
          exists a,
            In a (AutoConfigure.hosts
                    {| AutoConfigure.network_address := 3221225984;
                       AutoConfigure.prefixlen := 30 |})
            /\ s = AutoConfigure.str_of_ip a
            /\ answers_at "192.0.2.1" s = Return 0)
    /\ List.NoDup live.
Proof.
  apply (ping_sweep_finds_every_answering_host (answers_at "192.0.2.1")
           (@List.rev (option string)) 3221225984 30).
  - intros futures. apply Permutation_sym, Permutation_rev.
  - reflexivity.
Defined.

Lemma scan_subnet_printers (net : env) (run_ping : string -> result Z)
    (pinged : list (option string) -> list (option string))
    (scanned : list (option Scan.discovered) -> list (option Scan.discovered))
    (address prefix : Z) (location : string)
    (network : AutoConfigure.network) :
  (forall futures, Permutation (pinged futures) futures) ->
  (forall futures, Permutation (scanned futures) futures) ->
  AutoConfigure.ip_network address prefix = Return network ->
  exists printers,
    Scan.scan_subnet net run_ping pinged scanned address prefix location
    = Return printers
    /\ (forall d, In d printers <->
          exists a, In a (AutoConfigure.hosts network)
                    /\ run_ping (AutoConfigure.str_of_ip a) = Return 0
                    /\ Scan.scan_ip_sync net location
                         (AutoConfigure.str_of_ip a) = Some d)
    /\ List.NoDup (map Scan.d_ip printers).
Proof.
  intros Hping Hscan Hnet. unfold Scan.scan_subnet.
  destruct (ping_sweep_live run_ping pinged address prefix network Hping Hnet)
    as (live & -> & Hlive & Hnd).
  unfold_monad.
  assert (Hall :
    (forall d,
       In d (omap id (scanned (map (Scan.scan_ip_sync net location) live)))
       <-> exists a, In a (AutoConfigure.hosts network)
                     /\ run_ping (AutoConfigure.str_of_ip a) = Return 0
                     /\ Scan.scan_ip_sync net location
                          (AutoConfigure.str_of_ip a) = Some d)
    /\ List.NoDup
         (map Scan.d_ip
            (omap id (scanned (map (Scan.scan_ip_sync net location) live))))).
  { split.
    - intros d. rewrite (In_completed _ _ _ _ Hscan). split.
      + intros (s & Hs & Hd). apply Hlive in Hs as (a & Ha & -> & Hrun).
        eauto.
      + intros (a & Ha & Hrun & Hd). exists (AutoConfigure.str_of_ip a).
        split; [|exact Hd]. apply Hlive. eauto.
    - apply (NoDup_completed _ Scan.d_ip id _ _ Hscan).
      + intros s d _ Hd. rewrite scan_ip_sync_eq in Hd.
        destruct (column net s Discovery.sysDescr_oid) as [descr|];
          [|discriminate].
        destruct (Discovery.is_printer descr); [|discriminate].
        now injection Hd as <-.
      + now rewrite map_id. }
  destruct live as [|s live'].
  - exists []. split; [reflexivity|]. split; [|constructor].
    intros d. split; [intros []|].
    intros (a & Ha & Hrun & _).
    apply (proj2 (Hlive (AutoConfigure.str_of_ip a))). eauto.
  - eexists. split; [reflexivity|]. exact Hall.
Qed.

(** The scan of a subnet reports a record exactly when it is what the
    classifier makes of a host address of the subnet that answered the
    ping, in whatever order the pings and the probes complete; no address
    is reported twice. *)
Theorem scan_subnet_reports_live_printers (net : env)
    (run_ping : string -> result Z)
    (pinged : list (option string) -> list (option string))
    (scanned : list (option Scan.discovered) -> list (option Scan.discovered))
    (address prefix : Z) (location : string)
    (network : AutoConfigure.network) :
  (forall futures, Permutation (pinged futures) futures) ->
  (forall futures, Permutation (scanned futures) futures) ->
  AutoConfigure.ip_network address prefix = Return network ->
  exists printers,
    Scan.scan_subnet net run_ping pinged scanned address prefix location
    = Return printers
    /\ (forall d, In d printers <->
          exists a, In a (AutoConfigure.hosts network)
                    /\ run_ping (AutoConfigure.str_of_ip a) = Return 0
                    /\ Scan.scan_ip_sync net location
                         (AutoConfigure.str_of_ip a) = Some d)
    /\ List.NoDup (map Scan.d_ip printers).
Proof.
  exact (scan_subnet_printers net run_ping pinged scanned address prefix
           location network).
Qed.

Lemma scan_subnet_reports_live_printers_witness :
  exists printers,
    Scan.scan_subnet nameless_printer (answers_at "192.0.2.1")
      (@List.rev (option string)) (@List.rev (option Scan.discovered))
      3221225984 30 "Main Office" = Return printers
    /\ (forall d, In d printers <->
          exists a,
            In a (AutoConfigure.hosts
                    {| AutoConfigure.network_address := 3221225984;
                       AutoConfigure.prefixlen := 30 |})
            /\ answers_at "192.0.2.1" (AutoConfigure.str_of_ip a) = Return 0
            /\ Scan.scan_ip_sync nameless_printer "Main Office"
                 (AutoConfigure.str_of_ip a) = Some d)
    /\ List.NoDup (map Scan.d_ip printers).
Proof.
  apply (scan_subnet_reports_live_printers nameless_printer
           (answers_at "192.0.2.1") (@List.rev (option string))
           (@List.rev (option Scan.discovered)) 3221225984 30 "Main Office").
  - intros futures. apply Permutation_sym, Permutation_rev.
  - intros futures. apply Permutation_sym, Permutation_rev.
  - reflexivity.
Defined.

(** The discovery script, which probes every host address without a ping
    sweep, reports every device the configuration script reports for the
    same subnet, with the same address, description, model and page count;
    and a device it reports is reported by the configuration script as
    well when its address answered the ping. *)
Theorem discovery_scan_covers_configuration_scan (net : env)
    (run_ping : string -> result Z)
    (pinged : list (option string) -> list (option string))
    (scanned : list (option Scan.discovered) -> list (option Scan.discovered))
    (completed : list (option Discovery.found) -> list (option Discovery.found))
    (address prefix : Z) (location : string)
    (network : AutoConfigure.network) :
  (forall futures, Permutation (pinged futures) futures) ->
  (forall futures, Permutation (scanned futures) futures) ->
  (forall futures, Permutation (completed futures) futures) ->
  AutoConfigure.ip_network address prefix = Return network ->
  exists printers found,
    Scan.scan_subnet net run_ping pinged scanned address prefix location
    = Return printers
    /\ Discovery.scan_subnet net completed address prefix = Return found
    /\ (forall d, In d printers ->
          exists f, In f found
                    /\ Discovery.f_ip f = Scan.d_ip d
                    /\ Discovery.f_description f = Scan.d_description d
                    /\ Discovery.f_model f = Scan.d_model d
                    /\ Discovery.f_total_pages f = Scan.d_total_pages d)
    /\ (forall f, In f found -> run_ping (Discovery.f_ip f) = Return 0 ->
          exists d, In d printers
                    /\ Discovery.f_ip f = Scan.d_ip d
                    /\ Discovery.f_description f = Scan.d_description d
                    /\ Discovery.f_model f = Scan.d_model d
                    /\ Discovery.f_total_pages f = Scan.d_total_pages d).
Proof.
  intros Hping Hscan Hdone Hnet.
  destruct (scan_subnet_printers net run_ping pinged scanned address prefix
              location network Hping Hscan Hnet) as (printers & -> & Hin & _).
  exists printers. unfold Discovery.scan_subnet. rewrite Hnet. unfold_monad.
  eexists. split; [reflexivity|]. split; [reflexivity|]. split.
  - intros d Hd. apply Hin in Hd as (a & Ha & _ & Hd).
    rewrite scan_ip_sync_eq in Hd.
    exists (found_at net (AutoConfigure.str_of_ip a) (Scan.d_description d)).
    destruct (column net (AutoConfigure.str_of_ip a) Discovery.sysDescr_oid)
      as [descr|] eqn:Hdescr; [|discriminate].
    destruct (Discovery.is_printer descr) eqn:Hp; [|discriminate].
    injection Hd as <-. split; [|now auto].
    apply (In_completed _ _ _ _ Hdone). exists a. split; [exact Ha|].
    rewrite discovery_scan_ip_sync_eq, Hdescr, Hp. reflexivity.
  - intros f Hf Hrun. apply (In_completed _ _ _ _ Hdone) in Hf as (a & Ha & Hf).
    rewrite discovery_scan_ip_sync_eq in Hf.
    destruct (column net (AutoConfigure.str_of_ip a) Discovery.sysDescr_oid)
      as [descr|] eqn:Hdescr; [|discriminate].
    destruct (Discovery.is_printer descr) eqn:Hp; [|discriminate].
    injection Hf as <-. cbn [found_at Discovery.f_ip] in Hrun.
    exists (discovered_at net (AutoConfigure.str_of_ip a) location descr).
    split; [|now auto]. apply Hin. exists a. split; [exact Ha|].
    split; [exact Hrun|]. now rewrite scan_ip_sync_eq, Hdescr, Hp.
Qed.

Lemma discovery_scan_covers_configuration_scan_witness :
  exists printers found,
    Scan.scan_subnet nameless_printer (answers_at "192.0.2.1")
      (@List.rev (option string)) (@List.rev (option Scan.discovered))
      3221225984 30 "Main Office" = Return printers
    /\ Discovery.scan_subnet nameless_printer
         (@List.rev (option Discovery.found)) 3221225984 30 = Return found
    /\ (forall d, In d printers ->
          exists f, In f found
                    /\ Discovery.f_ip f = Scan.d_ip d
                    /\ Discovery.f_description f = Scan.d_description d
                    /\ Discovery.f_model f = Scan.d_model d
                    /\ Discovery.f_total_pages f = Scan.d_total_pages d)
    /\ (forall f, In f found ->
          answers_at "192.0.2.1" (Discovery.f_ip f) = Return 0 ->
          exists d, In d printers
                    /\ Discovery.f_ip f = Scan.d_ip d
                    /\ Discovery.f_description f = Scan.d_description d
                    /\ Discovery.f_model f = Scan.d_model d
                    /\ Discovery.f_total_pages f = Scan.d_total_pages d).
Proof.
  apply (discovery_scan_covers_configuration_scan nameless_printer
           (answers_at "192.0.2.1") (@List.rev (option string))
           (@List.rev (option Scan.discovered))
           (@List.rev (option Discovery.found)) 3221225984 30 "Main Office"
           {| AutoConfigure.network_address := 3221225984;
              AutoConfigure.prefixlen := 30 |}).
  - intros futures. apply Permutation_sym, Permutation_rev.
  - intros futures. apply Permutation_sym, Permutation_rev.
  - intros futures. apply Permutation_sym, Permutation_rev.
  - reflexivity.
Defined.

(** [scan_multiple_subnets] returns the records of its subnets one subnet
    after the other, in the order of the list, behind the records it was
    started with; and when it raises it raises [ValueError], because one of
    the subnets is not a network, and every record found until then is
    lost. *)
Theorem scan_multiple_subnets_concatenates (net : env)
    (run_ping : string -> result Z)
    (pinged : list (option string) -> list (option string))
    (scanned : list (option Scan.discovered) -> list (option Scan.discovered))
    (subnet_list : list (Z * Z * string))
    (all_printers : list Scan.discovered) :
  match Scan.scan_multiple_subnets net run_ping pinged scanned subnet_list
          all_printers with
  | Return printers =>
      exists parts,
        Forall2 (fun '(address, prefix, location) part =>
                   Scan.scan_subnet net run_ping pinged scanned address prefix
                     location = Return part)
          subnet_list parts
        /\ printers = (all_printers ++ concat parts)%list
  | Raise e =>
      e = ValueError
      /\ exists address prefix location,
           In (address, prefix, location) subnet_list
           /\ AutoConfigure.ip_network address prefix = Raise ValueError
  end.
Proof.
  revert all_printers.
  induction subnet_list as [|[[address prefix] location] rest IH];
    intros all_printers.
  - simpl. exists []. split; [constructor | now rewrite app_nil_r].
  - cbn [Scan.scan_multiple_subnets]. unfold_monad.
    destruct (Scan.scan_subnet net run_ping pinged scanned address prefix
                location) as [part|e] eqn:Hpart.
    + specialize (IH (all_printers ++ part)%list).
      destruct (Scan.scan_multiple_subnets net run_ping pinged scanned rest
                  (all_printers ++ part)) as [printers|e].
      * destruct IH as (parts & Hparts & ->). exists (part :: parts).
        split; [now constructor|]. simpl. now rewrite app_assoc.
      * destruct IH as (-> & a & p & l & Hin & Hbad).
        split; [reflexivity|]. exists a, p, l. split; [now right | exact Hbad].
    + unfold Scan.scan_subnet, AutoConfigure.ping_sweep_windows in Hpart.
      unfold_monad.
      destruct (AutoConfigure.ip_network address prefix) as [network|e']
        eqn:Hnet.
      * now destruct (omap id _) in Hpart.
      * injection Hpart as <-.
        assert (e' = ValueError) as ->.
        { unfold AutoConfigure.ip_network in Hnet.
          destruct (_ && _) in Hnet; congruence. }
        split; [reflexivity|].
        exists address, prefix, location. split; [now left | exact Hnet].
Qed.
(** ** Storing what a scan found *)

(** One call of [add_printer_to_db] on a record of a scan. *)
Lemma add_discovered_step (db : database) (now : Z) (d : Scan.discovered) :
  unique_ips db ->
  exists db' created,
    AutoConfigure.add_printer_to_db db now (Scan.as_printer d)
    = (db', Return created)
    /\ created = negb (not_None (find_printer (Scan.d_ip d) (printers db)))
    /\ length (printers db')
       = (length (printers db) + if created then 1 else 0)%nat
    /\ unique_ips db'
    /\ metrics_rows db' = metrics_rows db
    /\ (forall other, other <> Scan.d_ip d ->
        find_printer other (printers db') = find_printer other (printers db))
    /\ exists r,
         find_printer (Scan.d_ip d) (printers db') = Some r
         /\ p_name r = Scan.d_name d
         /\ p_location r = Some (Scan.d_location d)
         /\ p_model r = Some (Scan.d_model d).
Proof.
  intros Hips. unfold AutoConfigure.add_printer_to_db, Scan.as_printer.
  cbn [AutoConfigure.ip AutoConfigure.name AutoConfigure.location
       AutoConfigure.model default]. unfold_monad.
  set (p := {| AutoConfigure.ip := Scan.d_ip d;
               AutoConfigure.name := Scan.d_name d;
               AutoConfigure.location := Some (Scan.d_location d);
               AutoConfigure.model := Some (Scan.d_model d) |}).
  destruct (find_printer (Scan.d_ip d) (printers db)) as [row|] eqn:Hfind.
  - eexists. exists false. split; [reflexivity|]. split; [reflexivity|].
    cbn [printers with_printers metrics_rows].
    split; [rewrite length_map; lia|]. split; [|split; [reflexivity|split]].
    + unfold unique_ips. cbn [printers with_printers].
      rewrite map_p_ip_map by apply update_printer_ip. exact Hips.
    + intros other Hother. apply find_printer_unchanged.
      * apply update_printer_ip.
      * intros r _ Hr. unfold AutoConfigure.update_printer.
        destruct (String.eqb_spec (p_ip r) (AutoConfigure.ip p)) as [E | _];
          [|reflexivity].
        exfalso. apply Hother. now rewrite <- Hr.
    + exists (AutoConfigure.update_printer p row).
      rewrite find_printer_map by apply update_printer_ip. rewrite Hfind.
      split; [reflexivity|]. unfold AutoConfigure.update_printer.
      destruct (find_printer_Some _ _ _ Hfind) as [_ ->].
      cbn [AutoConfigure.ip p]. rewrite String.eqb_refl. auto.
  - unfold insert_printer. eexists. exists true.
    split; [reflexivity|]. split; [reflexivity|].
    cbn [printers metrics_rows].
    destruct (find_printer_app_new (Scan.d_ip d) (printers db)
                {| p_id := next_id (map p_id (printers db)) (printers_seq db);
                   p_ip := Scan.d_ip d; p_name := Scan.d_name d;
                   p_location := Some (Scan.d_location d);
                   p_model := Some (Scan.d_model d);
                   p_first_seen := now |} Hfind eq_refl)
      as (Hnew & _ & Hnd).
    split; [rewrite length_app; reflexivity|].
    split; [exact (Hnd Hips)|]. split; [reflexivity|]. split.
    + intros other Hother. apply find_printer_app_other. simpl. congruence.
    + eexists. split; [exact Hnew|]. auto.
Qed.

Lemma add_printers_discovered (clock : nat -> Z)
    (found : list Scan.discovered) :
  forall (k : nat) (db : database) (count : Z),
    unique_ips db ->
    exists db' added,
      add_printers clock k (map Scan.as_printer found) db count
      = (db', Return (count + Z.of_nat added))
      /\ length (printers db') = (length (printers db) + added)%nat
      /\ (added <= length found)%nat
      /\ unique_ips db'
      /\ metrics_rows db' = metrics_rows db
      /\ (forall other, ~ In other (map Scan.d_ip found) ->
          find_printer other (printers db') = find_printer other (printers db))
      /\ (forall d, In d found ->
          exists r, find_printer (Scan.d_ip d) (printers db') = Some r)
      /\ (List.NoDup (map Scan.d_ip found) ->
          forall d, In d found ->
            exists r,
              find_printer (Scan.d_ip d) (printers db') = Some r
              /\ p_name r = Scan.d_name d
              /\ p_location r = Some (Scan.d_location d)
              /\ p_model r = Some (Scan.d_model d)).
Proof.
  induction found as [|d rest IH]; intros k db count Hips.
  - exists db, 0%nat. simpl. rewrite Z.add_0_r, Nat.add_0_r.
    split; [reflexivity|]. split; [reflexivity|]. split; [lia|].
    split; [exact Hips|]. split; [reflexivity|]. split; [reflexivity|].
    split; intros; contradiction.
  - cbn [map add_printers].
    destruct (add_discovered_step db (clock k) d Hips)
      as (db1 & created & -> & Hcreated & Hlen & Hips1 & Hm1 & Hframe1
          & r1 & Hfind1 & Hfields1).
    destruct (IH (S k) db1 (count + if created then 1 else 0) Hips1)
      as (db' & added & Hrun & Hlen' & Hle & Hips' & Hm' & Hframe' & Hall'
          & Hfields').
    exists db', ((if created then 1 else 0) + added)%nat.
    split; [|split; [|split; [|split; [|split; [|split; [|split]]]]]].
    + destruct created; cbv iota.
      * rewrite Hrun. f_equal. f_equal. lia.
      * rewrite Z.add_0_r in Hrun. rewrite Hrun. f_equal.
    + rewrite Hlen', Hlen. lia.
    + simpl. destruct created; lia.
    + exact Hips'.
    + congruence.
    + intros other Hother. simpl in Hother.
      rewrite Hframe' by tauto. apply Hframe1. intros ->. tauto.
    + intros d' [<- | Hd'].
      * destruct (in_dec string_dec (Scan.d_ip d) (map Scan.d_ip rest))
          as [Hin | Hnotin].
        -- apply List.in_map_iff in Hin as (d'' & <- & Hd'').
           now apply Hall'.
        -- rewrite (Hframe' _ Hnotin). eauto.
      * now apply Hall'.
    + intros Hnd d' Hd'. simpl in Hnd.
      apply List.NoDup_cons_iff in Hnd as [Hnotin Hnd].
      destruct Hd' as [<- | Hd'].
      * rewrite (Hframe' _ Hnotin). eauto.
      * now apply Hfields'.
Qed.

(** Storing the records of a scan never raises, and the count of new
    printers it reports is true: the table grows by exactly that many rows,
    at most one per record.  Addresses stay unique, every record's address
    is stored afterwards, rows of addresses the scan did not report and all
    samples are as they were, and when no address was reported twice each
    row holds the name, the location and the model of its record. *)
Theorem add_printers_counts_new_rows (clock : nat -> Z)
    (found : list Scan.discovered) (db : database) :
  unique_ips db ->
  exists db' added,
    add_printers clock 0 (map Scan.as_printer found) db 0
    = (db', Return (Z.of_nat added))
    /\ length (printers db') = (length (printers db) + added)%nat
    /\ (added <= length found)%nat
    /\ unique_ips db'
    /\ metrics_rows db' = metrics_rows db
    /\ (forall other, ~ In other (map Scan.d_ip found) ->
        find_printer other (printers db') = find_printer other (printers db))
    /\ (forall d, In d found ->
        exists r, find_printer (Scan.d_ip d) (printers db') = Some r)
    /\ (List.NoDup (map Scan.d_ip found) ->
        forall d, In d found ->
          exists r,
            find_printer (Scan.d_ip d) (printers db') = Some r
            /\ p_name r = Scan.d_name d
            /\ p_location r = Some (Scan.d_location d)
            /\ p_model r = Some (Scan.d_model d)).
Proof.
  intros Hips. exact (add_printers_discovered clock found 0%nat db 0 Hips).
Qed.

Lemma add_printers_counts_new_rows_witness :
  unique_ips two_printers
  /\ exists db' added,
       add_printers (fun k => 1700000500 + Z.of_nat k) 0
         (map Scan.as_printer two_discovered) two_printers 0
       = (db', Return (Z.of_nat added))
       /\ length (printers db') = (length (printers two_printers) + added)%nat.
Proof.
  split; [exact (proj1 two_printers_consistent)|].
  destruct (add_printers_counts_new_rows (fun k => 1700000500 + Z.of_nat k)
              two_discovered two_printers (proj1 two_printers_consistent))
    as (db' & added & Hrun & Hlen & _).
  exists db', added. split; [exact Hrun | exact Hlen].
Defined.
(** ** The file of subnets *)

Lemma append_cons (c : ascii) (s t : string) :
  String c s +:+ t = String c (s +:+ t).
Proof. reflexivity. Qed.

Lemma append_nil_l (t : string) : "" +:+ t = t.
Proof. reflexivity. Qed.

Lemma append_assoc (s t u : string) : (s +:+ t) +:+ u = s +:+ (t +:+ u).
Proof.
  induction s as [|c s IH]; [reflexivity|].
  now rewrite !append_cons, IH.
Qed.

Lemma rev_append_eq (s acc : string) :
  Py.rev_append s acc = Py.rev s +:+ acc.
Proof.
  unfold Py.rev. revert acc. induction s as [|c s IH]; intros acc.
  - reflexivity.
  - cbn [Py.rev_append]. rewrite (IH (String c acc)), (IH (String c "")).
    now rewrite append_assoc.
Qed.

Lemma rev_cons (c : ascii) (s : string) :
  Py.rev (String c s) = Py.rev s +:+ String c "".
Proof. unfold Py.rev at 1. cbn [Py.rev_append]. apply rev_append_eq. Qed.

Lemma rev_snoc (c : ascii) (s : string) :
  Py.rev (s +:+ String c "") = String c (Py.rev s).
Proof.
  induction s as [|d s IH]; [reflexivity|].
  rewrite append_cons, !rev_cons, IH. reflexivity.
Qed.

Lemma rev_involutive (s : string) : Py.rev (Py.rev s) = s.
Proof.
  induction s as [|c s IH]; [reflexivity|].
  now rewrite rev_cons, rev_snoc, IH.
Qed.

Lemma lstrip_no_lead (s : string) : no_lead (lstrip s) = true.
Proof.
  induction s as [|c s IH]; [reflexivity|]. simpl.
  destruct (isspace c) eqn:E; [exact IH|]. simpl. now rewrite E.
Qed.

Lemma lstrip_fixed (s : string) : no_lead s = true -> lstrip s = s.
Proof.
  destruct s as [|c s]; [reflexivity|]. simpl.
  now destruct (isspace c).
Qed.

Lemma lstrip_snoc (c : ascii) (s : string) :
  isspace c = false -> lstrip (s +:+ String c "") = lstrip s +:+ String c "".
Proof.
  intros Hc. induction s as [|d s IH].
  - rewrite append_nil_l. simpl. now rewrite Hc.
  - rewrite append_cons. cbn [lstrip]. destruct (isspace d); [exact IH|].
    now rewrite append_cons.
Qed.

Lemma strip_no_lead (s : string) : no_lead (strip s) = true.
Proof.
  unfold strip. pose proof (lstrip_no_lead s) as Ht.
  destruct (lstrip s) as [|c t]; [reflexivity|].
  simpl in Ht. apply negb_true_iff in Ht.
  rewrite rev_cons, (lstrip_snoc _ _ Ht), rev_snoc. simpl. now rewrite Ht.
Qed.

(** [strip] does nothing to a string it has stripped. *)
Lemma strip_idempotent (s : string) : strip (strip s) = strip s.
Proof.
  unfold strip at 1. rewrite (lstrip_fixed _ (strip_no_lead s)).
  unfold strip at 1. rewrite rev_involutive.
  rewrite (lstrip_fixed (lstrip _)) by apply lstrip_no_lead.
  reflexivity.
Qed.

Lemma has_char_append (c : ascii) (s t : string) :
  has_char c (s +:+ t) = has_char c s || has_char c t.
Proof.
  induction s as [|d s IH]; [reflexivity|].
  rewrite append_cons. cbn [has_char]. now rewrite IH, orb_assoc.
Qed.

Lemma has_char_rev (c : ascii) (s : string) :
  has_char c (Py.rev s) = has_char c s.
Proof.
  induction s as [|d s IH]; [reflexivity|].
  rewrite rev_cons, has_char_append, IH. simpl.
  rewrite orb_false_r. apply orb_comm.
Qed.

Lemma has_char_lstrip (c : ascii) (s : string) :
  has_char c s = false -> has_char c (lstrip s) = false.
Proof.
  induction s as [|d s IH]; [reflexivity|]. simpl.
  intros H. apply orb_false_iff in H as [H1 H2].
  destruct (isspace d); [now apply IH|]. simpl. now rewrite H1, H2.
Qed.

Lemma has_char_strip (c : ascii) (s : string) :
  has_char c s = false -> has_char c (strip s) = false.
Proof.
  intros H. unfold strip. rewrite has_char_rev. apply has_char_lstrip.
  rewrite has_char_rev. now apply has_char_lstrip.
Qed.

(** [c in s] for the one-character string [c]. *)
Lemma contains_char (c : ascii) (s : string) :
  contains (String c "") s = has_char c s.
Proof.
  induction s as [|d s IH]; [reflexivity|].
  cbn [contains has_char String.prefix]. rewrite IH.
  destruct (ascii_dec c d) as [<- | Hne].
  - rewrite Ascii.eqb_refl. now destruct s.
  - assert (Ascii.eqb d c = false) as ->; [|reflexivity].
    apply Ascii.eqb_neq. congruence.
Qed.

Lemma split_once_first (sep : ascii) (s : string) :
  has_char sep (fst (PyStr.split_once sep s)) = false.
Proof.
  induction s as [|c s IH]; [reflexivity|]. simpl.
  destruct (Ascii.eqb c sep) eqn:E; [reflexivity|].
  destruct (PyStr.split_once sep s) as [a b]. simpl in *. now rewrite E, IH.
Qed.

Lemma split_once_none (sep : ascii) (s : string) :
  has_char sep s = false -> PyStr.split_once sep s = (s, None).
Proof.
  induction s as [|c s IH]; [reflexivity|]. simpl.
  intros H. apply orb_false_iff in H as [H1 H2].
  now rewrite H1, (IH H2).
Qed.

Lemma read_line_clean (valid : string -> bool) (line subnet location : string) :
  Scan.read_line valid line = Some (subnet, location) ->
  valid subnet = true
  /\ contains "," subnet = false
  /\ strip subnet = subnet /\ strip location = location
  /\ truthy (strip line) = true
  /\ PyStr.startswith "#" (strip line) = false
  /\ (contains "," line = false ->
      subnet = strip line /\ location = "Auto-discovered").
Proof.
  unfold Scan.read_line.
  destruct (truthy (strip line)) eqn:Ht; [|discriminate].
  destruct (PyStr.startswith "#" (strip line)) eqn:Hc; [discriminate|].
  cbn [negb orb].
  pose proof (split_once_first "," (strip line)) as Hfirst.
  pose proof (split_once_none "," (strip line)) as Hnone.
  destruct (PyStr.split_once "," (strip line)) as [first second].
  cbn [fst] in Hfirst.
  destruct (valid (strip first)) eqn:Hv; [|discriminate].
  intros [= <- <-].
  split; [exact Hv|]. split.
  { rewrite contains_char. now apply has_char_strip. }
  split; [apply strip_idempotent|]. split.
  { destruct second; [apply strip_idempotent | reflexivity]. }
  split; [reflexivity|]. split; [reflexivity|].
  intros Hline. rewrite contains_char in Hline.
  specialize (Hnone (has_char_strip _ _ Hline)). injection Hnone as -> ->.
  split; [apply strip_idempotent | reflexivity].
Qed.

(** Every entry [read_subnets_from_file] returns comes from a line of the
    file that is neither blank nor a comment.  Its subnet is a text
    [ip_network] accepts, holds no comma and has no blank around it; its
    location has no blank around it; and when the line holds no comma the
    subnet is the whole line without the blanks around it and the location
    is ['Auto-discovered'].  A file that does not exist gives no entry. *)
Theorem read_subnets_returns_clean_entries (valid : string -> bool)
    (file : option (list string)) (subnet location : string) :
  In (subnet, location) (Scan.read_subnets_from_file valid file) ->
  exists lines line,
    file = Some lines /\ In line lines
    /\ Scan.read_line valid line = Some (subnet, location)
    /\ valid subnet = true
    /\ contains "," subnet = false
    /\ strip subnet = subnet /\ strip location = location
    /\ truthy (strip line) = true
    /\ PyStr.startswith "#" (strip line) = false
    /\ (contains "," line = false ->
        subnet = strip line /\ location = "Auto-discovered").
Proof.
  unfold Scan.read_subnets_from_file. destruct file as [lines|]; [|intros []].
  intros Hin. apply list_elem_of_In, list_elem_of_omap in Hin
    as (line & Hline & Hread).
  apply list_elem_of_In in Hline.
  exists lines, line. split; [reflexivity|]. split; [exact Hline|].
  split; [exact Hread|]. exact (read_line_clean _ _ _ _ Hread).
Qed.

Lemma read_subnets_returns_clean_entries_witness :
  exists lines line,
    Some sample_lines = Some lines /\ In line lines
    /\ Scan.read_line (fun s => negb (String.eqb s "not a subnet")) line
       = Some ("192.168.1.0/24", "Home Office")
    /\ negb (String.eqb "192.168.1.0/24" "not a subnet") = true
    /\ contains "," "192.168.1.0/24" = false
    /\ strip "192.168.1.0/24" = "192.168.1.0/24"
    /\ strip "Home Office" = "Home Office"
    /\ truthy (strip line) = true
    /\ PyStr.startswith "#" (strip line) = false
    /\ (contains "," line = false ->
        "192.168.1.0/24" = strip line /\ "Home Office" = "Auto-discovered").
Proof.
  apply (read_subnets_returns_clean_entries
           (fun s => negb (String.eqb s "not a subnet")) (Some sample_lines)
           "192.168.1.0/24" "Home Office").
  vm_compute. tauto.
Defined.
(** ** The supply map of the diagnostic script *)

Lemma after_last_append (sep : ascii) (s t : string) :
  PyStr.after_last sep (s +:+ String sep t)
  = Some (default t (PyStr.after_last sep t)).
Proof.
  induction s as [|c s IH].
  - rewrite append_nil_l. cbn [PyStr.after_last].
    destruct (PyStr.after_last sep t); [reflexivity|].
    now rewrite Ascii.eqb_refl.
  - rewrite append_cons. cbn [PyStr.after_last]. now rewrite IH.
Qed.

Lemma indices_checked_true : indices_checked = true.
Proof. vm_compute. reflexivity. Qed.

Lemma index_of_probe_oid (base_oid : string) (i : Z) :
  In i FixTonerReading.walk_indices ->
  Diagnose.index_of (probe_oid base_oid i) = str_of_int i.
Proof.
  intros Hi. unfold Diagnose.index_of, PyStr.last_component, probe_oid.
  change ("." +:+ str_of_int i) with (String "." (str_of_int i)).
  rewrite after_last_append.
  pose proof indices_checked_true as Hc. unfold indices_checked in Hc.
  rewrite List.forallb_forall in Hc. specialize (Hc i Hi).
  now destruct (PyStr.after_last "." (str_of_int i)).
Qed.

Lemma walk_index_texts_NoDup :
  List.NoDup (map str_of_int FixTonerReading.walk_indices).
Proof.
  vm_compute. repeat (constructor; [simpl; intuition discriminate|]).
  constructor.
Qed.

Lemma walk_index_text_inj (i j : Z) :
  In i FixTonerReading.walk_indices -> In j FixTonerReading.walk_indices ->
  str_of_int i = str_of_int j -> i = j.
Proof. apply NoDup_map_eq, walk_index_texts_NoDup. Qed.

Lemma probe_oid_inj (base_oid : string) (i j : Z) :
  In i FixTonerReading.walk_indices -> In j FixTonerReading.walk_indices ->
  probe_oid base_oid i = probe_oid base_oid j -> i = j.
Proof.
  intros Hi Hj E. apply (walk_index_text_inj i j Hi Hj).
  rewrite <- (index_of_probe_oid base_oid i Hi),
    <- (index_of_probe_oid base_oid j Hj).
  now rewrite E.
Qed.

Lemma value_at_pairs_of (base_oid : string) (ivs : list (Z * string))
    (i : Z) :
  Forall (fun iv => In (fst iv) FixTonerReading.walk_indices) ivs ->
  In i FixTonerReading.walk_indices ->
  value_at (pairs_of base_oid ivs) base_oid i = kept ivs i.
Proof.
  intros Hall Hi. unfold value_at, kept, pairs_of.
  induction Hall as [|[j v] l Hj _ IH]; [reflexivity|].
  cbn [map List.find fst snd] in *.
  destruct (String.eqb_spec (probe_oid base_oid j) (probe_oid base_oid i))
    as [E | Hne].
  - rewrite (probe_oid_inj _ _ _ Hj Hi E), Z.eqb_refl. reflexivity.
  - destruct (Z.eqb_spec j i) as [-> | _]; [congruence | exact IH].
Qed.

Lemma kept_absent (ivs : list (Z * string)) (i : Z) :
  ~ In i (map fst ivs) -> kept ivs i = None.
Proof.
  unfold kept. induction ivs as [|[j v] l IH]; [reflexivity|].
  cbn [map List.find fst]. intros Hnotin.
  destruct (Z.eqb_spec j i) as [-> | _].
  - exfalso. apply Hnotin. now left.
  - apply IH. intros H. apply Hnotin. now right.
Qed.

(** One column added to the supply map. *)
Lemma add_column_lookup (key : string) (convert : string -> string)
    (base_oid : string) (ivs : list (Z * string)) :
  forall (supply_map : gmap string (gmap string string)) (i : Z),
    List.NoDup (map fst ivs) ->
    Forall (fun iv => In (fst iv) FixTonerReading.walk_indices) ivs ->
    In i FixTonerReading.walk_indices ->
    Diagnose.add_column key convert (pairs_of base_oid ivs) supply_map
      !! str_of_int i
    = (fun supply => put_col key (convert <$> kept ivs i) supply)
        <$> supply_map !! str_of_int i.
Proof.
  unfold Diagnose.add_column, pairs_of.
  induction ivs as [|[j v] l IH]; intros supply_map i Hnd Hall Hi.
  - cbn. now destruct (supply_map !! str_of_int i).
  - cbn [map fst snd] in *. apply List.NoDup_cons_iff in Hnd as [Hnotin Hnd].
    inversion Hall as [|x y Hj Hall']; subst. cbn [fst] in Hj.
    cbn [foldl]. rewrite (index_of_probe_oid _ _ Hj).
    rewrite (IH _ i Hnd Hall' Hi). unfold kept. cbn [List.find fst snd].
    destruct (Z.eqb_spec j i) as [-> | Hne].
    + fold (kept l i). rewrite (kept_absent l i Hnotin).
      destruct (supply_map !! str_of_int i) as [supply|] eqn:Hs.
      * now rewrite lookup_insert_eq.
      * now rewrite Hs.
    + fold (kept l i).
      assert (Htxt : str_of_int j <> str_of_int i).
      { intros E. apply Hne. exact (walk_index_text_inj _ _ Hj Hi E). }
      destruct (supply_map !! str_of_int j);
        [now rewrite lookup_insert_ne | reflexivity].
Qed.

Lemma add_column_keys (key : string) (convert : string -> string)
    (results : list (string * string)) :
  forall (supply_map : gmap string (gmap string string)) (k : string),
    Diagnose.add_column key convert results supply_map !! k = None
    <-> supply_map !! k = None.
Proof.
  unfold Diagnose.add_column.
  induction results as [|[oid v] l IH]; intros supply_map k; [reflexivity|].
  cbn [foldl]. rewrite IH.
  destruct (supply_map !! Diagnose.index_of oid) as [supply|] eqn:Hs;
    [|reflexivity].
  destruct (decide (Diagnose.index_of oid = k)) as [<- | Hne].
  - rewrite lookup_insert_eq, Hs. split; discriminate.
  - now rewrite lookup_insert_ne.
Qed.

Lemma add_descriptions_lookup (base_oid : string) (ivs : list (Z * string)) :
  forall (supply_map : gmap string (gmap string string)) (i : Z),
    List.NoDup (map fst ivs) ->
    Forall (fun iv => In (fst iv) FixTonerReading.walk_indices) ivs ->
    In i FixTonerReading.walk_indices ->
    foldl (fun supply_map '(oid, value) =>
             <[Diagnose.index_of oid := {[ "description" := value ]}]>
               supply_map)
      supply_map (pairs_of base_oid ivs) !! str_of_int i
    = match kept ivs i with
      | Some d => Some {[ "description" := d ]}
      | None => supply_map !! str_of_int i
      end.
Proof.
  unfold pairs_of.
  induction ivs as [|[j v] l IH]; intros supply_map i Hnd Hall Hi;
    [reflexivity|].
  cbn [map fst snd] in *. apply List.NoDup_cons_iff in Hnd as [Hnotin Hnd].
  inversion Hall as [|x y Hj Hall']; subst. cbn [fst] in Hj.
  cbn [foldl]. rewrite (index_of_probe_oid _ _ Hj).
  rewrite (IH _ i Hnd Hall' Hi). unfold kept. cbn [List.find fst snd].
  destruct (Z.eqb_spec j i) as [-> | Hne].
  - fold (kept l i). rewrite (kept_absent l i Hnotin).
    cbn. now rewrite lookup_insert_eq.
  - fold (kept l i). destruct (kept l i); [reflexivity|].
    apply lookup_insert_ne. intros E. apply Hne.
    exact (walk_index_text_inj _ _ Hj Hi E).
Qed.

Lemma add_descriptions_keys (results : list (string * string)) :
  forall (supply_map : gmap string (gmap string string)) (k : string),
    foldl (fun supply_map '(oid, value) =>
             <[Diagnose.index_of oid := {[ "description" := value ]}]>
               supply_map)
      supply_map results !! k <> None ->
    supply_map !! k <> None
    \/ exists oid v, In (oid, v) results /\ k = Diagnose.index_of oid.
Proof.
  induction results as [|[oid v] l IH]; intros supply_map k; [now left|].
  cbn [foldl]. intros H. apply IH in H as [H | (oid' & v' & Hin & ->)].
  - destruct (decide (Diagnose.index_of oid = k)) as [<- | Hne].
    + right. exists oid, v. split; [now left | reflexivity].
    + left. now rewrite lookup_insert_ne in H.
  - right. exists oid', v'. split; [now right | reflexivity].
Qed.

Lemma pair_at_kept (net : env) (ip base_oid : string) (i : Z) :
  pair_at net ip base_oid i
  = match kept_at net ip base_oid i with
    | Some iv => Some (probe_oid base_oid (fst iv), snd iv)
    | None => None
    end.
Proof. unfold pair_at, kept_at. now destruct (answer_at net ip base_oid i). Qed.

Lemma kept_at_index (net : env) (ip base_oid : string) (i j : Z)
    (v : string) :
  kept_at net ip base_oid i = Some (j, v) -> j = i.
Proof.
  unfold kept_at. destruct (answer_at net ip base_oid i); congruence.
Qed.

Lemma kept_pairs (net : env) (ip base_oid : string) (l : list Z) :
  omap (pair_at net ip base_oid) l
  = pairs_of base_oid (omap (kept_at net ip base_oid) l)
  /\ (forall x, In x (map fst (omap (kept_at net ip base_oid) l)) -> In x l)
  /\ (List.NoDup l ->
      List.NoDup (map fst (omap (kept_at net ip base_oid) l))).
Proof.
  induction l as [|i l (IH1 & IH2 & IH3)].
  - split; [reflexivity|]. split; [intros x []|]. intros _. constructor.
  - cbn [omap list_omap]. rewrite pair_at_kept.
    fold (omap (pair_at net ip base_oid) l).
    fold (omap (kept_at net ip base_oid) l).
    destruct (kept_at net ip base_oid i) as [[j v]|] eqn:Hk.
    + apply kept_at_index in Hk as ->. split; [|split].
      * unfold pairs_of. cbn [map fst snd]. f_equal. exact IH1.
      * cbn [map fst]. intros x [<- | Hx]; [now left | right; now apply IH2].
      * intros Hnd. apply List.NoDup_cons_iff in Hnd as [Hnotin Hnd].
        cbn [map fst]. apply List.NoDup_cons_iff. split; [|now apply IH3].
        intros Hin. apply Hnotin. now apply IH2.
    + split; [exact IH1|]. split; [intros x Hx; right; now apply IH2|].
      intros Hnd. apply List.NoDup_cons_iff in Hnd as [_ Hnd]. now apply IH3.
Qed.

(** The pairs a walk returns are those of distinct indices of the walk. *)
Lemma snmp_walk_shape (net : env) (ip base_oid : string) :
  exists ivs,
    FixTonerReading.snmp_walk net ip base_oid = pairs_of base_oid ivs
    /\ List.NoDup (map fst ivs)
    /\ Forall (fun iv => In (fst iv) FixTonerReading.walk_indices) ivs.
Proof.
  unfold FixTonerReading.snmp_walk, FixTonerReading.snmp_walk_trace.
  destruct (SnmpEngine net).
  2:{ exists []. split; [reflexivity|]. split; constructor. }
  pose proof (walk_loop_eq net ip base_oid 19 0) as Hloop.
  change (indices_from 1 19) with FixTonerReading.walk_indices in Hloop.
  change (pairs_upto net ip base_oid 0) with (@nil (string * string)) in Hloop.
  change (indices_from 1 0) with (@nil Z) in Hloop.
  rewrite Hloop. cbn [fst].
  pose proof (last_probed_bounds (halts net ip base_oid) 19 0)
    as [[_ Hle] _].
  set (n := last_probed (halts net ip base_oid) 0 19) in *.
  unfold pairs_upto.
  destruct (kept_pairs net ip base_oid (indices_from 1 n))
    as (Heq & Hsub & Hnd).
  exists (omap (kept_at net ip base_oid) (indices_from 1 n)).
  split; [exact Heq|]. split.
  - apply Hnd. unfold indices_from.
    apply NoDup_map_in; [|apply List.seq_NoDup]. intros x y _ _. lia.
  - apply List.Forall_forall. intros iv Hiv.
    assert (Hin : In (fst iv) (indices_from 1 n)).
    { apply Hsub. now apply List.in_map. }
    unfold indices_from, FixTonerReading.walk_indices in *.
    apply List.in_map_iff in Hin as (k & <- & Hk). apply List.in_map.
    apply List.in_seq in Hk. apply List.in_seq. lia.
Qed.

Lemma walked_column (net : env) (ip base_oid key : string)
    (convert : string -> string)
    (supply_map : gmap string (gmap string string)) (i : Z) :
  In i FixTonerReading.walk_indices ->
  Diagnose.add_column key convert
    (FixTonerReading.snmp_walk net ip base_oid) supply_map !! str_of_int i
  = (fun supply =>
       put_col key
         (convert <$> value_at (FixTonerReading.snmp_walk net ip base_oid)
                        base_oid i)
         supply)
      <$> supply_map !! str_of_int i.
Proof.
  intros Hi.
  destruct (snmp_walk_shape net ip base_oid) as (ivs & -> & Hnd & Hall).
  rewrite (value_at_pairs_of _ _ _ Hall Hi).
  now apply add_column_lookup.
Qed.

(** The supply map joins the five walks by index: the entry of an index of
    the walk exists exactly when the walk of the descriptions kept a value
    for that index, and it holds that description and, under their keys,
    the values the four other walks kept for the same index, the unit
    translated to its name.  Values at an index without a description are
    dropped, and the map has no key that is not an index with a
    description. *)
Theorem walk_supplies_joins_columns_by_index (net : env) (ip : string) :
  let walked base_oid i :=
    value_at (FixTonerReading.snmp_walk net ip base_oid) base_oid i in
  (forall i, In i FixTonerReading.walk_indices ->
     Diagnose.walk_supplies net ip !! str_of_int i
     = match walked "1.3.6.1.2.1.43.11.1.1.6.1" i with
       | None => None
       | Some d =>
           Some (put_col "current_level"
                   (walked "1.3.6.1.2.1.43.11.1.1.9.1" i)
                   (put_col "max_capacity"
                      (walked "1.3.6.1.2.1.43.11.1.1.8.1" i)
                      (put_col "unit"
                         (FixTonerReading.unit_name
                            <$> walked "1.3.6.1.2.1.43.11.1.1.7.1" i)
                         (put_col "type"
                            (walked "1.3.6.1.2.1.43.11.1.1.5.1" i)
                            {[ "description" := d ]}))))
       end)
  /\ (forall k, Diagnose.walk_supplies net ip !! k <> None ->
        exists i, In i FixTonerReading.walk_indices /\ k = str_of_int i
                  /\ walked "1.3.6.1.2.1.43.11.1.1.6.1" i <> None).
Proof.
  intros walked. unfold walked. clear walked.
  unfold Diagnose.walk_supplies, Diagnose.supply_map_of. split.
  - intros i Hi. rewrite !walked_column by exact Hi.
    unfold Diagnose.add_descriptions.
    destruct (snmp_walk_shape net ip "1.3.6.1.2.1.43.11.1.1.6.1")
      as (ivs & -> & Hnd & Hall).
    rewrite (add_descriptions_lookup _ _ ∅ i Hnd Hall Hi).
    rewrite (value_at_pairs_of _ _ _ Hall Hi), lookup_empty.
    destruct (kept ivs i) as [d|]; [|reflexivity].
    cbn [fmap option_fmap option_map].
    now rewrite !option_fmap_id.
  - intros k Hk.
    rewrite !add_column_keys in Hk. unfold Diagnose.add_descriptions in Hk.
    apply add_descriptions_keys in Hk as [Hk | (oid & v & Hin & ->)].
    + now rewrite lookup_empty in Hk.
    + destruct (snmp_walk_shape net ip "1.3.6.1.2.1.43.11.1.1.6.1")
        as (ivs & Heq & Hnd & Hall).
      rewrite Heq in Hin |- *. unfold pairs_of in Hin.
      apply List.in_map_iff in Hin as ([j w] & [= <- <-] & Hj).
      cbn [fst snd] in *.
      assert (Hjw : In j FixTonerReading.walk_indices).
      { rewrite List.Forall_forall in Hall. exact (Hall _ Hj). }
      exists j. split; [exact Hjw|].
      split; [now apply index_of_probe_oid|].
      rewrite (value_at_pairs_of _ _ _ Hall Hjw).
      unfold kept. destruct (List.find _ ivs) as [iv|] eqn:Hfind;
        [discriminate|].
      exfalso. apply (List.find_none _ _ Hfind) in Hj. cbn [fst] in Hj.
      now rewrite Z.eqb_refl in Hj.
Qed.

(** A supply whose level is missing is diagnosed as empty, not as unknown:
    for an entry of the supply map that is shown (its description names a
    toner or an ink) and has no current level, the level reads as 0, so a
    percent unit gives 0 % and a positive capacity gives a calculated 0.0 %;
    only a capacity that is missing or not positive gives "cannot
    calculate", and one that is no integer gives "unable". *)
Theorem missing_level_is_diagnosed_as_empty (supply : gmap string string)
    (desc : string) :
  supply !! "description" = Some desc ->
  existsb (fun keyword => contains keyword (lower desc))
    Diagnose.shown_keywords = true ->
  supply !! "current_level" = None ->
  Diagnose.diagnose_entry supply
  = Some (match parse_int (default "0" (supply !! "max_capacity")) with
          | None => Return FixTonerReading.Unable
          | Some max_val =>
              if String.eqb (default "Unknown" (supply !! "unit")) "percent"
              then Return (FixTonerReading.AlreadyPercent 0)
              else if 0 <? max_val
              then Return (FixTonerReading.Calculated (S754_zero false))
              else Return FixTonerReading.CannotCalculate
          end).
Proof.
  intros Hdesc Hshown Hlevel. unfold Diagnose.diagnose_entry.
  cbv zeta. rewrite Hdesc, Hlevel.
  change (default "Unknown" (Some desc)) with desc.
  change (default "0" (@None string)) with "0".
  rewrite Hshown. f_equal.
  unfold FixTonerReading.diagnose_supply, int_of_str, try_except.
  change (parse_int "0") with (Some 0). unfold_monad.
  destruct (parse_int (default "0" (supply !! "max_capacity")))
    as [max_val|]; [|reflexivity].
  destruct (String.eqb (default "Unknown" (supply !! "unit")) "percent");
    [reflexivity|].
  rewrite Z.gtb_ltb.
  destruct (Z.ltb_spec 0 max_val) as [Hpos | Hneg]; [|reflexivity].
  assert ((max_val =? -2) = false) as -> by lia.
  cbn [negb andb Z.eqb]. unfold int_true_div.
  assert ((max_val =? 0) = false) as -> by lia.
  assert ((max_val <? 0) = false) as -> by lia.
  reflexivity.
Qed.

Lemma missing_level_is_diagnosed_as_empty_witness :
  Diagnose.diagnose_entry
    (<["max_capacity" := "3000"]> {[ "description" := "Black Toner Cartridge" ]})
  = Some (Return (FixTonerReading.Calculated (S754_zero false))).
Proof.
  rewrite (missing_level_is_diagnosed_as_empty
             (<["max_capacity" := "3000"]>
                {[ "description" := "Black Toner Cartridge" ]})
             "Black Toner Cartridge");
    reflexivity.
Defined.

(** ** The reports *)

Lemma max_of_attained (values : list Z) (z : Z) :
  Reports.max_of values = Some z ->
  In z values /\ forall v, In v values -> v <= z.
Proof.
  destruct values as [|v0 rest]; [discriminate|]. intros [= <-].
  induction rest as [|v rest [IH1 IH2]]; simpl.
  - split; [now left|]. intros v [<- | []]. lia.
  - split.
    + destruct (Z.max_spec v (foldr Z.max v0 rest)) as [[_ ->] | [_ ->]].
      * destruct IH1 as [<- | IH1]; [now left | now right; right].
      * now right; left.
    + intros w [E | [E | Hw]].
      * specialize (IH2 w (or_introl E)). lia.
      * lia.
      * specialize (IH2 w (or_intror Hw)). lia.
Qed.

Lemma min_of_attained (values : list Z) (z : Z) :
  Reports.min_of values = Some z ->
  In z values /\ forall v, In v values -> z <= v.
Proof.
  destruct values as [|v0 rest]; [discriminate|]. intros [= <-].
  induction rest as [|v rest [IH1 IH2]]; simpl.
  - split; [now left|]. intros v [<- | []]. lia.
  - split.
    + destruct (Z.min_spec v (foldr Z.min v0 rest)) as [[_ ->] | [_ ->]].
      * now right; left.
      * destruct IH1 as [<- | IH1]; [now left | now right; right].
    + intros w [E | [E | Hw]].
      * specialize (IH2 w (or_introl E)). lia.
      * lia.
      * specialize (IH2 w (or_intror Hw)). lia.
Qed.

Lemma NoDup_map_filter {A B : Type} (f : A -> B) (P : A -> bool)
    (l : list A) :
  List.NoDup (map f l) -> List.NoDup (map f (List.filter P l)).
Proof.
  induction l as [|a l IH]; [constructor|]. simpl. intros Hnd.
  apply List.NoDup_cons_iff in Hnd as [Hnotin Hnd].
  destruct (P a); [|now apply IH]. simpl. apply List.NoDup_cons_iff.
  split; [|now apply IH]. intros Hin. apply Hnotin.
  apply List.in_map_iff in Hin as (x & Hx & Hin).
  apply List.filter_In in Hin as [Hin _]. rewrite <- Hx.
  now apply List.in_map.
Qed.

Lemma filter_unique {A : Type} (f : A -> Z) (l : list A) (x : A) :
  List.NoDup (map f l) -> In x l ->
  List.filter (fun y => f y =? f x) l = [x].
Proof.
  induction l as [|a l IH]; [intros _ []|]. simpl. intros Hnd Hin.
  apply List.NoDup_cons_iff in Hnd as [Hnotin Hnd].
  destruct Hin as [-> | Hin].
  - rewrite Z.eqb_refl. f_equal.
    clear IH Hnd. induction l as [|b l IHl]; [reflexivity|]. simpl.
    destruct (Z.eqb_spec (f b) (f x)) as [E | _].
    + exfalso. apply Hnotin. left. exact E.
    + apply IHl. intros H. apply Hnotin. now right.
  - destruct (Z.eqb_spec (f a) (f x)) as [E | _]; [|now apply IH].
    exfalso. apply Hnotin. rewrite E. now apply List.in_map.
Qed.

Lemma filter_flat_map {A B : Type} (P : B -> bool) (g : A -> list B)
    (l : list A) :
  List.filter P (flat_map g l) = flat_map (fun x => List.filter P (g x)) l.
Proof.
  induction l as [|a l IH]; [reflexivity|]. simpl.
  now rewrite List.filter_app, IH.
Qed.

(** A sample passes the test of the status query exactly when its id is the
    greatest of its own printer. *)
Lemma is_latest (rows : list metrics_row) (m : metrics_row) :
  List.NoDup (map m_id rows) -> In m rows ->
  existsb (Z.eqb (m_id m)) (Reports.latest_ids rows) = true
  <-> Reports.max_of (Reports.group_ids rows (m_printer_id m))
      = Some (m_id m).
Proof.
  intros Hnd Hm. unfold Reports.latest_ids. rewrite List.existsb_exists.
  split.
  - intros (z & Hz & E). apply Z.eqb_eq in E. subst z.
    apply list_elem_of_In, list_elem_of_omap in Hz as (pid & _ & Hmax).
    destruct (max_of_attained _ _ Hmax) as [Hin _].
    unfold Reports.group_ids in Hin.
    apply List.in_map_iff in Hin as (m' & Hid & Hm').
    apply List.filter_In in Hm' as [Hm' Hpid]. apply Z.eqb_eq in Hpid.
    rewrite (NoDup_map_eq m_id rows m' m Hnd Hm' Hm Hid) in Hpid.
    now rewrite Hpid.
  - intros Hmax. exists (m_id m). split; [|apply Z.eqb_refl].
    apply list_elem_of_In, list_elem_of_omap.
    exists (m_printer_id m). split; [|exact Hmax].
    apply list_elem_of_In, List.nodup_In. now apply List.in_map.
Qed.

(** What the status query keeps of the joined rows of one printer. *)
Lemma status_of_printer (db : database) (p : printer_row) :
  unique_metric_ids db ->
  exists om,
    List.filter (Reports.is_current db)
      match List.filter (fun m => m_printer_id m =? p_id p)
              (metrics_rows db) with
      | [] => [(p, None)]
      | samples => map (fun m => (p, Some m)) samples
      end
    = [(p, om)]
    /\ match om with
       | None =>
           forall m, In m (metrics_rows db) -> m_printer_id m <> p_id p
       | Some m =>
           In m (metrics_rows db) /\ m_printer_id m = p_id p
           /\ forall m', In m' (metrics_rows db) ->
                         m_printer_id m' = p_id p -> m_id m' <= m_id m
       end.
Proof.
  intros Hnd. unfold unique_metric_ids in Hnd.
  set (rows := metrics_rows db) in *.
  destruct (List.filter (fun m => m_printer_id m =? p_id p) rows)
    as [|m0 ms] eqn:Hms.
  - exists None. split; [reflexivity|]. intros m Hm Hpid.
    assert (Hin : In m (List.filter (fun m => m_printer_id m =? p_id p) rows)).
    { apply List.filter_In. split; [exact Hm | now apply Z.eqb_eq]. }
    now rewrite Hms in Hin.
  - rewrite <- Hms.
    set (samples := List.filter (fun m => m_printer_id m =? p_id p) rows).
    assert (Hgroup : Reports.group_ids rows (p_id p) = map m_id samples)
      by reflexivity.
    destruct (Reports.max_of (map m_id samples)) as [z|] eqn:Hmax.
    2:{ unfold samples in Hmax. rewrite Hms in Hmax. discriminate. }
    destruct (max_of_attained _ _ Hmax) as [Hz Hle].
    apply List.in_map_iff in Hz as (mx & Hzx & Hmx). subst z.
    assert (Hsamples : forall m, In m samples <->
                                 In m rows /\ m_printer_id m = p_id p).
    { intros m. unfold samples. rewrite List.filter_In, Z.eqb_eq. tauto. }
    exists (Some mx). split.
    + assert (Hfilter :
        List.filter (Reports.is_current db)
          (map (fun m => (p, Some m)) samples)
        = map (fun m => (p, Some m))
            (List.filter (fun m => m_id m =? m_id mx) samples)).
      { clear Hmx. assert (Hsub : forall m, In m samples -> In m samples)
          by auto.
        revert Hsub. generalize samples at 1 3 4.
        intros l. induction l as [|m l IH]; intros Hsub; [reflexivity|].
        cbn [map List.filter]. unfold Reports.is_current at 1. cbn [snd].
        fold rows.
        assert (Hm : In m samples) by (apply Hsub; now left).
        apply Hsamples in Hm as [Hm Hpid].
        assert (Hb : existsb (Z.eqb (m_id m)) (Reports.latest_ids rows)
                     = (m_id m =? m_id mx)).
        { apply eq_true_iff_eq. rewrite (is_latest rows m Hnd Hm).
          rewrite Hpid, Hgroup, Hmax, Z.eqb_eq. split; congruence. }
        rewrite Hb, IH by (intros x Hx; apply Hsub; now right).
        now destruct (m_id m =? m_id mx). }
      rewrite Hfilter.
      rewrite (filter_unique m_id samples mx); [reflexivity | | exact Hmx].
      now apply NoDup_map_filter.
    + apply Hsamples in Hmx as [Hmx Hpid]. split; [exact Hmx|].
      split; [exact Hpid|]. intros m' Hm' Hpid'. apply Hle.
      apply List.in_map. apply Hsamples. auto.
Qed.

Lemma status_rows (db : database) :
  unique_metric_ids db ->
  map fst (List.filter (Reports.is_current db) (Reports.left_join db))
  = printers db
  /\ forall p om,
       In (p, om)
         (List.filter (Reports.is_current db) (Reports.left_join db)) ->
       match om with
       | None =>
           forall m, In m (metrics_rows db) -> m_printer_id m <> p_id p
       | Some m =>
           In m (metrics_rows db) /\ m_printer_id m = p_id p
           /\ forall m', In m' (metrics_rows db) ->
                         m_printer_id m' = p_id p -> m_id m' <= m_id m
       end.
Proof.
  intros Hnd. unfold Reports.left_join. rewrite filter_flat_map.
  induction (printers db) as [|p l [IH1 IH2]].
  - split; [reflexivity | intros p om []].
  - cbn [flat_map].
    destruct (status_of_printer db p Hnd) as (om & -> & Hom).
    split; [simpl; now f_equal|].
    intros q oq [[= <- <-] | Hin]; [exact Hom | now apply IH2].
Qed.

(** The status report shows every printer exactly once, together with the
    sample stored for it under the greatest id, which is the one stored
    last, or with no sample when none is stored for it. *)
Theorem current_status_shows_latest_sample
    (ordered : list (printer_row * option metrics_row)
               -> list (printer_row * option metrics_row))
    (db : database) :
  (forall rows, Permutation (ordered rows) rows) ->
  unique_metric_ids db ->
  Permutation (map fst (Reports.current_status ordered db)) (printers db)
  /\ forall p om,
       In (p, om) (Reports.current_status ordered db) ->
       match om with
       | None =>
           forall m, In m (metrics_rows db) -> m_printer_id m <> p_id p
       | Some m =>
           In m (metrics_rows db) /\ m_printer_id m = p_id p
           /\ forall m', In m' (metrics_rows db) ->
                         m_printer_id m' = p_id p -> m_id m' <= m_id m
       end.
Proof.
  intros Hperm Hnd. destruct (status_rows db Hnd) as [Hfst Hrows].
  unfold Reports.current_status. split.
  - rewrite <- Hfst. apply Permutation_map, Hperm.
  - intros p om Hin. apply Hrows. exact (Permutation_in _ (Hperm _) Hin).
Qed.

Lemma sampled_printers_unique : unique_metric_ids sampled_printers.
Proof.
  unfold unique_metric_ids. vm_compute.
  repeat (constructor; [simpl; intuition discriminate|]). constructor.
Qed.

Lemma current_status_shows_latest_sample_witness :
  Permutation
    (map fst (Reports.current_status
                (@List.rev (printer_row * option metrics_row))
                sampled_printers))
    (printers sampled_printers).
Proof.
  apply (current_status_shows_latest_sample
           (@List.rev (printer_row * option metrics_row)) sampled_printers).
  - intros rows. apply Permutation_sym, Permutation_rev.
  - exact sampled_printers_unique.
Defined.

Lemma usage_of_Some (db : database) (cutoff : Z) (p q : printer_row)
    (u : Reports.usage) :
  Reports.usage_of db cutoff p = Some (q, u) ->
  q = p
  /\ Reports.min_of (Reports.counters db cutoff p)
     = Some (Reports.start_pages u)
  /\ Reports.max_of (Reports.counters db cutoff p) = Some (Reports.end_pages u)
  /\ Reports.pages_printed u = Reports.end_pages u - Reports.start_pages u
  /\ Reports.readings u
     = Z.of_nat (length (Reports.counters db cutoff p)).
Proof.
  unfold Reports.usage_of.
  destruct (Reports.min_of _) as [lo|]; [|discriminate].
  destruct (Reports.max_of _) as [hi|]; [|discriminate].
  intros [= <- <-]. auto.
Qed.

Lemma nondecreasing_first (c : Z) (cs : list Z) :
  nondecreasing (c :: cs) = true -> forall x, In x (c :: cs) -> c <= x.
Proof.
  revert c. induction cs as [|d cs IH]; intros c H x Hx.
  - destruct Hx as [<- | []]. lia.
  - cbn [nondecreasing] in H. apply andb_true_iff in H as [Hcd H].
    apply Z.leb_le in Hcd. destruct Hx as [<- | Hx]; [lia|].
    specialize (IH d H x Hx). lia.
Qed.

Lemma nondecreasing_last (c : Z) (cs : list Z) :
  nondecreasing (c :: cs) = true ->
  In (List.last (c :: cs) 0) (c :: cs)
  /\ forall x, In x (c :: cs) -> x <= List.last (c :: cs) 0.
Proof.
  revert c. induction cs as [|d cs IH]; intros c H.
  - simpl. split; [now left|]. intros x [<- | []]. lia.
  - cbn [nondecreasing] in H. apply andb_true_iff in H as [Hcd H].
    apply Z.leb_le in Hcd. destruct (IH d H) as [Hin Hle].
    change (List.last (c :: d :: cs) 0) with (List.last (d :: cs) 0).
    split; [now right|]. intros x [<- | Hx]; [|now apply Hle].
    specialize (Hle d (or_introl eq_refl)). lia.
Qed.

Lemma total_pages_printed_eq (rows : list (printer_row * Reports.usage)) :
  Reports.total_pages_printed rows = sum_printed rows.
Proof.
  unfold Reports.total_pages_printed.
  assert (H : forall acc,
    fold_left
      (fun total row =>
         if Reports.pages_printed (snd row) =? 0 then total
         else total + Reports.pages_printed (snd row))
      rows acc
    = acc + sum_printed rows).
  { induction rows as [|row rows IH]; intros acc; simpl; [lia|].
    rewrite IH.
    destruct (Z.eqb_spec (Reports.pages_printed (snd row)) 0) as [E | _];
      lia. }
  now rewrite H.
Qed.

Lemma sum_printed_Permutation (l l' : list (printer_row * Reports.usage)) :
  Permutation l l' -> sum_printed l = sum_printed l'.
Proof.
  unfold sum_printed. induction 1; simpl; lia.
Qed.

Lemma usage_row (db : database) (cutoff : Z) (p : printer_row)
    (u : Reports.usage) :
  In (p, u) (omap (Reports.usage_of db cutoff) (printers db)) ->
  In p (printers db)
  /\ Reports.pages_printed u = Reports.end_pages u - Reports.start_pages u
  /\ 0 <= Reports.pages_printed u
  /\ 1 <= Reports.readings u
  /\ In (Reports.start_pages u) (Reports.counters db cutoff p)
  /\ In (Reports.end_pages u) (Reports.counters db cutoff p)
  /\ (forall c, In c (Reports.counters db cutoff p) ->
        Reports.start_pages u <= c <= Reports.end_pages u)
  /\ (nondecreasing (Reports.counters db cutoff p) = true ->
        Reports.start_pages u = List.hd 0 (Reports.counters db cutoff p)
        /\ Reports.end_pages u = List.last (Reports.counters db cutoff p) 0).
Proof.
  intros Hin. apply list_elem_of_In, list_elem_of_omap in Hin
    as (q & Hq & Hu).
  apply list_elem_of_In in Hq.
  apply usage_of_Some in Hu as (E & Hmin & Hmax & Hprinted & Hreadings).
  subst q.
  destruct (min_of_attained _ _ Hmin) as [Hlo Hlo'].
  destruct (max_of_attained _ _ Hmax) as [Hhi Hhi'].
  split; [exact Hq|]. split; [exact Hprinted|].
  split; [specialize (Hlo' _ Hhi); lia|]. split.
  { rewrite Hreadings.
    destruct (Reports.counters db cutoff p); [destruct Hlo | simpl; lia]. }
  split; [exact Hlo|]. split; [exact Hhi|]. split.
  { intros c Hc. specialize (Hlo' c Hc). specialize (Hhi' c Hc). lia. }
  intros Hmono.
  destruct (Reports.counters db cutoff p) as [|c cs]; [destruct Hlo|].
  pose proof (nondecreasing_first c cs Hmono) as Hfirst.
  destruct (nondecreasing_last c cs Hmono) as [Hlast Hlast'].
  cbn [List.hd]. split.
  - specialize (Hfirst _ Hlo). specialize (Hlo' c (or_introl eq_refl)). lia.
  - specialize (Hlast' _ Hhi). specialize (Hhi' _ Hlast). lia.
Qed.

(** The usage report never shows a negative usage: every row belongs to a
    stored printer with at least one page counter in the period, its first
    and last counters are the least and the greatest of the period, and the
    pages printed are their difference, zero or more.  When the counter
    never decreased from one reading to the next, that is the last reading
    less the first.  The total under the report is the sum of the rows,
    zero or more. *)
Theorem usage_report_is_never_negative
    (ordered : list (printer_row * Reports.usage)
               -> list (printer_row * Reports.usage))
    (db : database) (cutoff : Z) :
  (forall rows, Permutation (ordered rows) rows) ->
  (forall p u,
     In (p, u) (Reports.usage_rows ordered db cutoff) ->
     In p (printers db)
     /\ Reports.pages_printed u
        = Reports.end_pages u - Reports.start_pages u
     /\ 0 <= Reports.pages_printed u
     /\ 1 <= Reports.readings u
     /\ In (Reports.start_pages u) (Reports.counters db cutoff p)
     /\ In (Reports.end_pages u) (Reports.counters db cutoff p)
     /\ (forall c, In c (Reports.counters db cutoff p) ->
           Reports.start_pages u <= c <= Reports.end_pages u)
     /\ (nondecreasing (Reports.counters db cutoff p) = true ->
           Reports.start_pages u = List.hd 0 (Reports.counters db cutoff p)
           /\ Reports.end_pages u
              = List.last (Reports.counters db cutoff p) 0))
  /\ Reports.total_pages_printed (Reports.usage_rows ordered db cutoff)
     = sum_printed (Reports.usage_rows ordered db cutoff)
  /\ 0 <= Reports.total_pages_printed (Reports.usage_rows ordered db cutoff).
Proof.
  intros Hperm. unfold Reports.usage_rows.
  assert (Hrows : forall p u,
    In (p, u) (ordered (omap (Reports.usage_of db cutoff) (printers db))) ->
    In (p, u) (omap (Reports.usage_of db cutoff) (printers db))).
  { intros p u. apply Permutation_in, Hperm. }
  split; [|split].
  - intros p u Hin. apply usage_row. now apply Hrows.
  - apply total_pages_printed_eq.
  - rewrite total_pages_printed_eq.
    rewrite (sum_printed_Permutation _ _ (Hperm _)).
    assert (Hall : forall row,
      In row (omap (Reports.usage_of db cutoff) (printers db)) ->
      0 <= Reports.pages_printed (snd row)).
    { intros [p u] Hin. now apply usage_row in Hin. }
    revert Hall. generalize (omap (Reports.usage_of db cutoff) (printers db)).
    intros l Hall. induction l as [|row l IH]; simpl; [lia|].
    specialize (Hall row (or_introl eq_refl)) as H0.
    assert (0 <= sum_printed l) by (apply IH; intros; apply Hall; now right).
    unfold sum_printed in *. lia.
Qed.

Lemma usage_report_is_never_negative_witness :
  Reports.total_pages_printed
    (Reports.usage_rows (@List.rev (printer_row * Reports.usage))
       sampled_printers 1700000000)
  = sum_printed
      (Reports.usage_rows (@List.rev (printer_row * Reports.usage))
         sampled_printers 1700000000).
Proof.
  apply (usage_report_is_never_negative
           (@List.rev (printer_row * Reports.usage)) sampled_printers
           1700000000).
  intros rows. apply Permutation_sym, Permutation_rev.
Defined.

(** ** Which row a stored value comes from *)

Lemma supply_step_fields (net : env) (ip : string) (m m' : metrics)
    (index : Z) :
  supply_step net ip m index = Return m' ->
  total_pages m' = total_pages m /\ model m' = model m
  /\ device_status m' = device_status m
  /\ toner_level_pct m'
     = match toner_pct_at net ip index with
       | Some p => Some p
       | None => toner_level_pct m
       end
  /\ toner_status m'
     = match toner_status_at net ip index with
       | Some st => Some st
       | None => toner_status m
       end
  /\ drum_level_pct m'
     = match drum_pct_at net ip index with
       | Some p => Some p
       | None => drum_level_pct m
       end.
Proof.
  rewrite supply_step_kind.
  unfold toner_pct_at, toner_status_at, drum_pct_at. unfold_monad.
  destruct (kind_of_row net ip index) as [|current max_cap|current max_cap|].
  - intros [= <-]. auto 10.
  - destruct (calculate_toner_percentage current max_cap)
      as [[[p|] [st|]]|e]; try discriminate; intros [= <-]; simpl;
      try (destruct (truthy st)); simpl; auto 10.
  - destruct (calculate_toner_percentage current max_cap)
      as [[[p|] [st|]]|e]; try discriminate; intros [= <-]; simpl; auto 10.
  - intros [= <-]. auto 10.
Qed.

Lemma supply_loop_fields (net : env) (ip : string) (indices : list Z) :
  forall m c,
    foldM (supply_step net ip) indices m = Return c ->
    total_pages c = total_pages m /\ model c = model m
    /\ device_status c = device_status m
    /\ toner_level_pct c
       = last_given (toner_pct_at net ip) indices (toner_level_pct m)
    /\ toner_status c
       = last_given (toner_status_at net ip) indices (toner_status m)
    /\ drum_level_pct c
       = last_given (drum_pct_at net ip) indices (drum_level_pct m).
Proof.
  induction indices as [|index rest IH]; intros m c H.
  - injection H as <-. simpl. auto 10.
  - apply foldM_cons_Return in H as (m' & Hstep & Hrest).
    apply supply_step_fields in Hstep as (S1 & S2 & S3 & S4 & S5 & S6).
    apply IH in Hrest as (R1 & R2 & R3 & R4 & R5 & R6).
    unfold last_given in *. cbn [foldl].
    rewrite <- S4, <- S5, <- S6.
    repeat split; congruence.
Qed.

(** Every field of a sample is determined by what the device answered: the
    page counter and the device status are the integers of the direct
    probes (a text that is no integer is dropped without failing the
    sample), the model is the text probed, and each supply field holds the
    value of the last of the indices 1 to 9 that gave one: with several
    black toner rows the last one wins, and a percentage and a status may
    come from different rows. *)
Theorem sample_is_determined_by_last_rows (net : env) (ip : string)
    (m : metrics) :
  get_printer_metrics_async net ip = Return (Some m) ->
  total_pages m = (v ← column net ip total_pages_oid; parse_int v)
  /\ model m = column net ip model_oid
  /\ device_status m = (v ← column net ip device_status_oid; parse_int v)
  /\ toner_level_pct m = last_given (toner_pct_at net ip) supply_indices None
  /\ toner_status m = last_given (toner_status_at net ip) supply_indices None
  /\ drum_level_pct m = last_given (drum_pct_at net ip) supply_indices None.
Proof.
  rewrite get_printer_metrics_async_eq. unfold_monad.
  destruct (foldM (supply_step net ip) supply_indices (basic_metrics net ip))
    as [c|] eqn:Hloop; [|discriminate].
  destruct (any_value c); [|discriminate]. intros [= <-].
  exact (supply_loop_fields net ip supply_indices _ _ Hloop).
Qed.

Lemma sample_is_determined_by_last_rows_witness :
  exists m,
    get_printer_metrics_async second_toner_wins "10.164.1.30"
    = Return (Some m)
    /\ toner_level_pct m = Some 25.
Proof.
  destruct (get_printer_metrics_async second_toner_wins "10.164.1.30")
    as [[m|]|e] eqn:H.
  - exists m. split; [reflexivity|].
    destruct (sample_is_determined_by_last_rows _ _ _ H)
      as (_ & _ & _ & -> & _).
    vm_compute. reflexivity.
  - exfalso. vm_compute in H. discriminate.
  - exfalso. vm_compute in H. discriminate.
Defined.

